(** * ETL_project_GDP: the extract / transform / load notebook, embedded in Rocq

    The notebook [etl_project_gdp.ipynb] scrapes a table of GDP figures,
    rescales the figures and stores them in a CSV file and a MySQL table.
    This development embeds its code cells: Python exceptions become a
    [result] type, the BeautifulSoup document a rose tree, the pandas
    DataFrame an ordered list of named columns kept in a store of objects
    (so that in-place updates and aliasing are visible), binary64 numbers
    the [spec_float] of the standard library, and the MySQL server a finite
    map of schemas. *)

From Stdlib Require Import ZArith NArith List String Ascii Bool Lia QArith Qabs Sorted.
From Stdlib Require Import Floats.SpecFloat.
From stdpp Require Import gmap strings list pretty.

Local Open Scope list_scope.

(** ** Python exceptions and results *)

Module Py.

Inductive exn_class :=
| IndexError | ValueError | KeyError | NameError | TypeError
| AttributeError | InvalidIndexError
| RequestException | OSError | DatabaseError.

(** An exception object: its class and [str(e)], the text an f-string
    interpolates. *)
Record exn := Exn { exn_cls : exn_class; exn_msg : string }.

Inductive result (A : Type) :=
| Ok (a : A)
| Raise (e : exn).
Arguments Ok {A} a.
Arguments Raise {A} e.

#[global] Instance result_ret : MRet result := fun A a => Ok a.
#[global] Instance result_bind : MBind result := fun A B f m =>
  match m with
  | Ok a => f a
  | Raise e => Raise e
  end.

(** [l[i]] on a Python list. *)
Definition getitem {A} (l : list A) (i : nat) : result A :=
  match l !! i with
  | Some x => Ok x
  | None => Raise (Exn IndexError "list index out of range")
  end.

(** [for x in l: acc = body(x, acc)], stopping at the first exception. *)
Fixpoint for_each {A S} (body : A -> S -> result S) (l : list A) (acc : S)
  : result S :=
  match l with
  | [] => Ok acc
  | x :: l' => acc' ← body x acc; for_each body l' acc'
  end.

(** [[f(x) for x in l]], stopping at the first exception. *)
Fixpoint comprehension {A B} (f : A -> result B) (l : list A)
  : result (list B) :=
  match l with
  | [] => Ok []
  | x :: l' => y ← f x; ys ← comprehension f l'; Ok (y :: ys)
  end.

(** [sep.join(l)] *)
Fixpoint join (sep : string) (l : list string) : string :=
  match l with
  | [] => EmptyString
  | [s] => s
  | s :: l' => s +:+ sep +:+ join sep l'
  end.

(** [s.split(c)] for a one-character separator [c]: never empty. *)
Fixpoint split (c : ascii) (s : string) : list string :=
  match s with
  | EmptyString => [EmptyString]
  | String a s' =>
      if Ascii.eqb a c then EmptyString :: split c s'
      else match split c s' with
           | [] => [String a EmptyString]
           | w :: ws => String a w :: ws
           end
  end.

End Py.
Export Py.

(** ** The parsed document (BeautifulSoup) *)

Module Html.

(** A page element: a [NavigableString] (a [str] subclass) or a [Tag]
    with its name, attributes and [contents]. *)
#[warnings="-register-all"]
Inductive node :=
| NavigableString (s : string)
| Tag (name : string) (attrs : list (string * string)) (contents : list node).

Definition contents (n : node) : list node :=
  match n with
  | NavigableString _ => []
  | Tag _ _ cs => cs
  end.

(** [tag.descendants]: every element below [n], in document order. *)
Fixpoint descendants (n : node) : list node :=
  match n with
  | NavigableString _ => []
  | Tag _ _ cs => flat_map (fun c => c :: descendants c) cs
  end.

Definition is_tag (name : string) (n : node) : bool :=
  match n with
  | NavigableString _ => false
  | Tag nm _ _ => String.eqb nm name
  end.

(** [tag.find_all(name)]: the descendants that are tags called [name]. *)
Definition find_all (name : string) (n : node) : list node :=
  List.filter (is_tag name) (descendants n).

(** [tag.find(name)], also written [tag.name]: the first of them, or
    [None]. *)
Definition find (name : string) (n : node) : option node :=
  head (find_all name n).

(** [s in tag], that is [s in tag.contents]: some direct child is a
    string equal to [s] (a tag never equals a [str]). *)
Definition contains (s : string) (n : node) : bool :=
  existsb (fun c => match c with
                    | NavigableString t => String.eqb t s
                    | Tag _ _ _ => false
                    end) (contents n).

(** [tag.get_text()]: the strings below [n], concatenated. *)
Fixpoint get_text (n : node) : string :=
  match n with
  | NavigableString s => s
  | Tag _ _ cs => fold_right (fun c acc => get_text c +:+ acc) EmptyString cs
  end.

End Html.
Export Html.

(** ** Python strings: the characters of a [str] *)

Module Unicode.

(** A [str] is kept as the bytes of its UTF-8 encoding.  [chars] gives its
    characters: the code point of each and the bytes that write it.  A
    byte that starts no well-formed sequence, which the encoding of a
    [str] never has, counts as a character beyond U+10FFFF. *)
Definition byte (c : ascii) : N := N_of_ascii c.

Definition continuation (c : ascii) : option N :=
  if (128 <=? byte c)%N && (byte c <? 192)%N then Some (byte c - 128)%N else None.

Definition ill_formed (a : ascii) : N * string :=
  (1114112 + byte a, String a EmptyString)%N.

Definition in_range (lo hi cp : N) : bool := (lo <=? cp)%N && (cp <=? hi)%N.

Fixpoint chars (s : string) : list (N * string) :=
  match s with
  | EmptyString => []
  | String a s1 =>
      if (byte a <? 128)%N then (byte a, String a EmptyString) :: chars s1
      else
        match s1 with
        | EmptyString => [ill_formed a]
        | String b s2 =>
            match continuation b with
            | None => ill_formed a :: chars s1
            | Some y =>
                if in_range 194 223 (byte a)
                then (((byte a - 192) * 64 + y)%N, String a (String b EmptyString))
                     :: chars s2
                else
                  match s2 with
                  | EmptyString => ill_formed a :: chars s1
                  | String c s3 =>
                      match continuation c with
                      | None => ill_formed a :: chars s1
                      | Some z =>
                          let cp3 := (((byte a - 224) * 64 + y) * 64 + z)%N in
                          if in_range 224 239 (byte a) && (2048 <=? cp3)%N
                          then (cp3, String a (String b (String c EmptyString)))
                               :: chars s3
                          else
                            match s3 with
                            | EmptyString => ill_formed a :: chars s1
                            | String d s4 =>
                                match continuation d with
                                | None => ill_formed a :: chars s1
                                | Some u =>
                                    let cp4 :=
                                      ((((byte a - 240) * 64 + y) * 64 + z) * 64 + u)%N in
                                    if in_range 240 244 (byte a)
                                       && in_range 65536 1114111 cp4
                                    then (cp4, String a (String b (String c
                                                 (String d EmptyString))))
                                         :: chars s4
                                    else ill_formed a :: chars s1
                                end
                            end
                      end
                  end
            end
        end
  end.

(** [Py_UNICODE_ISSPACE] above ASCII (Unicode 14.0, that of Python 3.11):
    U+0085, U+00A0, U+1680, U+2000..U+200A, U+2028, U+2029, U+202F,
    U+205F and U+3000. *)
Definition spaces : list (N * N) :=
  [(133, 133); (160, 160); (5760, 5760); (8192, 8202); (8232, 8233);
   (8239, 8239); (8287, 8287); (12288, 12288)]%N.

Definition is_space (cp : N) : bool :=
  existsb (fun r => in_range (fst r) (snd r) cp) spaces.

(** [Py_UNICODE_TODECIMAL] above ASCII: the decimal digits of a script
    are ten consecutive code points; these are the zeros. *)
Definition decimal_zeros : list N :=
  [1632; 1776; 1984; 2406; 2534; 2662; 2790; 2918; 3046; 3174; 3302; 3430;
   3558; 3664; 3792; 3872; 4160; 4240; 6112; 6160; 6470; 6608; 6784; 6800;
   6992; 7088; 7232; 7248; 42528; 43216; 43264; 43472; 43504; 43600; 44016;
   65296; 66720; 68912; 69734; 69872; 69942; 70096; 70384; 70736; 70864;
   71248; 71360; 71472; 71904; 72016; 72784; 73040; 73120; 92768; 92864;
   93008; 120782; 120792; 120802; 120812; 120822; 123200; 123632; 125264;
   130032]%N.

Definition decimal (cp : N) : option N :=
  (fun z => cp - z)%N <$> List.find (fun z => in_range z (z + 9) cp) decimal_zeros.

(** [Py_UNICODE_ISPRINTABLE] above ASCII: the code points that are not
    in a category of controls, formats, surrogates, private use,
    unassigned ones and separators. *)
Definition printable_ranges : list (N * N) :=
  [(161, 172); (174, 887); (890, 895); (900, 906); (908, 908); (910, 929);
   (931, 1327); (1329, 1366); (1369, 1418); (1421, 1423); (1425, 1479);
   (1488, 1514); (1519, 1524); (1542, 1563); (1565, 1756); (1758, 1805);
   (1808, 1866); (1869, 1969); (1984, 2042); (2045, 2093); (2096, 2110);
   (2112, 2139); (2142, 2142); (2144, 2154); (2160, 2190); (2200, 2273);
   (2275, 2435); (2437, 2444); (2447, 2448); (2451, 2472); (2474, 2480);
   (2482, 2482); (2486, 2489); (2492, 2500); (2503, 2504); (2507, 2510);
   (2519, 2519); (2524, 2525); (2527, 2531); (2534, 2558); (2561, 2563);
   (2565, 2570); (2575, 2576); (2579, 2600); (2602, 2608); (2610, 2611);
   (2613, 2614); (2616, 2617); (2620, 2620); (2622, 2626); (2631, 2632);
   (2635, 2637); (2641, 2641); (2649, 2652); (2654, 2654); (2662, 2678);
   (2689, 2691); (2693, 2701); (2703, 2705); (2707, 2728); (2730, 2736);
   (2738, 2739); (2741, 2745); (2748, 2757); (2759, 2761); (2763, 2765);
   (2768, 2768); (2784, 2787); (2790, 2801); (2809, 2815); (2817, 2819);
   (2821, 2828); (2831, 2832); (2835, 2856); (2858, 2864); (2866, 2867);
   (2869, 2873); (2876, 2884); (2887, 2888); (2891, 2893); (2901, 2903);
   (2908, 2909); (2911, 2915); (2918, 2935); (2946, 2947); (2949, 2954);
   (2958, 2960); (2962, 2965); (2969, 2970); (2972, 2972); (2974, 2975);
   (2979, 2980); (2984, 2986); (2990, 3001); (3006, 3010); (3014, 3016);
   (3018, 3021); (3024, 3024); (3031, 3031); (3046, 3066); (3072, 3084);
   (3086, 3088); (3090, 3112); (3114, 3129); (3132, 3140); (3142, 3144);
   (3146, 3149); (3157, 3158); (3160, 3162); (3165, 3165); (3168, 3171);
   (3174, 3183); (3191, 3212); (3214, 3216); (3218, 3240); (3242, 3251);
   (3253, 3257); (3260, 3268); (3270, 3272); (3274, 3277); (3285, 3286);
   (3293, 3294); (3296, 3299); (3302, 3311); (3313, 3314); (3328, 3340);
   (3342, 3344); (3346, 3396); (3398, 3400); (3402, 3407); (3412, 3427);
   (3430, 3455); (3457, 3459); (3461, 3478); (3482, 3505); (3507, 3515);
   (3517, 3517); (3520, 3526); (3530, 3530); (3535, 3540); (3542, 3542);
   (3544, 3551); (3558, 3567); (3570, 3572); (3585, 3642); (3647, 3675);
   (3713, 3714); (3716, 3716); (3718, 3722); (3724, 3747); (3749, 3749);
   (3751, 3773); (3776, 3780); (3782, 3782); (3784, 3789); (3792, 3801);
   (3804, 3807); (3840, 3911); (3913, 3948); (3953, 3991); (3993, 4028);
   (4030, 4044); (4046, 4058); (4096, 4293); (4295, 4295); (4301, 4301);
   (4304, 4680); (4682, 4685); (4688, 4694); (4696, 4696); (4698, 4701);
   (4704, 4744); (4746, 4749); (4752, 4784); (4786, 4789); (4792, 4798);
   (4800, 4800); (4802, 4805); (4808, 4822); (4824, 4880); (4882, 4885);
   (4888, 4954); (4957, 4988); (4992, 5017); (5024, 5109); (5112, 5117);
   (5120, 5759); (5761, 5788); (5792, 5880); (5888, 5909); (5919, 5942);
   (5952, 5971); (5984, 5996); (5998, 6000); (6002, 6003); (6016, 6109);
   (6112, 6121); (6128, 6137); (6144, 6157); (6159, 6169); (6176, 6264);
   (6272, 6314); (6320, 6389); (6400, 6430); (6432, 6443); (6448, 6459);
   (6464, 6464); (6468, 6509); (6512, 6516); (6528, 6571); (6576, 6601);
   (6608, 6618); (6622, 6683); (6686, 6750); (6752, 6780); (6783, 6793);
   (6800, 6809); (6816, 6829); (6832, 6862); (6912, 6988); (6992, 7038);
   (7040, 7155); (7164, 7223); (7227, 7241); (7245, 7304); (7312, 7354);
   (7357, 7367); (7376, 7418); (7424, 7957); (7960, 7965); (7968, 8005);
   (8008, 8013); (8016, 8023); (8025, 8025); (8027, 8027); (8029, 8029);
   (8031, 8061); (8064, 8116); (8118, 8132); (8134, 8147); (8150, 8155);
   (8157, 8175); (8178, 8180); (8182, 8190); (8208, 8231); (8240, 8286);
   (8304, 8305); (8308, 8334); (8336, 8348); (8352, 8384); (8400, 8432);
   (8448, 8587); (8592, 9254); (9280, 9290); (9312, 11123); (11126, 11157);
   (11159, 11507); (11513, 11557); (11559, 11559); (11565, 11565);
   (11568, 11623); (11631, 11632); (11647, 11670); (11680, 11686);
   (11688, 11694); (11696, 11702); (11704, 11710); (11712, 11718);
   (11720, 11726); (11728, 11734); (11736, 11742); (11744, 11869);
   (11904, 11929); (11931, 12019); (12032, 12245); (12272, 12283);
   (12289, 12351); (12353, 12438); (12441, 12543); (12549, 12591);
   (12593, 12686); (12688, 12771); (12784, 12830); (12832, 42124);
   (42128, 42182); (42192, 42539); (42560, 42743); (42752, 42954);
   (42960, 42961); (42963, 42963); (42965, 42969); (42994, 43052);
   (43056, 43065); (43072, 43127); (43136, 43205); (43214, 43225);
   (43232, 43347); (43359, 43388); (43392, 43469); (43471, 43481);
   (43486, 43518); (43520, 43574); (43584, 43597); (43600, 43609);
   (43612, 43714); (43739, 43766); (43777, 43782); (43785, 43790);
   (43793, 43798); (43808, 43814); (43816, 43822); (43824, 43883);
   (43888, 44013); (44016, 44025); (44032, 55203); (55216, 55238);
   (55243, 55291); (63744, 64109); (64112, 64217); (64256, 64262);
   (64275, 64279); (64285, 64310); (64312, 64316); (64318, 64318);
   (64320, 64321); (64323, 64324); (64326, 64450); (64467, 64911);
   (64914, 64967); (64975, 64975); (65008, 65049); (65056, 65106);
   (65108, 65126); (65128, 65131); (65136, 65140); (65142, 65276);
   (65281, 65470); (65474, 65479); (65482, 65487); (65490, 65495);
   (65498, 65500); (65504, 65510); (65512, 65518); (65532, 65533);
   (65536, 65547); (65549, 65574); (65576, 65594); (65596, 65597);
   (65599, 65613); (65616, 65629); (65664, 65786); (65792, 65794);
   (65799, 65843); (65847, 65934); (65936, 65948); (65952, 65952);
   (66000, 66045); (66176, 66204); (66208, 66256); (66272, 66299);
   (66304, 66339); (66349, 66378); (66384, 66426); (66432, 66461);
   (66463, 66499); (66504, 66517); (66560, 66717); (66720, 66729);
   (66736, 66771); (66776, 66811); (66816, 66855); (66864, 66915);
   (66927, 66938); (66940, 66954); (66956, 66962); (66964, 66965);
   (66967, 66977); (66979, 66993); (66995, 67001); (67003, 67004);
   (67072, 67382); (67392, 67413); (67424, 67431); (67456, 67461);
   (67463, 67504); (67506, 67514); (67584, 67589); (67592, 67592);
   (67594, 67637); (67639, 67640); (67644, 67644); (67647, 67669);
   (67671, 67742); (67751, 67759); (67808, 67826); (67828, 67829);
   (67835, 67867); (67871, 67897); (67903, 67903); (67968, 68023);
   (68028, 68047); (68050, 68099); (68101, 68102); (68108, 68115);
   (68117, 68119); (68121, 68149); (68152, 68154); (68159, 68168);
   (68176, 68184); (68192, 68255); (68288, 68326); (68331, 68342);
   (68352, 68405); (68409, 68437); (68440, 68466); (68472, 68497);
   (68505, 68508); (68521, 68527); (68608, 68680); (68736, 68786);
   (68800, 68850); (68858, 68903); (68912, 68921); (69216, 69246);
   (69248, 69289); (69291, 69293); (69296, 69297); (69376, 69415);
   (69424, 69465); (69488, 69513); (69552, 69579); (69600, 69622);
   (69632, 69709); (69714, 69749); (69759, 69820); (69822, 69826);
   (69840, 69864); (69872, 69881); (69888, 69940); (69942, 69959);
   (69968, 70006); (70016, 70111); (70113, 70132); (70144, 70161);
   (70163, 70206); (70272, 70278); (70280, 70280); (70282, 70285);
   (70287, 70301); (70303, 70313); (70320, 70378); (70384, 70393);
   (70400, 70403); (70405, 70412); (70415, 70416); (70419, 70440);
   (70442, 70448); (70450, 70451); (70453, 70457); (70459, 70468);
   (70471, 70472); (70475, 70477); (70480, 70480); (70487, 70487);
   (70493, 70499); (70502, 70508); (70512, 70516); (70656, 70747);
   (70749, 70753); (70784, 70855); (70864, 70873); (71040, 71093);
   (71096, 71133); (71168, 71236); (71248, 71257); (71264, 71276);
   (71296, 71353); (71360, 71369); (71424, 71450); (71453, 71467);
   (71472, 71494); (71680, 71739); (71840, 71922); (71935, 71942);
   (71945, 71945); (71948, 71955); (71957, 71958); (71960, 71989);
   (71991, 71992); (71995, 72006); (72016, 72025); (72096, 72103);
   (72106, 72151); (72154, 72164); (72192, 72263); (72272, 72354);
   (72368, 72440); (72704, 72712); (72714, 72758); (72760, 72773);
   (72784, 72812); (72816, 72847); (72850, 72871); (72873, 72886);
   (72960, 72966); (72968, 72969); (72971, 73014); (73018, 73018);
   (73020, 73021); (73023, 73031); (73040, 73049); (73056, 73061);
   (73063, 73064); (73066, 73102); (73104, 73105); (73107, 73112);
   (73120, 73129); (73440, 73464); (73648, 73648); (73664, 73713);
   (73727, 74649); (74752, 74862); (74864, 74868); (74880, 75075);
   (77712, 77810); (77824, 78894); (82944, 83526); (92160, 92728);
   (92736, 92766); (92768, 92777); (92782, 92862); (92864, 92873);
   (92880, 92909); (92912, 92917); (92928, 92997); (93008, 93017);
   (93019, 93025); (93027, 93047); (93053, 93071); (93760, 93850);
   (93952, 94026); (94031, 94087); (94095, 94111); (94176, 94180);
   (94192, 94193); (94208, 100343); (100352, 101589); (101632, 101640);
   (110576, 110579); (110581, 110587); (110589, 110590); (110592, 110882);
   (110928, 110930); (110948, 110951); (110960, 111355); (113664, 113770);
   (113776, 113788); (113792, 113800); (113808, 113817); (113820, 113823);
   (118528, 118573); (118576, 118598); (118608, 118723); (118784, 119029);
   (119040, 119078); (119081, 119154); (119163, 119274); (119296, 119365);
   (119520, 119539); (119552, 119638); (119648, 119672); (119808, 119892);
   (119894, 119964); (119966, 119967); (119970, 119970); (119973, 119974);
   (119977, 119980); (119982, 119993); (119995, 119995); (119997, 120003);
   (120005, 120069); (120071, 120074); (120077, 120084); (120086, 120092);
   (120094, 120121); (120123, 120126); (120128, 120132); (120134, 120134);
   (120138, 120144); (120146, 120485); (120488, 120779); (120782, 121483);
   (121499, 121503); (121505, 121519); (122624, 122654); (122880, 122886);
   (122888, 122904); (122907, 122913); (122915, 122916); (122918, 122922);
   (123136, 123180); (123184, 123197); (123200, 123209); (123214, 123215);
   (123536, 123566); (123584, 123641); (123647, 123647); (124896, 124902);
   (124904, 124907); (124909, 124910); (124912, 124926); (124928, 125124);
   (125127, 125142); (125184, 125259); (125264, 125273); (125278, 125279);
   (126065, 126132); (126209, 126269); (126464, 126467); (126469, 126495);
   (126497, 126498); (126500, 126500); (126503, 126503); (126505, 126514);
   (126516, 126519); (126521, 126521); (126523, 126523); (126530, 126530);
   (126535, 126535); (126537, 126537); (126539, 126539); (126541, 126543);
   (126545, 126546); (126548, 126548); (126551, 126551); (126553, 126553);
   (126555, 126555); (126557, 126557); (126559, 126559); (126561, 126562);
   (126564, 126564); (126567, 126570); (126572, 126578); (126580, 126583);
   (126585, 126588); (126590, 126590); (126592, 126601); (126603, 126619);
   (126625, 126627); (126629, 126633); (126635, 126651); (126704, 126705);
   (126976, 127019); (127024, 127123); (127136, 127150); (127153, 127167);
   (127169, 127183); (127185, 127221); (127232, 127405); (127462, 127490);
   (127504, 127547); (127552, 127560); (127568, 127569); (127584, 127589);
   (127744, 128727); (128733, 128748); (128752, 128764); (128768, 128883);
   (128896, 128984); (128992, 129003); (129008, 129008); (129024, 129035);
   (129040, 129095); (129104, 129113); (129120, 129159); (129168, 129197);
   (129200, 129201); (129280, 129619); (129632, 129645); (129648, 129652);
   (129656, 129660); (129664, 129670); (129680, 129708); (129712, 129722);
   (129728, 129733); (129744, 129753); (129760, 129767); (129776, 129782);
   (129792, 129938); (129940, 129994); (130032, 130041); (131072, 173791);
   (173824, 177976); (177984, 178205); (178208, 183969); (183984, 191456);
   (194560, 195101); (196608, 201546); (917760, 917999)]%N.

Definition is_printable (cp : N) : bool :=
  existsb (fun r => in_range (fst r) (snd r) cp) printable_ranges.

Definition hex_digit (n : N) : ascii :=
  ascii_of_N (if (n <? 10)%N then 48 + n else 87 + n).

Fixpoint hex (width : nat) (n : N) : string :=
  match width with
  | O => EmptyString
  | S w => hex w (n / 16) +:+ String (hex_digit (n mod 16)) EmptyString
  end.

Definition backslash : ascii := ascii_of_N 92.
Definition single_quote : ascii := ascii_of_N 39.
Definition double_quote : ascii := ascii_of_N 34.

(** One character of [repr(s)], between the quotes [quote]. *)
Definition escape (quote : ascii) (c : N * string) : string :=
  let '(cp, bytes) := c in
  if (cp =? byte quote)%N || (cp =? 92)%N then String backslash bytes
  else if (cp =? 9)%N then String backslash "t"
  else if (cp =? 10)%N then String backslash "n"
  else if (cp =? 13)%N then String backslash "r"
  else if (cp <? 32)%N || (cp =? 127)%N then String backslash ("x" +:+ hex 2 cp)
  else if (cp <? 127)%N then bytes
  else if is_printable cp then bytes
  else if (cp <? 256)%N then String backslash ("x" +:+ hex 2 cp)
  else if (cp <? 65536)%N then String backslash ("u" +:+ hex 4 cp)
  else String backslash ("U" +:+ hex 8 cp).

(** [repr(s)]: single quotes, or double quotes when [s] has a single
    quote and no double one; the quote, the backslash and what is not
    printable are escaped. *)
Definition repr (s : string) : string :=
  let cs := chars s in
  let has q := existsb (fun c => (fst c =? byte q)%N) cs in
  let quote := if has single_quote && negb (has double_quote)
               then double_quote else single_quote in
  String quote
    (fold_right (fun c acc => escape quote c +:+ acc)
                (String quote EmptyString) cs).

End Unicode.

(** ** Binary64 numbers: [float], [np.float64] *)

Module Float64.

Definition prec : Z := 53.
Definition emax : Z := 1024.

(** The binary64 number nearest to an integer (ties to even). *)
Definition of_Z (z : Z) : spec_float := binary_normalize prec emax z 0 false.

Definition mul : spec_float -> spec_float -> spec_float := SFmul prec emax.
Definition div : spec_float -> spec_float -> spec_float := SFdiv prec emax.

(** The binary64 number nearest to [(-1)^neg * m * 10^e10], as the
    correctly rounded [strtod] of CPython returns it. *)
Definition of_decimal (neg : bool) (m : Z) (e10 : Z) : spec_float :=
  match m with
  | Zpos p =>
      if (0 <=? e10)%Z then binary_round prec emax neg (p * Z.to_pos (10 ^ e10)) 0
      else
        let '(q, e, l) :=
          SFdiv_core_binary prec emax (Zpos p) 0 (10 ^ (- e10)) 0 in
        binary_round_aux prec emax neg q e l
  | _ => S754_zero neg
  end.

(** C [rint] in the default rounding mode: the nearest integer, ties to
    even, keeping the sign. *)
Definition rint (x : spec_float) : spec_float :=
  match x with
  | S754_finite s m e =>
      if (0 <=? e)%Z then x
      else
        let d := (2 ^ (- e))%Z in
        let q := (Zpos m / d)%Z in
        let r := (Zpos m mod d)%Z in
        let n := if (2 * r <? d)%Z then q
                 else if (d <? 2 * r)%Z then (q + 1)%Z
                 else if Z.even q then q else (q + 1)%Z in
        match n with
        | Zpos p => binary_round prec emax s p 0
        | _ => S754_zero s
        end
  | _ => x
  end.

(** [np.round(x, decimals)] for [decimals >= 0] on a float: numpy
    multiplies by [10**decimals], applies [rint] and divides again, all
    three in binary64. *)
Definition np_round (x : spec_float) (decimals : nat) : spec_float :=
  let f := of_Z (10 ^ Z.of_nat decimals) in
  div (rint (mul x f)) f.

(** The binary32 number nearest to a binary64 one, an infinity when it
    is beyond the range. *)
Definition to_binary32 (x : spec_float) : spec_float :=
  match x with
  | S754_finite s m e => binary_round 24 128 s m e
  | _ => x
  end.

Definition is_finite (x : spec_float) : bool :=
  match x with
  | S754_zero _ | S754_finite _ _ _ => true
  | _ => false
  end.

(** The rational value of a finite number. *)
Definition to_Q (x : spec_float) : option Q :=
  match x with
  | S754_zero _ => Some 0%Q
  | S754_finite s m e =>
      let v := if (0 <=? e)%Z then inject_Z (Zpos m * 2 ^ e)
               else Qmake (Zpos m) (Z.to_pos (2 ^ (- e))) in
      Some (if s then Qopp v else v)
  | _ => None
  end.

(** *** [float(s)] on a [str] *)

Definition code (c : ascii) : nat := nat_of_ascii c.

Definition is_digit (c : ascii) : bool := (48 <=? code c)%nat && (code c <=? 57)%nat.
Definition digit_val (c : ascii) : Z := Z.of_nat (code c) - 48.

(** [Py_ISSPACE]: space, tab, newline, vertical tab, form feed, return. *)
Definition Py_ISSPACE (c : ascii) : bool :=
  (code c =? 32)%nat || ((9 <=? code c)%nat && (code c <=? 13)%nat).

(** [_PyUnicode_TransformDecimalAndSpaceToASCII]: an ASCII character
    is kept, white space outside ASCII becomes a space and a decimal
    digit of any script the ASCII digit of its value; at any other
    character the result ends in a question mark. *)
Fixpoint ascii_of_chars (l : list (N * string)) : string :=
  match l with
  | [] => EmptyString
  | (cp, _) :: l' =>
      if (cp <? 127)%N then String (ascii_of_N cp) (ascii_of_chars l')
      else if Unicode.is_space cp then String " " (ascii_of_chars l')
      else match Unicode.decimal cp with
           | Some d => String (ascii_of_N (48 + d)) (ascii_of_chars l')
           | None => "?"
           end
  end.

Definition to_ascii (s : string) : string := ascii_of_chars (Unicode.chars s).

(** [_Py_string_to_number_with_underscores]: an underscore must stand
    between two digits. *)
Fixpoint underscores_ok (prev : ascii) (s : string) : bool :=
  match s with
  | EmptyString => negb (Ascii.eqb prev "_")
  | String c s' =>
      (if Ascii.eqb c "_" then is_digit prev
       else negb (Ascii.eqb prev "_") || is_digit c)
      && underscores_ok c s'
  end.

Fixpoint remove (c : ascii) (s : string) : string :=
  match s with
  | EmptyString => EmptyString
  | String a s' => if Ascii.eqb a c then remove c s' else String a (remove c s')
  end.

Fixpoint lstrip (s : string) : string :=
  match s with
  | EmptyString => EmptyString
  | String c s' => if Py_ISSPACE c then lstrip s' else s
  end.

Definition reverse (s : string) : string :=
  string_of_list_ascii (List.rev (list_ascii_of_string s)).

Definition strip (s : string) : string := reverse (lstrip (reverse (lstrip s))).

(** The longest prefix of digits and what follows it. *)
Fixpoint take_digits (s : string) : string * string :=
  match s with
  | EmptyString => (EmptyString, EmptyString)
  | String c s' =>
      if is_digit c then let '(d, r) := take_digits s' in (String c d, r)
      else (EmptyString, s)
  end.

Fixpoint digits_value_from (acc : Z) (s : string) : Z :=
  match s with
  | EmptyString => acc
  | String c s' => digits_value_from (acc * 10 + digit_val c) s'
  end.
Definition digits_value (s : string) : Z := digits_value_from 0 s.

Definition take_sign (s : string) : bool * string :=
  match s with
  | String "-" s' => (true, s')
  | String "+" s' => (false, s')
  | _ => (false, s)
  end.

Definition lower (c : ascii) : ascii :=
  if ((65 <=? code c) && (code c <=? 90))%nat then ascii_of_nat (code c + 32) else c.
Fixpoint lowercase (s : string) : string :=
  match s with
  | EmptyString => EmptyString
  | String c s' => String (lower c) (lowercase s')
  end.

(** [_Py_parse_inf_or_nan], on the text after the sign. *)
Definition parse_inf_or_nan (neg : bool) (s : string) : option spec_float :=
  let l := lowercase s in
  if String.eqb l "inf" || String.eqb l "infinity" then Some (S754_infinity neg)
  else if String.eqb l "nan" then Some S754_nan
  else None.

(** The exponent part: nothing, or [e] or [E], a sign and digits. *)
Definition parse_exponent (s : string) : option Z :=
  match s with
  | EmptyString => Some 0%Z
  | String c s' =>
      if Ascii.eqb (lower c) "e" then
        let '(neg, s'') := take_sign s' in
        match take_digits s'' with
        | (String d ds, EmptyString) =>
            let v := digits_value (String d ds) in
            Some (if neg then (- v)%Z else v)
        | _ => None
        end
      else None
  end.

(** [_Py_dg_strtod] on the text after the sign, all of which must be
    used: digits, a point, digits (one digit at least) and an exponent. *)
Definition parse_decimal (neg : bool) (s : string) : option spec_float :=
  let '(ip, r1) := take_digits s in
  let '(fp, r2) := match r1 with
                   | String "." r => take_digits r
                   | _ => (EmptyString, r1)
                   end in
  match ip +:+ fp with
  | EmptyString => None
  | String _ _ =>
      e ← parse_exponent r2;
      Some (of_decimal neg (digits_value (ip +:+ fp))
              (e - Z.of_nat (String.length fp)))
  end.

(** [float_from_string_inner]: strip the white space, read one number. *)
Definition float_from_string_inner (s : string) : option spec_float :=
  let '(neg, body) := take_sign (strip s) in
  match parse_decimal neg body with
  | Some x => Some x
  | None => parse_inf_or_nan neg body
  end.

(** [float(s)]: [None] stands for the [ValueError]. *)
Definition float_of_str (s : string) : option spec_float :=
  let a := to_ascii s in
  if underscores_ok zero a then float_from_string_inner (remove "_" a)
  else None.

End Float64.

(** ** The pandas DataFrame *)

Module Pandas.

(** The Python objects a cell of a frame holds in this notebook: a [str]
    (a [NavigableString] is one), a float, or a [Tag]. *)
Inductive pyobj :=
| PStr (s : string)
| PFloat (f : spec_float)
| PTag (n : node).

Definition NaN : pyobj := PFloat S754_nan.

Definition of_node (n : node) : pyobj :=
  match n with
  | NavigableString s => PStr s
  | Tag _ _ _ => PTag n
  end.

Inductive dtype := object | float64.

#[global] Instance dtype_eq_dec : EqDecision dtype.
Proof. solve_decision. Defined.

Record Series := mkSeries { dtype_of : dtype; values : list pyobj }.

(** A frame: its columns in order, each with a name. *)
Definition DataFrame : Type := list (string * Series).

(** [df.columns.tolist()] *)
Definition columns (df : DataFrame) : list string := map fst df.

(** [len(df)] *)
Definition nrows (df : DataFrame) : nat :=
  match df with
  | [] => 0
  | (_, s) :: _ => length (values s)
  end.

(** [pd.DataFrame(columns=table_attribs)]: no row, object columns. *)
Definition DataFrame_columns (table_attribs : list string) : DataFrame :=
  map (fun a => (a, mkSeries object [])) table_attribs.

Definition is_float (v : pyobj) : bool :=
  match v with PFloat _ => true | _ => false end.

(** The dtype pandas infers for a list of values: float64 for floats
    (and for the empty list), object otherwise. *)
Definition infer_dtype (l : list pyobj) : dtype :=
  if forallb is_float l then float64 else object.

(** A value of the dict given to [pd.DataFrame(data_dict, index=[0])].
    A [str] or a number is a scalar, which fills the one row.  A [Tag]
    can be iterated, so that pandas reads it as the sequence of its
    children: the sequence must have the length of the index, and its
    one element is the value of the row. *)
Definition row_value (v : pyobj) : result pyobj :=
  match v with
  | PTag n =>
      match contents n with
      | [c] => Ok (of_node c)
      | cs => Raise (Exn ValueError
                       ("Length of values (" +:+ pretty (length cs)
                        +:+ ") does not match length of index (1)"))
      end
  | _ => Ok v
  end.

(** [pd.DataFrame(data_dict, index=[0])]: one row, a column for each key,
    in the order of the keys. *)
Definition DataFrame_row (data_dict : list (string * pyobj)) : result DataFrame :=
  comprehension (fun kv => v ← row_value (snd kv);
                           Ok (fst kv, mkSeries (infer_dtype [v]) [v]))
                data_dict.

Definition lookup_column (name : string) (df : DataFrame) : option Series :=
  snd <$> List.find (fun '(k, _) => String.eqb k name) df.

(** [df[name]] for a label the frame has once, or not at all.  (Of a
    label that stands over several columns this gives the first, where
    pandas gives a frame of them all.) *)
Definition getitem_column (name : string) (df : DataFrame) : result Series :=
  match lookup_column name df with
  | Some s => Ok s
  | None => Raise (Exn KeyError ("'" +:+ name +:+ "'"))
  end.

Fixpoint replace_column (name : string) (s : Series) (df : DataFrame) : DataFrame :=
  match df with
  | [] => [(name, s)]
  | (k, s0) :: df' =>
      if String.eqb k name then (k, s) :: df'
      else (k, s0) :: replace_column name s df'
  end.

(** [df[name] = l]: the list must have one value per row; the column is
    replaced where it stands, or added last. *)
Definition setitem_column (name : string) (l : list pyobj) (df : DataFrame)
  : result DataFrame :=
  if Nat.eqb (length l) (nrows df)
  then Ok (replace_column name (mkSeries (infer_dtype l) l) df)
  else Raise (Exn ValueError
                ("Length of values (" +:+ pretty (length l)
                 +:+ ") does not match length of index ("
                 +:+ pretty (nrows df) +:+ ")")).

(** [df.rename(columns={old: new})]: a new frame. *)
Definition rename (old new : string) (df : DataFrame) : DataFrame :=
  map (fun '(k, s) => (if String.eqb k old then new else k, s)) df.

Definition concat_dtype (d1 d2 : dtype) : dtype :=
  match d1, d2 with
  | float64, float64 => float64
  | _, _ => object
  end.

Definition append_series (s1 s2 : Series) : Series :=
  mkSeries (concat_dtype (dtype_of s1) (dtype_of s2)) (values s1 ++ values s2).

Definition pad_after (n : nat) (s : Series) : Series :=
  mkSeries (dtype_of s) (values s ++ replicate n NaN).
Definition pad_before (n : nat) (s : Series) : Series :=
  mkSeries (dtype_of s) (replicate n NaN ++ values s).

Definition nodupb (l : list string) : bool := bool_decide (NoDup l).

(** [pd.concat([df, df1], ignore_index=True)]: the rows of [df1] after
    those of [df].  With the same column labels the columns are
    appended one to one; otherwise the result has the labels of [df]
    and then the new ones of [df1], a missing value being NaN, which
    needs the labels of each frame to be distinct.  (The frames [extract]
    concatenates hold object columns only.) *)
Definition concat (df df1 : DataFrame) : result DataFrame :=
  if bool_decide (columns df = columns df1) then
    Ok (zip_with (fun c c1 => (fst c, append_series (snd c) (snd c1))) df df1)
  else if nodupb (columns df) && nodupb (columns df1) then
    Ok (map (fun '(k, s) =>
               match lookup_column k df1 with
               | Some s1 => (k, append_series s s1)
               | None => (k, pad_after (nrows df1) s)
               end) df
        ++ map (fun '(k, s1) => (k, pad_before (nrows df) s1))
             (List.filter (fun '(k, _) => negb (bool_decide (k ∈ columns df))) df1))
  else Raise (Exn InvalidIndexError
                "Reindexing only valid with uniquely valued Index objects").

(** The records of [df.to_records(index=False)] for a frame that has a
    column: one record per row, a value per column label. *)
Definition to_records (df : DataFrame) : list (list (string * pyobj)) :=
  map (fun i => omap (fun '(k, s) => v ← values s !! i; Some (k, v)) df)
      (seq 0 (nrows df)).

(** The call [df.to_records(index=False)]: numpy takes the shape of the
    records from the first column, and raises [IndexError] on a frame
    that has no column. *)
Definition DataFrame_to_records (df : DataFrame) : result (list (list (string * pyobj))) :=
  match df with
  | [] => Raise (Exn IndexError "list index out of range")
  | _ :: _ => Ok (to_records df)
  end.

(** [record[col]] *)
Definition record_get (col : string) (r : list (string * pyobj)) : result pyobj :=
  match List.find (fun '(k, _) => String.eqb k col) r with
  | Some (_, v) => Ok v
  | None => Raise (Exn ValueError ("no field of name " +:+ col))
  end.

End Pandas.
Export Pandas.

(** ** Code that changes a state and may raise *)

Module Stateful.

(** A computation over a state [S]: its result, or the exception it
    raised, and the state it leaves. *)
Definition stateful (S A : Type) : Type := S -> result A * S.

#[global] Instance stateful_ret {S} : MRet (stateful S) :=
  fun A a s => (Ok a, s).
#[global] Instance stateful_bind {S} : MBind (stateful S) :=
  fun A B f m s =>
    match m s with
    | (Ok a, s') => f a s'
    | (Raise e, s') => (Raise e, s')
    end.

Definition lift {S A} (r : result A) : stateful S A := fun s => (r, s).
Definition get {S} : stateful S S := fun s => (Ok s, s).
Definition modify {S} (f : S -> S) : stateful S unit := fun s => (Ok tt, f s).

(** [for x in l: body(x)] *)
Fixpoint for_ {S A} (l : list A) (body : A -> stateful S unit) : stateful S unit :=
  match l with
  | [] => mret tt
  | x :: l' => body x ≫= (fun _ => for_ l' body)
  end.

(** [try: body / except Exception as e: handler(e)].  Every exception of
    this development is an instance of [Exception]. *)
Definition try_except {S A} (body : stateful S A) (handler : exn -> stateful S A)
  : stateful S A :=
  fun s =>
    match body s with
    | (Ok a, s') => (Ok a, s')
    | (Raise e, s') => handler e s'
    end.

(** [try: body / except Exception as e: handler(e) / finally: final]:
    [final] runs in every case, and an exception it raises is the one
    that leaves the statement. *)
Definition try_except_finally {S} (body : stateful S unit)
    (handler : exn -> stateful S unit) (final : stateful S unit)
  : stateful S unit :=
  fun s =>
    let '(r, s1) := try_except body handler s in
    match final s1 with
    | (Ok _, s2) => (r, s2)
    | (Raise e, s2) => (Raise e, s2)
    end.

End Stateful.
Export Stateful.

(** ** The MySQL server, as far as the notebook uses it *)

Module MySQL.

Inductive sqltype := INT_AUTO_INCREMENT_PRIMARY_KEY | VARCHAR_255 | FLOAT.

Inductive sqlval :=
| SqlNull
| SqlInt (z : Z)
| SqlText (s : string)
| SqlFloat (f : spec_float).

(** A table: its columns in order, its rows (a value per column), and
    the next value of its AUTO_INCREMENT counter. *)
Record table := mkTable {
  t_columns : list (string * sqltype);
  t_rows : list (list sqlval);
  t_next_id : Z
}.

(** The server: schemas by name, each holding tables by name. *)
Abbreviation server := (gmap string (gmap string table)).

(** A connection: what is committed on the server, what this session
    sees (its own uncommitted inserts included), the schema in use, and
    the operations sent so far, each with its parameter tuple. *)
Record connection := mkConnection {
  committed : server;
  working : server;
  current : option string;
  sent : list (string * list pyobj)
}.

Inductive statement :=
| CreateSchemaIfNotExists (name : string)
| Use (backticks : bool) (name : string)
| CreateTableIfNotExists (name : string) (coldefs : list (string * sqltype))
| InsertInto (name : string) (cols : list string) (placeholders : nat).

Definition backtick (s : string) : string := "`" +:+ s +:+ "`".

Definition type_text (t : sqltype) : string :=
  match t with
  | INT_AUTO_INCREMENT_PRIMARY_KEY => "INT AUTO_INCREMENT PRIMARY KEY"
  | VARCHAR_255 => "VARCHAR(255)"
  | FLOAT => "FLOAT"
  end.

Definition coldef_text (c : string * sqltype) : string :=
  backtick (fst c) +:+ " " +:+ type_text (snd c).

Definition id_column : string * sqltype := ("id", INT_AUTO_INCREMENT_PRIMARY_KEY).

(** The operation text the notebook builds with its f-strings. *)
Definition sql_text (st : statement) : string :=
  match st with
  | CreateSchemaIfNotExists n => "CREATE SCHEMA IF NOT EXISTS " +:+ backtick n
  | Use true n => "USE " +:+ backtick n
  | Use false n => "Use " +:+ n
  | CreateTableIfNotExists n defs =>
      "CREATE TABLE IF NOT EXISTS " +:+ backtick n
      +:+ " (id " +:+ type_text INT_AUTO_INCREMENT_PRIMARY_KEY +:+ ", "
      +:+ join ", " (map coldef_text defs) +:+ ")"
  | InsertInto n cols k =>
      "INSERT INTO " +:+ backtick n
      +:+ " (" +:+ join ", " (map backtick cols) +:+ ") VALUES ("
      +:+ join ", " (replicate k "%s") +:+ ")"
  end.

Definition db_error {A} (msg : string) : stateful connection A :=
  lift (Raise (Exn DatabaseError msg)).

(** The connector turns a parameter into an SQL value; it has no
    conversion for a [Tag].  A float is written as [repr] writes it. *)
Definition to_mysql (v : pyobj) : result sqlval :=
  match v with
  | PStr s => Ok (SqlText s)
  | PFloat f => Ok (SqlFloat f)
  | PTag _ => Raise (Exn DatabaseError "Python type Tag cannot be converted")
  end.

(** A NaN and an infinity are written [nan] and [inf], which the server
    reads as the names of columns. *)
Definition written_name (v : sqlval) : option string :=
  match v with
  | SqlFloat S754_nan => Some "nan"
  | SqlFloat (S754_infinity _) => Some "inf"
  | _ => None
  end.

(** MySQL compares the names of columns without regard to the case of
    the letters.  [fold_case] folds the letters of ASCII, which is all
    there is to the comparison of names written in ASCII. *)
Definition fold_case (s : string) : string := Float64.lowercase s.

Definition same_name (a b : string) : bool := String.eqb (fold_case a) (fold_case b).

(** What a column keeps of a value it is given, in strict SQL mode (the
    default of the server): a FLOAT column keeps a number in single
    precision and refuses one beyond its range, a VARCHAR(255) column
    refuses a text of more than 255 characters.  A value of the other
    kind is kept as it was sent: what the server makes of a text in a
    FLOAT column, or of a number in a VARCHAR column, is not
    described. *)
Definition store (col : string * sqltype) (v : sqlval) : result sqlval :=
  match snd col, v with
  | FLOAT, SqlFloat f =>
      if Float64.is_finite (Float64.to_binary32 f)
      then Ok (SqlFloat (Float64.to_binary32 f))
      else Raise (Exn DatabaseError
                    ("Out of range value for column '" +:+ fst col +:+ "' at row 1"))
  | VARCHAR_255, SqlText s =>
      if (length (Unicode.chars s) <=? 255)%nat then Ok v
      else Raise (Exn DatabaseError
                    ("Data too long for column '" +:+ fst col +:+ "' at row 1"))
  | _, _ => Ok v
  end.

(** The stored row for an insert that names [cols] with values [vals]:
    the counter for the identity column, what the column keeps of the
    value given for a named column, NULL for another. *)
Definition new_row (t : table) (cols : list string) (vals : list sqlval)
  : result (list sqlval) :=
  comprehension
    (fun col : string * sqltype =>
       match snd col with
       | INT_AUTO_INCREMENT_PRIMARY_KEY => Ok (SqlInt (t_next_id t))
       | _ => match list_find (same_name (fst col)) cols with
              | Some (i, _) => store col (default SqlNull (vals !! i))
              | None => Ok SqlNull
              end
       end) (t_columns t).

Definition insert_row (t : table) (cols : list string) (vals : list sqlval)
  : result table :=
  row ← new_row t cols vals;
  Ok (mkTable (t_columns t) (t_rows t ++ [row]) (t_next_id t + 1)).

Definition known_column (t : table) (c : string) : bool :=
  existsb (fun d => same_name (fst d) c) (t_columns t).

(** The first name of a list that an earlier one equals. *)
Fixpoint repeated (seen : list string) (names : list string) : option string :=
  match names with
  | [] => None
  | n :: names' =>
      if existsb (same_name n) seen then Some n else repeated (n :: seen) names'
  end.

(** A data definition statement commits what the session has pending. *)
Definition ddl (f : server -> server) : stateful connection unit :=
  modify (fun c => let s := f (working c) in
                   mkConnection s s (current c) (sent c)).

Definition record_sent (st : statement) (params : list pyobj) : stateful connection unit :=
  modify (fun c => mkConnection (committed c) (working c) (current c)
                     (sent c ++ [(sql_text st, params)])).

(** [cursor.execute(operation, params)].  The connector converts the
    parameters and puts them in the place of the placeholders, all of
    which must be filled.  The server refuses: a table definition with
    nothing after the comma that follows the identity column, or with a
    column named twice; a schema or a table that does not exist; an
    insert that names a column the table does not have, or a column
    twice, or that holds a NaN or an infinity; a value the column does
    not keep. *)
Definition execute (st : statement) (params : list pyobj) : stateful connection unit :=
  record_sent st params;;
  c ← get;
  match st with
  | CreateSchemaIfNotExists n =>
      ddl (fun s => match s !! n with
                    | Some _ => s
                    | None => <[n := ∅]> s
                    end)
  | Use _ n =>
      match working c !! n with
      | Some _ => modify (fun c => mkConnection (committed c) (working c) (Some n) (sent c))
      | None => db_error ("Unknown database '" +:+ n +:+ "'")
      end
  | CreateTableIfNotExists n defs =>
      match defs with
      | [] => db_error "You have an error in your SQL syntax"
      | _ :: _ =>
          match current c with
          | None => db_error "No database selected"
          | Some d =>
              match working c !! d with
              | None => db_error ("Unknown database '" +:+ d +:+ "'")
              | Some tables =>
                  match tables !! n with
                  | Some _ => ddl (fun s => s)
                  | None =>
                      match repeated [] (map fst (id_column :: defs)) with
                      | None =>
                          ddl (fun s => <[d := <[n := mkTable (id_column :: defs) [] 1]>
                                                 tables]> s)
                      | Some name =>
                          db_error ("Duplicate column name '" +:+ name +:+ "'")
                      end
                  end
              end
          end
      end
  | InsertInto n cols k =>
      vals ← lift (comprehension to_mysql params);
      if negb (Nat.eqb (length params) k)
      then db_error "Not all parameters were used in the SQL statement"
      else
        match current c with
        | None => db_error "No database selected"
        | Some d =>
            match working c !! d ≫= (fun tables => tables !! n) with
            | None => db_error ("Table '" +:+ d +:+ "." +:+ n +:+ "' doesn't exist")
            | Some t =>
                match head (List.filter (fun col => negb (known_column t col)) cols
                            ++ omap written_name vals) with
                | Some name =>
                    db_error ("Unknown column '" +:+ name +:+ "' in 'field list'")
                | None =>
                    match repeated [] cols with
                    | Some name =>
                        db_error ("Column '" +:+ name +:+ "' specified twice")
                    | None =>
                        t' ← lift (insert_row t cols vals);
                        modify (fun c =>
                          mkConnection (committed c)
                            (alter (fun tables => <[n := t']> tables) d (working c))
                            (current c) (sent c))
                    end
                end
            end
        end
  end.

(** [db.commit()] *)
Definition commit : stateful connection unit :=
  modify (fun c => mkConnection (working c) (working c) (current c) (sent c)).

(** The rows of a table of the server, none when there is no such table. *)
Definition rows_of (s : server) (d : string) (n : string) : list (list sqlval) :=
  match s !! d ≫= (fun tables => tables !! n) with
  | Some t => t_rows t
  | None => []
  end.

End MySQL.
Export MySQL.

(** ** The notebook *)

Module Etl.

Definition URL : string :=
  "https://web.archive.org/web/20230902185326/https://en.wikipedia.org/wiki/List_of_countries_by_GDP_%28nominal%29".
Definition CSV_PATH : string := "Countries_by_GDP.csv".
Definition LOG_PATH : string := "log_file.text".
Definition TABLE_ATTRIBS : list string := ["Country"; "GDP_USD_millions"].
Definition DB_NAME : string := "World_Economies".
Definition TABLE_NAME : string := "Countries_by_GDP".

(** What the run meets outside the notebook: the document behind a URL
    as [BeautifulSoup] parses it (or the exception of [requests.get]),
    and whether writing the CSV file, connecting to the server or
    reading a query fails. *)
Record env := mkEnv {
  web : string -> result node;
  csv_error : option exn;
  connect_error : option exn;
  read_sql : string -> connection -> result unit
}.

(** The state of the kernel and of the files and server it writes: the
    DataFrame objects by identity, the global names [df] and
    [quey_statement] (unbound when [None]), the messages of the lines of
    the log file (the time stamp before each is left out), the frame
    last written to the CSV file, and the MySQL server. *)
Record state := mkState {
  heap : gmap nat DataFrame;
  df : option nat;
  quey_statement : option string;
  log_file : list string;
  csv_file : option DataFrame;
  mysql : server
}.

(** [log_progress(message)]: the log file is opened for appending and
    one line is written.  [log_error] is the exception that [open] or
    [write] raises when the file cannot be written, [None] when it
    can. *)
Definition log_progress (log_error : option exn) (message : string)
  : stateful state unit :=
  match log_error with
  | Some e => lift (Raise e)
  | None =>
      modify (fun st => mkState (heap st) (df st) (quey_statement st)
                          (log_file st ++ [message]) (csv_file st) (mysql st))
  end.

(** *** extract *)

(** One turn of the loop over the rows. *)
Definition extract_row (row : node) (df : DataFrame) : result DataFrame :=
  let col := find_all "td" row in
  if negb (Nat.eqb (length col) 0) then
    c0 ← getitem col 0;
    keep ← (if bool_decide (find "a" c0 ≠ None)
            then c2 ← getitem col 2; Ok (negb (contains "—" c2))
            else Ok false);
    if keep : bool then
      c0 ← getitem col 0;
      a ← match find "a" c0 with
          | Some a => Ok a
          | None => Raise (Exn AttributeError
                             "'NoneType' object has no attribute 'contents'")
          end;
      country ← getitem (contents a) 0;
      c2 ← getitem col 2;
      gdp ← getitem (contents c2) 0;
      let data_dict := [("Country", of_node country);
                        ("GDP_USD_millions", of_node gdp)] in
      df1 ← DataFrame_row data_dict;
      concat df df1
    else Ok df
  else Ok df.

(** [tables = soup.find_all('tbody'); rows = tables[2].find_all('tr')] *)
Definition table_rows (soup : node) : result (list node) :=
  let tables := find_all "tbody" soup in
  t ← getitem tables 2;
  Ok (find_all "tr" t).

(** The loop of [extract], from the empty frame. *)
Definition extract_rows (rows : list node) (table_attribs : list string)
  : result DataFrame :=
  for_each extract_row rows (DataFrame_columns table_attribs).

Definition extract (w : env) (url : string) (table_attribs : list string)
  : result DataFrame :=
  soup ← web w url;
  rows ← table_rows soup;
  extract_rows rows table_attribs.

(** *** transform *)

(** [float("".join(x.split(',')))] for a value [x] of the column. *)
Definition to_float (x : pyobj) : result spec_float :=
  match x with
  | PStr s =>
      let t := join "" (split "," s) in
      match Float64.float_of_str t with
      | Some f => Ok f
      | None => Raise (Exn ValueError
                         ("could not convert string to float: " +:+ Unicode.repr t))
      end
  | PFloat _ => Raise (Exn AttributeError "'float' object has no attribute 'split'")
  | PTag _ => Raise (Exn TypeError "'NoneType' object is not callable")
  end.

(** [np.round(x/1000,2)] *)
Definition to_billions (x : spec_float) : spec_float :=
  Float64.np_round (Float64.div x (Float64.of_Z 1000)) 2.

(** The two list comprehensions of [transform]. *)
Definition convert (GDP_list : list pyobj) : result (list pyobj) :=
  GDP_list ← comprehension to_float GDP_list;
  Ok (map (fun x => PFloat (to_billions x)) GDP_list).

(** A new DataFrame object, at an identity not in use. *)
Definition alloc (frame : DataFrame) : stateful (gmap nat DataFrame) nat :=
  fun h => let l := fresh (dom h) in (Ok l, <[l := frame]> h).

(** The object a reference points to.  A reference the notebook holds
    always points to an object; the other case is there to make the
    function total. *)
Definition deref (l : nat) : stateful (gmap nat DataFrame) DataFrame :=
  fun h => match h !! l with
           | Some frame => (Ok frame, h)
           | None => (Raise (Exn TypeError "not a DataFrame"), h)
           end.

(** [transform(df)], [df] being a reference to a DataFrame object: the
    assignment to the column changes that object, [rename] makes a new
    one, which is returned. *)
Definition transform (df : nat) : stateful (gmap nat DataFrame) nat :=
  frame ← deref df;
  column ← lift (getitem_column "GDP_USD_millions" frame);
  let GDP_list := values column in
  GDP_list ← lift (convert GDP_list);
  frame' ← lift (setitem_column "GDP_USD_millions" GDP_list frame);
  modify (fun h => <[df := frame']> h);;
  frame ← deref df;
  alloc (rename "GDP_USD_millions" "GDP_USD_billions" frame).

(** *** load *)

Definition load_to_csv (w : env) (frame : DataFrame) : stateful state unit :=
  match csv_error w with
  | Some e => lift (Raise e)
  | None =>
      modify (fun st => mkState (heap st) (df st) (quey_statement st)
                          (log_file st) (Some frame) (mysql st))
  end.

Definition connect_database (w : env) (srv : server) : result connection :=
  match connect_error w with
  | Some e => Raise e
  | None => Ok (mkConnection srv srv None [])
  end.

(** The type of the table column for a column of the frame. *)
Definition column_type (frame : DataFrame) (col : string) : result sqltype :=
  s ← getitem_column col frame;
  Ok (if bool_decide (dtype_of s = object) then VARCHAR_255 else FLOAT).

(** The columns [columns_sql] lists, in the order of the frame. *)
Definition column_defs (frame : DataFrame) : result (list (string * sqltype)) :=
  comprehension (fun col => ty ← column_type frame col; Ok (col, ty)) (columns frame).

(** The INSERT statement, built once from the column names. *)
Definition DML (column_names : list string) : statement :=
  InsertInto TABLE_NAME column_names (length column_names).

(** The body of the loop over the records:
    [values = tuple(record[col] for col in column_names)] and
    [cursor.execute(DML, values)]. *)
Definition insert_record (column_names : list string) (record : list (string * pyobj))
  : stateful connection unit :=
  values ← lift (comprehension (fun col => record_get col record) column_names);
  execute (DML column_names) values.

(** What [load_to_db] does on its connection. *)
Definition load_on_connection (frame : DataFrame) : stateful connection unit :=
  let column_names := columns frame in
  data_records ← lift (DataFrame_to_records frame);
  execute (CreateSchemaIfNotExists DB_NAME) [];;
  execute (Use true DB_NAME) [];;
  defs ← lift (column_defs frame);
  execute (CreateTableIfNotExists TABLE_NAME defs) [];;
  for_ data_records (insert_record column_names);;
  commit.

(** [load_to_db(df)] as the server sees it: what the connection has
    committed when the function returns or raises. *)
Definition load_to_db (w : env) (frame : DataFrame) : stateful server unit :=
  fun srv =>
    match connect_database w srv with
    | Raise e => (Raise e, srv)
    | Ok db => let '(r, db') := load_on_connection frame db in (r, committed db')
    end.

Definition run_query (w : env) (query_statement : string) : stateful server string :=
  fun srv =>
    match connect_database w srv with
    | Raise e => (Raise e, srv)
    | Ok db =>
        let '(r, db') :=
          (execute (Use false DB_NAME) [];;
           c ← get;
           lift (read_sql w query_statement c);;
           mret query_statement) db in
        (r, committed db')
    end.

(** *** The cells that call the functions *)

Definition on_heap {A} (m : stateful (gmap nat DataFrame) A) : stateful state A :=
  fun st =>
    let '(r, h) := m (heap st) in
    (r, mkState h (df st) (quey_statement st) (log_file st) (csv_file st) (mysql st)).

Definition on_mysql {A} (m : stateful server A) : stateful state A :=
  fun st =>
    let '(r, srv) := m (mysql st) in
    (r, mkState (heap st) (df st) (quey_statement st) (log_file st) (csv_file st) srv).

(** Reading the global name [df]. *)
Definition name_df : stateful state nat :=
  fun st =>
    match df st with
    | Some l => (Ok l, st)
    | None => (Raise (Exn NameError "name 'df' is not defined"), st)
    end.

Definition assign_df (l : nat) : stateful state unit :=
  modify (fun st => mkState (heap st) (Some l) (quey_statement st)
                      (log_file st) (csv_file st) (mysql st)).

Definition name_quey_statement : stateful state string :=
  fun st =>
    match quey_statement st with
    | Some q => (Ok q, st)
    | None => (Raise (Exn NameError "name 'quey_statement' is not defined"), st)
    end.

Definition assign_quey_statement (q : string) : stateful state unit :=
  modify (fun st => mkState (heap st) (df st) (Some q)
                      (log_file st) (csv_file st) (mysql st)).

(** The bodies of the [try] blocks. *)
Definition try_extract_io (log_error : option exn) (w : env) : stateful state unit :=
  frame ← lift (extract w URL TABLE_ATTRIBS);
  l ← on_heap (alloc frame);
  assign_df l;;
  log_progress log_error "Data extracted successfuly".

Definition try_transform_io (log_error : option exn) : stateful state unit :=
  l ← name_df;
  l' ← on_heap (transform l);
  assign_df l';;
  log_progress log_error "Data transformed successfuly".

Definition try_load_to_csv_io (log_error : option exn) (w : env)
  : stateful state unit :=
  l ← name_df;
  frame ← on_heap (deref l);
  load_to_csv w frame;;
  log_progress log_error "Data loaded to CSV successfuly".

Definition try_connect_io (log_error : option exn) (w : env) : stateful state unit :=
  st ← get;
  lift (connect_database w (mysql st));;
  log_progress log_error "Database successfuly connected".

Definition try_load_to_db_io (log_error : option exn) (w : env)
  : stateful state unit :=
  l ← name_df;
  frame ← on_heap (deref l);
  on_mysql (load_to_db w frame);;
  log_progress log_error "Data loaded to DB successfuly".

Definition try_query (w : env) : stateful state unit :=
  q ← on_mysql (run_query w "SELECT * FROM Countries_by_GDP");
  assign_quey_statement q.

(** The cells. *)
Definition cell_extract_io (log_error : option exn) (w : env) : stateful state unit :=
  try_except (try_extract_io log_error w)
    (fun e => log_progress log_error ("Error while extracting data: " +:+ exn_msg e)).

Definition cell_transform_io (log_error : option exn) : stateful state unit :=
  try_except (try_transform_io log_error)
    (fun e => log_progress log_error ("Error while transforming data: " +:+ exn_msg e)).

Definition cell_load_to_csv_io (log_error : option exn) (w : env)
  : stateful state unit :=
  try_except (try_load_to_csv_io log_error w)
    (fun e => log_progress log_error
                ("Error while loading data to CSV: " +:+ exn_msg e)).

Definition cell_connect_io (log_error : option exn) (w : env) : stateful state unit :=
  try_except (try_connect_io log_error w)
    (fun e => log_progress log_error ("Error while connecting to DB: " +:+ exn_msg e)).

Definition cell_load_to_db_io (log_error : option exn) (w : env)
  : stateful state unit :=
  try_except (try_load_to_db_io log_error w)
    (fun e => log_progress log_error
                ("Error while loading data to DB: " +:+ exn_msg e)).

Definition cell_query_io (log_error : option exn) (w : env) : stateful state unit :=
  try_except_finally (try_query w)
    (fun e => log_progress log_error ("Error while querying data: " +:+ exn_msg e))
    (q ← name_quey_statement; log_progress log_error ("Query made: " +:+ q)).

(** The stages in the order of the notebook; an exception that leaves a
    cell ends the run there. *)
Definition pipeline_io (log_error : option exn) (w : env) : stateful state unit :=
  cell_extract_io log_error w;;
  cell_transform_io log_error;;
  cell_load_to_csv_io log_error w;;
  cell_connect_io log_error w;;
  cell_load_to_db_io log_error w.

(** *** The cells with a log file that can be written *)

Definition try_extract (w : env) : stateful state unit := try_extract_io None w.
Definition try_transform : stateful state unit := try_transform_io None.
Definition try_load_to_csv (w : env) : stateful state unit := try_load_to_csv_io None w.
Definition try_connect (w : env) : stateful state unit := try_connect_io None w.
Definition try_load_to_db (w : env) : stateful state unit := try_load_to_db_io None w.

Definition cell_extract (w : env) : stateful state unit := cell_extract_io None w.
Definition cell_transform : stateful state unit := cell_transform_io None.
Definition cell_load_to_csv (w : env) : stateful state unit := cell_load_to_csv_io None w.
Definition cell_connect (w : env) : stateful state unit := cell_connect_io None w.
Definition cell_load_to_db (w : env) : stateful state unit := cell_load_to_db_io None w.
Definition cell_query (w : env) : stateful state unit := cell_query_io None w.

Definition pipeline (w : env) : stateful state unit := pipeline_io None w.

End Etl.

(** ** What the specification says, and the data of the examples *)

Module Spec.
Import Etl.

(** *** The TableParser *)

(** The place of an element below another one: the positions, among the
    contents, of the elements to go through to reach it. *)
Definition path := list nat.

(** The element at a place. *)
Fixpoint at_path (n : node) (p : path) : option node :=
  match p with
  | [] => Some n
  | i :: p' =>
      match contents n !! i with
      | Some c => at_path c p'
      | None => None
      end
  end.

(** Document order on places: an element comes before the elements it
    contains and before whatever follows it. *)
Fixpoint before (p q : path) : bool :=
  match p, q with
  | [], _ :: _ => true
  | i :: p', j :: q' => (i <? j)%nat || ((i =? j)%nat && before p' q')
  | _, _ => false
  end.

(** [ps] lists the tags called [name] below [root]: the place of each
    of them, none twice, in document order. *)
Definition places_of (name : string) (root : node) (ps : list path) : Prop :=
  StronglySorted (fun p q => before p q = true) ps
  /\ forall p, In p ps
               <-> p <> [] /\ exists attrs cs, at_path root p = Some (Tag name attrs cs).

(** The places below an element, in document order: for each child its
    own place, then the places below it. *)
Definition paths_from (below : node -> list path) : nat -> list node -> list path :=
  fix go (i : nat) (cs : list node) : list path :=
    match cs with
    | [] => []
    | c :: cs' => ([i] :: map (cons i) (below c)) ++ go (S i) cs'
    end.

Fixpoint paths_below (n : node) : list path :=
  match n with
  | NavigableString _ => []
  | Tag _ _ cs => paths_from paths_below 0 cs
  end.

Definition tag_at (name : string) (root : node) (p : path) : bool :=
  match at_path root p with
  | Some n => is_tag name n
  | None => false
  end.

(** Those of them that hold a tag called [name]. *)
Definition places (name : string) (root : node) : list path :=
  List.filter (tag_at name root) (paths_below root).

(** *** The RecordExtractor *)

(** The inclusion test of the loop of [extract], as the code evaluates
    it: [len(col)!=0], then
    [col[0].find('a') is not None and '—' not in col[2]]. *)
Definition row_test (row : node) : result bool :=
  let col := find_all "td" row in
  if negb (Nat.eqb (length col) 0) then
    c0 ← getitem col 0;
    if bool_decide (find "a" c0 ≠ None)
    then c2 ← getitem col 2; Ok (negb (contains "—" c2))
    else Ok false
  else Ok false.

(** The rows on which no index of the loop is out of range: a row with
    a hyperlink in its first cell has a third cell, and when that cell
    has no child equal to the dash, the hyperlink and the cell have a
    first child. *)
Definition indexable (row : node) : bool :=
  match find_all "td" row with
  | [] => true
  | c0 :: rest =>
      match find "a" c0 with
      | None => true
      | Some a =>
          match rest with
          | _ :: c2 :: _ =>
              contains "—" c2
              || (negb (Nat.eqb (length (contents a)) 0)
                  && negb (Nat.eqb (length (contents c2)) 0))
          | _ => false
          end
      end
  end.

(** The rows the loop keeps: a first cell with a hyperlink below it, and
    a third cell none of whose children is the string of one dash. *)
Definition kept (row : node) : bool :=
  match find_all "td" row with
  | c0 :: _ :: c2 :: _ => bool_decide (find "a" c0 ≠ None) && negb (contains "—" c2)
  | _ => false
  end.

(** The string the one-row frame holds for a child: the child when it is
    a string, and, when it is a tag with one string inside, that string. *)
Definition text_of (n : node) : option string :=
  match n with
  | NavigableString s => Some s
  | Tag _ _ [NavigableString s] => Some s
  | _ => None
  end.

(** The record of a row: the string of the first child of the first
    hyperlink of the first cell, and the string of the first child of the
    third cell, when the row has them. *)
Definition record_of (row : node) : option (string * string) :=
  match find_all "td" row with
  | c0 :: _ :: c2 :: _ =>
      a ← find "a" c0;
      c ← head (contents a);
      g ← head (contents c2);
      s ← text_of c;
      t ← text_of g;
      Some (s, t)
  | _ => None
  end.

Definition record (row : node) : pyobj * pyobj :=
  match record_of row with
  | Some (s, t) => (PStr s, PStr t)
  | None => (PStr "", PStr "")
  end.

(** The rows the loop passes without an exception: no index is out of
    range, and a kept row has its record. *)
Definition extractable (row : node) : bool :=
  indexable row && (negb (kept row) || bool_decide (is_Some (record_of row))).

(** The raw Dataset as a frame. *)
Definition frame_of_records (rs : list (pyobj * pyobj)) : DataFrame :=
  [("Country", mkSeries object (map fst rs));
   ("GDP_USD_millions", mkSeries object (map snd rs))].

(** The test as the specification words it: a cell at least, a
    hyperlink in the first cell, and a third cell whose text is not the
    dash. *)
Definition spec_included (row : node) : bool :=
  match find_all "td" row with
  | c0 :: _ :: c2 :: _ =>
      bool_decide (find "a" c0 ≠ None) && negb (String.eqb (get_text c2) "—")
  | _ => false
  end.

(** The record as the specification words it: the text inside the
    hyperlink, the text of the third cell. *)
Definition spec_record (row : node) : pyobj * pyobj :=
  match find_all "td" row with
  | c0 :: _ :: c2 :: _ =>
      (PStr (default "" (get_text <$> find "a" c0)), PStr (get_text c2))
  | _ => (PStr "", PStr "")
  end.

Definition spec_extract (rows : list node) : DataFrame :=
  frame_of_records (map spec_record (List.filter spec_included rows)).

(** *** The UnitConverter *)

(** A decimal string with grouping separators: digits and commas, one
    digit at least. *)
Fixpoint all_chars (p : ascii -> bool) (s : string) : bool :=
  match s with
  | EmptyString => true
  | String c s' => p c && all_chars p s'
  end.
Fixpoint some_char (p : ascii -> bool) (s : string) : bool :=
  match s with
  | EmptyString => false
  | String c s' => p c || some_char p s'
  end.
Definition grouped_decimal (s : string) : bool :=
  all_chars (fun c => Float64.is_digit c || Ascii.eqb c ",") s
  && some_char Float64.is_digit s.

(** A value of the raw column that converts: a string that [float]
    accepts once its commas are gone. *)
Definition valid_decimal (x : pyobj) : bool :=
  match x with
  | PStr s => bool_decide (is_Some (Float64.float_of_str (Float64.remove "," s)))
  | _ => false
  end.

Definition is_str (x : pyobj) : bool :=
  match x with PStr _ => true | _ => false end.

(** *** Decimal strings and the literals of [float] *)

Definition first_char (s : string) : option ascii :=
  match s with
  | String c _ => Some c
  | EmptyString => None
  end.

Fixpoint last_char (s : string) : option ascii :=
  match s with
  | EmptyString => None
  | String c s' =>
      match s' with
      | EmptyString => Some c
      | String _ _ => last_char s'
      end
  end.

Definition digit_at (o : option ascii) : bool :=
  match o with
  | Some c => Float64.is_digit c
  | None => false
  end.

Fixpoint count_char (c : ascii) (s : string) : nat :=
  match s with
  | EmptyString => 0
  | String a s' => (if Ascii.eqb a c then 1 else 0) + count_char c s'
  end.

(** A decimal string: an optional sign, then digits with at most one
    point among them, one digit at least. *)
Definition decimal_string (s : string) : bool :=
  let body := match s with
              | String c r => if Ascii.eqb c "+" || Ascii.eqb c "-" then r else s
              | EmptyString => s
              end in
  all_chars (fun c => Float64.is_digit c || Ascii.eqb c ".") body
  && some_char Float64.is_digit body
  && (count_char "." body <=? 1)%nat.

(** The ASCII character a character counts as: itself when it is one,
    a space for white space outside ASCII, and for a decimal digit of
    any other script the ASCII digit of its value. *)
Definition stands_for (cp : N) : option ascii :=
  if (cp <? 127)%N then Some (ascii_of_N cp)
  else if Unicode.is_space cp then Some " "%char
  else match Unicode.decimal cp with
       | Some d => Some (ascii_of_N (48 + d))
       | None => None
       end.

Fixpoint image (l : list (N * string)) : option string :=
  match l with
  | [] => Some EmptyString
  | (cp, _) :: l' =>
      match stands_for cp, image l' with
      | Some c, Some a => Some (String c a)
      | _, _ => None
      end
  end.

(** A string with each of its characters so replaced, when each counts
    as some ASCII character. *)
Definition ascii_image (s : string) : option string := image (Unicode.chars s).

Definition spaces_only (s : string) : Prop := all_chars Float64.Py_ISSPACE s = true.
Definition digits_only (s : string) : Prop := all_chars Float64.is_digit s = true.

Definition sign_text (s : string) : Prop := s = "" \/ s = "+" \/ s = "-".

(** Nothing, or [e] or [E], an optional sign and digits. *)
Definition exponent_text (s : string) : Prop :=
  s = ""
  \/ exists e sgn d,
       s = String e (sgn +:+ d) /\ (e = "e" \/ e = "E")%char
       /\ sign_text sgn /\ digits_only d /\ d <> "".

(** Digits, or digits, a point and digits; one digit at least. *)
Definition number_text (s : string) : Prop :=
  (digits_only s /\ s <> "")
  \/ exists ip fp,
       s = ip +:+ String "." fp /\ digits_only ip /\ digits_only fp /\ ip +:+ fp <> "".

(** [inf], [infinity] or [nan], in letters of either case. *)
Definition special_text (s : string) : Prop :=
  Float64.lowercase s = "inf" \/ Float64.lowercase s = "infinity"
  \/ Float64.lowercase s = "nan".

Definition unsigned_text (s : string) : Prop :=
  special_text s \/ exists n ex, s = n +:+ ex /\ number_text n /\ exponent_text ex.

(** White space, an optional sign, a number with its exponent or one of
    the three words, and white space. *)
Definition ascii_literal (a : string) : Prop :=
  exists ws1 sgn body ws2,
    a = ws1 +:+ sgn +:+ body +:+ ws2
    /\ spaces_only ws1 /\ sign_text sgn /\ unsigned_text body /\ spaces_only ws2.

(** Every underscore stands between two digits. *)
Definition between_digits (a : string) : Prop :=
  forall x y, a = x +:+ String "_" y ->
              digit_at (last_char x) = true /\ digit_at (first_char y) = true.

(** A literal of [float], as the language reference gives it: the above,
    with single underscores between digits and with the digits and the
    white space of any script. *)
Definition float_literal (s : string) : Prop :=
  exists a, ascii_image s = Some a /\ between_digits a
            /\ ascii_literal (Float64.remove "_" a).

(** The same of a value of the raw column, once its separators are
    removed. *)
Definition literal_value (x : pyobj) : Prop :=
  match x with
  | PStr s => float_literal (Float64.remove "," s)
  | _ => False
  end.

Definition decimal_value (x : pyobj) : bool :=
  match x with
  | PStr s => decimal_string (Float64.remove "," s)
  | _ => false
  end.

(** Every column of the frame has one value per row. *)
Definition rectangular (frame : DataFrame) : Prop :=
  Forall (fun c => length (values (snd c)) = nrows frame) frame.

(** Two numbers within [tol] of each other. *)
Definition within (tol : Q) (x : spec_float) (q : Q) : Prop :=
  match Float64.to_Q x with
  | Some v => (Qabs (v - q) <= tol)%Q
  | None => False
  end.

(** *** The DataFrame objects of [transform] *)

(** The frame [transform] was given, once its column is assigned. *)
Definition updated (frame : DataFrame) (converted : list pyobj) : DataFrame :=
  replace_column "GDP_USD_millions" (mkSeries float64 converted) frame.

(** The frame [transform] returns. *)
Definition renamed (frame : DataFrame) : DataFrame :=
  rename "GDP_USD_millions" "GDP_USD_billions" frame.

(** *** The stages and the log *)

Definition logged (message : string) (st : state) : state :=
  mkState (heap st) (df st) (quey_statement st)
          (log_file st ++ [message]) (csv_file st) (mysql st).

(** A stage whose failure is caught where it is called and logged with
    the message of the stage: the cell returns normally either way. *)
Definition caught_and_logged (body : stateful state unit) (prefix : string)
    (st : state) : result unit * state :=
  match body st with
  | (Ok _, st') => (Ok tt, st')
  | (Raise e, st') => (Ok tt, logged (prefix +:+ exn_msg e) st')
  end.

(** What a [try] body does to the log: its success message is the last
    thing it writes, and it writes nothing when it raises. *)
Definition logs_on_success (body : stateful state unit) (success : string) : Prop :=
  forall st, match body st with
             | (Ok _, st') => log_file st' = log_file st ++ [success]
             | (Raise _, st') => log_file st' = log_file st
             end.

(** The line a stage writes: its success message, or its own error
    message followed by the text of some exception. *)
Definition stage_line (success prefix line : string) : Prop :=
  line = success \/ exists e : exn, line = prefix +:+ exn_msg e.

(** *** The SchemaDeriver *)

(** TEXT for a column of text, NUMBER for a column of numbers. *)
Definition schema_type (s : Series) : sqltype :=
  match dtype_of s with
  | object => VARCHAR_255
  | float64 => FLOAT
  end.

Definition schema (frame : DataFrame) : list (string * sqltype) :=
  map (fun c => (fst c, schema_type (snd c))) frame.

Definition table_of (srv : server) : option table :=
  srv !! DB_NAME ≫= (fun tables => tables !! TABLE_NAME).

(** *** The table sink *)

(** The rows of the table of the notebook. *)
Definition table_rows_of (srv : server) : list (list sqlval) :=
  rows_of srv DB_NAME TABLE_NAME.

(** The three statements [load_to_db] sends before its inserts, none with
    a parameter. *)
Definition load_statements (defs : list (string * sqltype)) : list (string * list pyobj) :=
  [(sql_text (CreateSchemaIfNotExists DB_NAME), []);
   (sql_text (Use true DB_NAME), []);
   (sql_text (CreateTableIfNotExists TABLE_NAME defs), [])].

(** The text of the INSERT statement for given column names. *)
Definition insert_text (cols : list string) : string :=
  "INSERT INTO `Countries_by_GDP` (" +:+ join ", " (map backtick cols)
  +:+ ") VALUES (" +:+ join ", " (replicate (length cols) "%s") +:+ ")".

End Spec.

Module Examples.
Import Etl.

Definition td (cs : list node) : node := Tag "td" [] cs.
Definition tr (cs : list node) : node := Tag "tr" [] cs.
Definition link (s : string) : node := Tag "a" [("href", "#")] [NavigableString s].
Definition text (s : string) : node := NavigableString s.

(** The rows of the example of the specification. *)
Definition row_A : node := tr [td [link "A"]; td [text "x"]; td [text "1,000"]].
Definition row_B : node := tr [td [text "B"]; td [text "x"]; td [text "2,000"]].
Definition row_C : node := tr [td [link "C"]; td [text "x"]; td [text "—"]].

(** A third cell with a figure, a line break and a dash. *)
Definition row_D : node :=
  tr [td [link "D"]; td [text "x"]; td [text "1,000"; Tag "br" [] []; text "—"]].

(** A row with a hyperlink and nothing else. *)
Definition row_E : node := tr [td [link "E"]].

(** A row whose hyperlink holds its text in a tag. *)
Definition row_F : node :=
  tr [td [Tag "a" [("href", "#")] [Tag "b" [] [text "F"]]]; td [text "x"];
      td [text "3,000"]].

(** A row whose hyperlink holds an image and no text, and one whose
    hyperlink holds a tag with two children. *)
Definition row_G : node :=
  tr [td [Tag "a" [("href", "#")] [Tag "img" [("src", "g.png")] []]]; td [text "x"];
      td [text "4,000"]].
Definition row_H : node :=
  tr [td [Tag "a" [("href", "#")] [Tag "span" [] [text "H"; Tag "br" [] []]]];
      td [text "x"]; td [text "5,000"]].

Definition header : node := tr [Tag "th" [] [text "Country"]].

Definition page (rows : list node) : node :=
  Tag "[document]" []
    [Tag "table" [] [Tag "tbody" [] []];
     Tag "table" [] [Tag "tbody" [] []];
     Tag "table" [] [Tag "tbody" [] (header :: rows)]].

(** A document with two tables, the first of which holds a table in a
    cell. *)
Definition nested_page : node :=
  Tag "[document]" []
    [Tag "table" []
       [Tag "tbody" [] [tr [td [Tag "table" [] [Tag "tbody" [] []]]]]];
     Tag "table" [] [Tag "tbody" [] [row_A]]].

Definition two_tables : node :=
  Tag "[document]" []
    [Tag "table" [] [Tag "tbody" [] [row_A]];
     Tag "table" [] [Tag "tbody" [] [row_A]]].

Definition online (doc : node) : env :=
  mkEnv (fun _ => Ok doc) None None (fun _ _ => Ok tt).

Definition offline : env :=
  mkEnv (fun _ => Raise (Exn RequestException "Max retries exceeded"))
        (Some (Exn OSError "Permission denied"))
        (Some (Exn DatabaseError "Can't connect to MySQL server"))
        (fun _ _ => Raise (Exn DatabaseError "Table doesn't exist")).

Definition query_fails (doc : node) : env :=
  mkEnv (fun _ => Ok doc) None None
        (fun _ _ => Raise (Exn DatabaseError "Table doesn't exist")).

Definition fresh_kernel : state := mkState ∅ None None [] None ∅.

(** What [open] raises on a log file that may not be written. *)
Definition log_denied : exn :=
  Exn OSError "[Errno 13] Permission denied: 'log_file.text'".

Definition raw_frame : DataFrame :=
  [("Country", mkSeries object [PStr "United States"; PStr "Tuvalu"]);
   ("GDP_USD_millions", mkSeries object [PStr "26,854,599"; PStr "65"])].

Definition billions_frame : DataFrame :=
  [("Country", mkSeries object [PStr "United States"; PStr "Tuvalu"]);
   ("GDP_USD_billions",
    mkSeries float64 [PFloat (S754_finite false 7381736239818342 (-38));
                      PFloat (S754_finite false 8646911284551352 (-57))])].

Definition bad_frame : DataFrame :=
  [("Country", mkSeries object [PStr "United States"; PStr "Nowhere"]);
   ("GDP_USD_millions", mkSeries object [PStr "26,854,599"; PStr "—"])].

(** A frame whose figures are no decimal strings and yet convert. *)
Definition loose_frame : DataFrame :=
  [("Country", mkSeries object [PStr "A"; PStr "B"; PStr "C"; PStr "D"; PStr "E"]);
   ("GDP_USD_millions",
    mkSeries object [PStr "nan"; PStr "-Infinity"; PStr "1_000"; PStr "1e3"; PStr "١٢٣"])].

(** A row whose only cell holds a table with one row. *)
Definition row_N : node := tr [td [Tag "table" [] [Tag "tbody" [] [row_A]]]].

(** A kernel whose name [df] is bound to the raw frame. *)
Definition extracted_kernel : state :=
  mkState {[0 := raw_frame]} (Some 0) None [] None ∅.

(** A kernel that has made its query, on a server without the schema. *)
Definition queried_kernel : state :=
  mkState ∅ None (Some "SELECT * FROM Countries_by_GDP") [] None ∅.

(** A server whose table was created by a load of the raw frame. *)
Definition stale_server : server :=
  snd (load_to_db (online (page [])) raw_frame ∅).

(** A frame whose second figure is a tag, as [contents[0]] gives for a
    cell that starts with markup. *)
Definition tag_frame : DataFrame :=
  [("Country", mkSeries object [PStr "United States"; PStr "Tuvalu"]);
   ("GDP_USD_millions",
    mkSeries object [PStr "26,854,599"; PTag (Tag "b" [] [NavigableString "65"])])].

(** A kernel whose name [df] is bound to a frame with a dash for a figure. *)
Definition bad_kernel : state :=
  mkState {[0 := bad_frame]} (Some 0) None [] None ∅.

End Examples.

(** ** Further notions for the behaviour of the notebook *)

Module Behaviour.

Import Etl Spec Float64.

(** *** The frames of [extract] *)

(** A tag that has no child or more than one. *)
Definition many_children (n : node) : bool :=
  match n with
  | NavigableString _ => false
  | Tag _ _ cs => negb (Nat.eqb (length cs) 1)
  end.

(** The first child of the first hyperlink of the first cell, or the
    first child of the third cell, is such a tag. *)
Definition many_valued (row : node) : bool :=
  match find_all "td" row with
  | c0 :: _ :: c2 :: _ =>
      match Html.find "a" c0 with
      | Some a =>
          match contents a, contents c2 with
          | x :: _, y :: _ => many_children x || many_children y
          | _, _ => false
          end
      | None => false
      end
  | _ => false
  end.

(** *** The strings [float] reads *)

(** A digit or a white space character. *)
Definition plain (c : ascii) : bool := is_digit c || Py_ISSPACE c.

(** *** The rows a load stores *)

(** The values of row [i] of a frame, in the order of its columns. *)
Definition row_values (frame : DataFrame) (i : nat) : list pyobj :=
  omap (fun c => values (snd c) !! i) frame.

(** A name made of ASCII letters, digits and underscores, one at least. *)
Definition plain_name (s : string) : bool :=
  negb (String.eqb s "")
  && all_chars (fun c => is_digit c || Ascii.eqb c "_"
                         || ((97 <=? code (lower c))%nat && (code (lower c) <=? 122)%nat)) s.

(** A value the connector converts. *)
Definition storable (v : pyobj) : bool :=
  match v with PTag _ => false | _ => true end.

(** A server on which the table of the notebook still has the columns of
    [t] and the rows of [t], possibly followed by more. *)
Definition keeps_table (t : table) (srv : server) : Prop :=
  exists t', table_of srv = Some t'
             /\ t_columns t' = t_columns t
             /\ exists news, t_rows t' = t_rows t ++ news.

(** The same of what a connection has committed and of what it works on. *)
Definition connection_keeps (t : table) (c : connection) : Prop :=
  keeps_table t (committed c) /\ keeps_table t (working c).

(** A computation on a connection that keeps the table. *)
Definition preserves {A} (t : table) (m : stateful connection A) : Prop :=
  forall c r c', m c = (r, c') -> connection_keeps t c -> connection_keeps t c'.

(** *** The frame at the end of the pipeline *)

(** The figure of a kept row, in millions: the digits of the first
    child of its third cell. *)
Definition gdp_millions (row : node) : Z :=
  match snd (record row) with
  | PStr s => digits_value (remove "," s)
  | _ => 0
  end.

(** The first child of the third cell is a string of digits and commas. *)
Definition grouped_gdp (row : node) : bool :=
  match snd (record row) with
  | PStr s => grouped_decimal s
  | _ => false
  end.

(** The frame the transform stage ends with, for given kept rows. *)
Definition final_frame (rows : list node) : DataFrame :=
  [("Country", mkSeries object (map (fun row => fst (record row)) rows));
   ("GDP_USD_billions",
    mkSeries float64
      (map (fun row => PFloat (to_billions (of_Z (gdp_millions row)))) rows))].

End Behaviour.

(** ** Lists, strings and the two monads *)

Module PyProofs.

Lemma getitem_lookup {A} (l : list A) (i : nat) (x : A) :
  l !! i = Some x -> getitem l i = Ok x.
Proof. unfold getitem. intros ->. reflexivity. Qed.

Lemma getitem_out_of_range {A} (l : list A) (i : nat) :
  length l <= i -> getitem l i = Raise (Exn IndexError "list index out of range").
Proof.
  intros H. unfold getitem. rewrite (proj2 (lookup_ge_None l i)); [reflexivity | lia].
Qed.

Lemma append_empty_r (s : string) : s +:+ "" = s.
Proof.
  induction s as [|c s IH]; [reflexivity|].
  change (String c (s +:+ "") = String c s). congruence.
Qed.

Lemma comprehension_length {A B} (f : A -> result B) (l : list A) (l' : list B) :
  comprehension f l = Ok l' -> length l' = length l.
Proof.
  revert l'. induction l as [|x l IH]; simpl; intros l'.
  - intros [= <-]. reflexivity.
  - destruct (f x) as [y|e]; simpl; [|discriminate].
    destruct (comprehension f l) as [ys|e]; simpl; [|discriminate].
    intros [= <-]. simpl. f_equal. apply IH. reflexivity.
Qed.

Lemma bind_ok_inv {S A B} (m : stateful S A) (f : A -> stateful S B) (s s' : S) (b : B) :
  (m ≫= f) s = (Ok b, s') ->
  exists a s1, m s = (Ok a, s1) /\ f a s1 = (Ok b, s').
Proof.
  unfold mbind, stateful_bind. destruct (m s) as [[a|e] s1]; [eauto|discriminate].
Qed.

Lemma lift_ok_inv {S A} (r : result A) (s s' : S) (a : A) :
  lift r s = (Ok a, s') -> r = Ok a /\ s' = s.
Proof. unfold lift. intros [= -> ->]. auto. Qed.

End PyProofs.

(** ** The TableParser and the RecordExtractor: [extract] *)

Module ExtractProofs.
Import Etl Spec Examples PyProofs.



(** [find_all] keeps the document order: it is a subsequence of the
    descendants, and holds exactly the tags of the name asked for. *)
Lemma find_all_sublist (name : string) (n : node) :
  sublist (find_all name n) (descendants n).
Proof.
  unfold find_all. induction (descendants n) as [|x l IH]; simpl.
  - constructor.
  - destruct (is_tag name x); [by apply sublist_skip | by apply sublist_cons].
Qed.

Lemma find_all_spec (name : string) (n x : node) :
  In x (find_all name n) <-> In x (descendants n) /\ is_tag name x = true.
Proof. unfold find_all. apply filter_In. Qed.

Lemma row_test_false_skips (row : node) (df : DataFrame) :
  row_test row = Ok false -> extract_row row df = Ok df.
Proof.
  unfold row_test, extract_row.
  destruct (negb (Nat.eqb (length (find_all "td" row)) 0)); [|reflexivity].
  destruct (getitem (find_all "td" row) 0) as [c0|e]; simpl; [|discriminate].
  destruct (bool_decide (find "a" c0 ≠ None)); simpl.
  - destruct (getitem (find_all "td" row) 2) as [c2|e]; simpl; [|discriminate].
    intros [= ->]. reflexivity.
  - reflexivity.
Qed.

Lemma skipped_rows_leave_frame (rows : list node) (df : DataFrame) :
  Forall (fun row => row_test row = Ok false) rows ->
  for_each extract_row rows df = Ok df.
Proof.
  induction 1 as [|row rows Hrow _ IH]; simpl; [reflexivity|].
  rewrite (row_test_false_skips _ _ Hrow). simpl. exact IH.
Qed.

Lemma row_value_text (n : node) (s : string) :
  text_of n = Some s -> row_value (of_node n) = Ok (PStr s).
Proof.
  destruct n as [t|name attrs [|[t|? ? ?] [|? ?]]]; simpl; try discriminate;
    intros [= ->]; reflexivity.
Qed.

Lemma concat_record (acc : list (pyobj * pyobj)) (s t : string) :
  concat (frame_of_records acc)
         [("Country", mkSeries object [PStr s]);
          ("GDP_USD_millions", mkSeries object [PStr t])]
  = Ok (frame_of_records (acc ++ [(PStr s, PStr t)])).
Proof.
  unfold concat, frame_of_records. simpl.
  unfold append_series. simpl. rewrite !map_app. reflexivity.
Qed.

Lemma indexable_unkept_skips (row : node) (df : DataFrame) :
  indexable row = true -> kept row = false -> extract_row row df = Ok df.
Proof.
  unfold indexable, kept. intros Hi Hk. apply row_test_false_skips.
  unfold row_test.
  destruct (find_all "td" row) as [|c0 rest]; simpl in *; [reflexivity|].
  destruct (find "a" c0) as [a|] eqn:Ha; simpl in *.
  - destruct rest as [|c1 [|c2 rest]]; try discriminate. simpl in *.
    rewrite Hk. reflexivity.
  - reflexivity.
Qed.

Lemma kept_record_appends (row : node) (acc : list (pyobj * pyobj)) (s t : string) :
  kept row = true -> record_of row = Some (s, t) ->
  extract_row row (frame_of_records acc)
  = Ok (frame_of_records (acc ++ [(PStr s, PStr t)])).
Proof.
  unfold kept, record_of, extract_row. intros Hk Hr.
  destruct (find_all "td" row) as [|c0 [|c1 [|c2 rest]]]; try discriminate.
  simpl in *.
  apply andb_prop in Hk as [Ha Hc].
  destruct (find "a" c0) as [a|] eqn:Hfa; simpl in *; [|discriminate].
  rewrite Hc. simpl.
  destruct (contents a) as [|x xs]; [discriminate|].
  destruct (contents c2) as [|y ys]; [discriminate|].
  simpl in *.
  destruct (text_of x) as [s'|] eqn:Hx; [|discriminate].
  destruct (text_of y) as [t'|] eqn:Hy; [|discriminate].
  simpl in Hr. injection Hr as -> ->.
  unfold DataFrame_row. cbn [comprehension fst snd].
  rewrite (row_value_text _ _ Hx), (row_value_text _ _ Hy). simpl.
  apply concat_record.
Qed.

Lemma extractable_row (row : node) (acc : list (pyobj * pyobj)) :
  extractable row = true ->
  extract_row row (frame_of_records acc)
  = Ok (frame_of_records (acc ++ map record (List.filter kept [row]))).
Proof.
  unfold extractable. intros [Hi Hr]%andb_prop. simpl.
  destruct (kept row) eqn:Hk; simpl in *.
  - apply bool_decide_eq_true in Hr as [[s t] Hst].
    unfold record. rewrite Hst. apply kept_record_appends; assumption.
  - rewrite app_nil_r. apply indexable_unkept_skips; assumption.
Qed.

Lemma extract_rows_from (rows : list node) (acc : list (pyobj * pyobj)) :
  Forall (fun row => extractable row = true) rows ->
  for_each extract_row rows (frame_of_records acc)
  = Ok (frame_of_records (acc ++ map record (List.filter kept rows))).
Proof.
  intros H. revert acc. induction H as [|row rows Hrow _ IH]; intros acc.
  - simpl. rewrite app_nil_r. reflexivity.
  - cbn [for_each]. rewrite (extractable_row _ _ Hrow). simpl.
    rewrite IH. destruct (kept row); simpl; rewrite <- app_assoc; reflexivity.
Qed.

Lemma get_text_single (name : string) (attrs : list (string * string)) (s : string) :
  get_text (Tag name attrs [NavigableString s]) = s.
Proof. cbn [get_text fold_right]. apply append_empty_r. Qed.

Lemma contains_single (s g : string) (name : string) (attrs : list (string * string)) :
  contains s (Tag name attrs [NavigableString g])
  = String.eqb (get_text (Tag name attrs [NavigableString g])) s.
Proof. rewrite get_text_single. unfold contains. simpl. apply orb_false_r. Qed.

(** On a row whose hyperlink and third cell hold one string each, the
    test and the record of the loop are those of the specification. *)
Lemma simple_rows_agree (row c0 c1 c2 a : node) (rest : list node) (s g : string) :
  find_all "td" row = c0 :: c1 :: c2 :: rest ->
  find "a" c0 = Some a ->
  contents a = [NavigableString s] -> contents c2 = [NavigableString g] ->
  kept row = spec_included row /\ record row = spec_record row.
Proof.
  intros Htd Ha Hca Hc2. unfold kept, spec_included, record, record_of, spec_record.
  rewrite Htd, Ha.
  destruct a as [?|an aa ac]; [discriminate|].
  destruct c2 as [?|cn ca cc]; [discriminate|].
  simpl in Hca, Hc2. subst ac cc.
  rewrite contains_single. split; [reflexivity|].
  cbn [fmap option_fmap option_map default]. rewrite !get_text_single. reflexivity.
Qed.

(** The example of the specification: of a row with a hyperlink and a
    figure, a row without hyperlink and a row with a dash, the first alone
    is kept. *)
Example extract_rows_specification_example :
  extract_rows [row_A; row_B; row_C] TABLE_ATTRIBS
  = Ok (frame_of_records [(PStr "A", PStr "1,000")])
  /\ spec_extract [row_A; row_B; row_C]
     = frame_of_records [(PStr "A", PStr "1,000")].
Proof. split; reflexivity. Qed.

Example extract_two_tables :
  extract (online two_tables) URL TABLE_ATTRIBS
  = Raise (Exn IndexError "list index out of range").
Proof. reflexivity. Qed.

Lemma node_induction (P : node -> Prop) :
  (forall s, P (NavigableString s)) ->
  (forall name attrs cs, Forall P cs -> P (Tag name attrs cs)) ->
  forall n, P n.
Proof.
  intros Hs Ht. fix IH 1. intros [s|name attrs cs]; [apply Hs|].
  apply Ht. induction cs as [|c cs IHcs]; constructor; [apply IH | exact IHcs].
Qed.

(** *** Document order *)

Lemma before_irrefl (p : path) : before p p = false.
Proof.
  induction p as [|i p IH]; [reflexivity|]. simpl.
  rewrite Nat.ltb_irrefl, Nat.eqb_refl, IH. reflexivity.
Qed.

Lemma before_trans (p q r : path) :
  before p q = true -> before q r = true -> before p r = true.
Proof.
  revert q r. induction p as [|i p IH]; intros [|j q] [|k r]; simpl; try discriminate; auto.
  intros H1 H2.
  apply orb_true_iff in H1 as [H1|[H1 H1']%andb_prop];
    apply orb_true_iff in H2 as [H2|[H2 H2']%andb_prop];
    apply orb_true_iff.
  - left. apply Nat.ltb_lt in H1, H2. apply Nat.ltb_lt. lia.
  - left. apply Nat.ltb_lt in H1. apply Nat.eqb_eq in H2. apply Nat.ltb_lt. lia.
  - left. apply Nat.eqb_eq in H1. apply Nat.ltb_lt in H2. apply Nat.ltb_lt. lia.
  - right. apply Nat.eqb_eq in H1, H2. subst. rewrite Nat.eqb_refl. simpl. eauto.
Qed.

Lemma sorted_same_elements (l1 l2 : list path) :
  StronglySorted (fun p q => before p q = true) l1 ->
  StronglySorted (fun p q => before p q = true) l2 ->
  (forall p, In p l1 <-> In p l2) -> l1 = l2.
Proof.
  intros H1. revert l2. induction H1 as [|a l1 _ IH Ha]; intros l2 H2 Hsame.
  - destruct l2 as [|b l2]; [reflexivity|]. destruct (proj2 (Hsame b) (or_introl eq_refl)).
  - destruct H2 as [|b l2 H2 Hb].
    + destruct (proj1 (Hsame a) (or_introl eq_refl)).
    + rewrite Forall_forall in Ha, Hb.
      assert (a = b) as <-.
      { destruct (proj1 (Hsame a) (or_introl eq_refl)) as [?|Hin]; [done|].
        destruct (proj2 (Hsame b) (or_introl eq_refl)) as [?|Hin']; [done|].
        apply list_elem_of_In, Hb in Hin. apply list_elem_of_In, Ha in Hin'.
        pose proof (before_trans _ _ _ Hin Hin') as E. rewrite before_irrefl in E.
        discriminate. }
      f_equal. apply IH; [exact H2|]. intros p. split; intros Hp.
      * destruct (proj1 (Hsame p) (or_intror Hp)) as [<-|?]; [|done].
        apply list_elem_of_In, Ha in Hp. rewrite before_irrefl in Hp. discriminate.
      * destruct (proj2 (Hsame p) (or_intror Hp)) as [<-|?]; [|done].
        apply list_elem_of_In, Hb in Hp. rewrite before_irrefl in Hp. discriminate.
Qed.

Lemma places_of_unique (name : string) (root : node) (ps qs : list path) :
  places_of name root ps -> places_of name root qs -> ps = qs.
Proof.
  intros [Hs1 Hm1] [Hs2 Hm2]. apply sorted_same_elements; [exact Hs1 | exact Hs2|].
  intros p. rewrite Hm1, Hm2. reflexivity.
Qed.

Lemma paths_from_spec (below : node -> list path) (cs : list node) :
  forall i p,
    In p (paths_from below i cs)
    <-> exists j c q, p = (i + j) :: q /\ cs !! j = Some c /\ (q = [] \/ In q (below c)).
Proof.
  induction cs as [|c cs IH]; intros i p.
  - simpl. split; [tauto|]. intros (j & c & q & _ & H & _). discriminate.
  - cbn [paths_from]. rewrite in_app_iff, IH. split.
    + intros [[<-|Hin]|(j & c' & q & -> & Hc & Hq)].
      * exists 0, c, []. rewrite Nat.add_0_r. auto.
      * apply in_map_iff in Hin as (q & <- & Hq). exists 0, c, q.
        rewrite Nat.add_0_r. auto.
      * exists (S j), c', q. split; [f_equal; lia|]. auto.
    + intros ([|j] & c' & q & -> & Hc & Hq).
      * injection Hc as <-. left. rewrite Nat.add_0_r.
        destruct Hq as [->|Hq]; [by left|]. right. by apply in_map.
      * right. exists j, c', q. split; [f_equal; lia|]. auto.
Qed.

Lemma paths_below_spec (n : node) :
  forall p, In p (paths_below n) <-> p <> [] /\ is_Some (at_path n p).
Proof.
  induction n as [s|name attrs cs IH] using node_induction; intros p.
  - simpl. split; [tauto|]. intros [Hp [x Hx]]. destruct p as [|i p]; [done|].
    simpl in Hx. by destruct i.
  - cbn [paths_below]. rewrite paths_from_spec. rewrite Forall_forall in IH. split.
    + intros (j & c & q & -> & Hc & Hq). split; [discriminate|].
      cbn [at_path contents Nat.add]. rewrite Hc.
      destruct Hq as [->|Hq]; [by eexists|].
      apply (IH c) in Hq as [_ Hq]; [exact Hq|]. eapply list_elem_of_lookup_2, Hc.
    + intros [Hp Hsome]. destruct p as [|j q]; [done|].
      cbn [at_path contents] in Hsome. destruct (cs !! j) as [c|] eqn:Hc; [|by destruct Hsome].
      exists j, c, q. split; [reflexivity|]. split; [exact Hc|].
      destruct q as [|k q]; [by left|]. right.
      apply (IH c); [eapply list_elem_of_lookup_2, Hc|]. split; [discriminate | exact Hsome].
Qed.

Lemma sorted_app (l1 l2 : list path) :
  StronglySorted (fun p q => before p q = true) l1 ->
  StronglySorted (fun p q => before p q = true) l2 ->
  (forall p q, In p l1 -> In q l2 -> before p q = true) ->
  StronglySorted (fun p q => before p q = true) (l1 ++ l2).
Proof.
  intros H1 H2 H. induction H1 as [|a l1 H1 IH Ha]; [exact H2|].
  simpl. constructor.
  - apply IH. intros p q Hp. apply H. by right.
  - apply Forall_app. split; [exact Ha|]. apply Forall_forall. intros q Hq.
    apply H; [by left | by apply list_elem_of_In].
Qed.

Lemma sorted_map_cons (i : nat) (l : list path) :
  StronglySorted (fun p q => before p q = true) l ->
  StronglySorted (fun p q => before p q = true) (map (cons i) l).
Proof.
  induction 1 as [|a l _ IH Ha]; simpl; constructor; [exact IH|].
  apply Forall_map. eapply Forall_impl; [exact Ha|]. simpl. intros q Hq.
  rewrite Nat.ltb_irrefl, Nat.eqb_refl. exact Hq.
Qed.

Lemma paths_from_sorted (below : node -> list path) (cs : list node) :
  Forall (fun c => StronglySorted (fun p q => before p q = true) (below c)
                   /\ Forall (fun p => p <> []) (below c)) cs ->
  forall i, StronglySorted (fun p q => before p q = true) (paths_from below i cs).
Proof.
  induction 1 as [|c cs [Hc Hne] _ IH]; intros i; [constructor|].
  cbn [paths_from]. apply sorted_app.
  - constructor; [by apply sorted_map_cons|].
    apply Forall_map. eapply Forall_impl; [exact Hne|]. simpl. intros [|k q] Hq; [done|].
    rewrite Nat.ltb_irrefl, Nat.eqb_refl. reflexivity.
  - apply IH.
  - intros p q Hp Hq. apply paths_from_spec in Hq as (j & c' & q' & -> & _ & _).
    assert (exists p', p = i :: p') as [p' ->].
    { destruct Hp as [<-|Hp]; [eauto|]. apply in_map_iff in Hp as (p' & <- & _). eauto. }
    simpl. apply orb_true_iff. left. apply Nat.ltb_lt. lia.
Qed.

Lemma paths_below_sorted (n : node) :
  StronglySorted (fun p q => before p q = true) (paths_below n).
Proof.
  induction n as [s|name attrs cs IH] using node_induction; [constructor|].
  cbn [paths_below]. apply paths_from_sorted.
  eapply Forall_impl; [exact IH|]. simpl. intros c Hc. split; [exact Hc|].
  apply Forall_forall. intros p Hp. apply list_elem_of_In, paths_below_spec in Hp as [Hp _].
  exact Hp.
Qed.

Lemma paths_from_descendants (cs pre : list node) :
  Forall (fun c => Forall2 (fun p d => at_path c p = Some d)
                     (paths_below c) (descendants c)) cs ->
  Forall2 (fun p d => match p with
                      | [] => None
                      | j :: q => match (pre ++ cs) !! j with
                                  | Some c => at_path c q
                                  | None => None
                                  end
                      end = Some d)
    (paths_from paths_below (length pre) cs)
    (flat_map (fun c => c :: descendants c) cs).
Proof.
  intros H. revert pre. induction H as [|c cs Hc _ IH]; intros pre; [constructor|].
  cbn [paths_from flat_map]. apply Forall2_app.
  - constructor.
    + rewrite list_lookup_middle by reflexivity. reflexivity.
    + apply Forall2_fmap_l. eapply Forall2_impl; [exact Hc|]. simpl. intros p d Hp.
      rewrite list_lookup_middle by reflexivity. exact Hp.
  - specialize (IH (pre ++ [c])). rewrite length_app, Nat.add_1_r, <- app_assoc in IH.
    exact IH.
Qed.

Lemma paths_below_descendants (n : node) :
  Forall2 (fun p d => at_path n p = Some d) (paths_below n) (descendants n).
Proof.
  induction n as [s|name attrs cs IH] using node_induction; [constructor|].
  cbn [paths_below descendants].
  eapply Forall2_impl; [apply (paths_from_descendants cs [] IH)|].
  simpl. intros [|j q] d H; [discriminate|]. exact H.
Qed.

Lemma Forall2_filter_both {A B} (R : A -> B -> Prop) (f : A -> bool) (g : B -> bool)
    (l : list A) (k : list B) :
  (forall x y, R x y -> f x = g y) ->
  Forall2 R l k -> Forall2 R (List.filter f l) (List.filter g k).
Proof.
  intros Hfg. induction 1 as [|x y l k Hxy _ IH]; [constructor|].
  simpl. rewrite (Hfg x y Hxy). destruct (g y); [constructor|]; assumption.
Qed.

Lemma sorted_filter (f : path -> bool) (l : list path) :
  StronglySorted (fun p q => before p q = true) l ->
  StronglySorted (fun p q => before p q = true) (List.filter f l).
Proof.
  induction 1 as [|a l _ IH Ha]; [constructor|]. simpl.
  destruct (f a); [|exact IH]. constructor; [exact IH|].
  apply Forall_forall. intros q Hq. apply list_elem_of_In, filter_In in Hq as [Hq _].
  rewrite Forall_forall in Ha. apply Ha, list_elem_of_In, Hq.
Qed.

Lemma places_find_all (name : string) (n : node) :
  Forall2 (fun p d => at_path n p = Some d) (places name n) (find_all name n).
Proof.
  unfold places, find_all. apply Forall2_filter_both; [|apply paths_below_descendants].
  intros p d H. unfold tag_at. rewrite H. reflexivity.
Qed.

Lemma places_are_places_of (name : string) (n : node) : places_of name n (places name n).
Proof.
  split; [apply sorted_filter, paths_below_sorted|].
  intros p. unfold places. rewrite filter_In, paths_below_spec. unfold tag_at. split.
  - intros [[Hp _] Ht]. split; [exact Hp|].
    destruct (at_path n p) as [[s|nm attrs cs]|]; try discriminate.
    simpl in Ht. apply String.eqb_eq in Ht as ->. eauto.
  - intros [Hp (attrs & cs & ->)]. split; [split; [exact Hp | by eexists]|].
    simpl. apply String.eqb_refl.
Qed.

(** On the page of the examples the third [tbody] is the child of the
    third table; a [tbody] inside a cell of the first table counts
    before the [tbody] of the second one. *)
Example third_tbody_of_the_page :
  places "tbody" (page [row_A; row_B]) = [[0; 0]; [1; 0]; [2; 0]]
  /\ places "tr" (Tag "tbody" [] [header; row_A; row_B]) = [[0]; [1]; [2]]
  /\ table_rows (page [row_A; row_B]) = Ok [header; row_A; row_B]
  /\ places "tbody" nested_page = [[0; 0]; [0; 0; 0; 0; 0; 0]; [1; 0]]
  /\ table_rows nested_page = Ok [row_A].
Proof. repeat split; reflexivity. Qed.

(** C3: the data table is the third, in document order, of the tags
    called [tbody] anywhere in the document, and the rows returned are
    the tags called [tr] anywhere below it, all of them, in document
    order; when the document has fewer than three [tbody] tags the
    indexing raises [IndexError] (the ParseError of the specification),
    and so does [extract], which returns no row of any other table. *)
Theorem table_rows_third_tbody (soup : node) :
  exists tbodies,
    places_of "tbody" soup tbodies
    /\ match tbodies !! 2 with
       | Some p =>
           exists t trs rows,
             at_path soup p = Some t
             /\ places_of "tr" t trs
             /\ Forall2 (fun q row => at_path t q = Some row) trs rows
             /\ table_rows soup = Ok rows
       | None =>
           table_rows soup = Raise (Exn IndexError "list index out of range")
           /\ forall w url table_attribs,
                web w url = Ok soup ->
                extract w url table_attribs
                = Raise (Exn IndexError "list index out of range")
       end.
Proof.
  exists (places "tbody" soup). split; [apply places_are_places_of|].
  pose proof (places_find_all "tbody" soup) as H.
  destruct (places "tbody" soup !! 2) as [p|] eqn:Hp.
  - destruct (Forall2_lookup_l _ _ _ _ _ H Hp) as (t & Ht & Hpt).
    exists t, (places "tr" t), (find_all "tr" t).
    split; [exact Hpt|]. split; [apply places_are_places_of|].
    split; [apply places_find_all|].
    unfold table_rows. rewrite (getitem_lookup _ _ _ Ht). reflexivity.
  - apply lookup_ge_None in Hp. rewrite (Forall2_length _ _ _ H) in Hp.
    assert (table_rows soup = Raise (Exn IndexError "list index out of range")) as Hr.
    { unfold table_rows. rewrite getitem_out_of_range by lia. reflexivity. }
    split; [exact Hr|]. intros w url attribs Hw. unfold extract. rewrite Hw. simpl.
    rewrite Hr. reflexivity.
Qed.

(** C1 as the specification words it fails: the third cell of [row_D]
    holds a figure, a line break and a dash; neither its text nor its
    first string is the dash, so the specification includes the row, and
    the loop drops it because one child of the cell is the dash. *)
Lemma text_test_differs_from_membership :
  spec_extract [row_D]
  = frame_of_records [(PStr "D", PStr "1,000—")]
  /\ extract_rows [row_D] TABLE_ATTRIBS = Ok (frame_of_records []).
Proof. split; reflexivity. Qed.

(** C1, as the code has it: over rows on which no index is out of
    range and whose kept rows have a string, or a tag with one string
    inside, as the first child of the hyperlink and of the third cell,
    the frame [extract] builds holds one record per kept row, in the
    order of the rows; a row is kept when it has a cell, a hyperlink
    below its first cell and no child of its third cell that is the
    string of one dash; the record is the string of the first child of
    that hyperlink and the string of the first child of the third
    cell. *)
Theorem extract_rows_records (rows : list node) :
  Forall (fun row => extractable row = true) rows ->
  extract_rows rows TABLE_ATTRIBS
  = Ok (frame_of_records (map record (List.filter kept rows))).
Proof.
  intros H. unfold extract_rows.
  change (DataFrame_columns TABLE_ATTRIBS) with (frame_of_records []).
  rewrite (extract_rows_from rows [] H). reflexivity.
Qed.

Lemma extract_rows_records_witness :
  Forall (fun row => extractable row = true) [row_A; row_B; row_C; row_D; row_F]
  /\ extract_rows [row_A; row_B; row_C; row_D; row_F] TABLE_ATTRIBS
     = Ok (frame_of_records [(PStr "A", PStr "1,000"); (PStr "F", PStr "3,000")]).
Proof.
  split.
  - repeat constructor.
  - exact (extract_rows_records [row_A; row_B; row_C; row_D; row_F]
             ltac:(repeat constructor)).
Defined.

(** C9 as worded fails: no row of this page is included (neither by the
    test of the loop nor by that of the specification), and [extract]
    raises, since the one row with a hyperlink has no third cell. *)
Lemma short_row_raises :
  table_rows (page [row_B; row_E]) = Ok [header; row_B; row_E]
  /\ List.filter kept [header; row_B; row_E] = []
  /\ List.filter spec_included [header; row_B; row_E] = []
  /\ extract (online (page [row_B; row_E])) URL TABLE_ATTRIBS
     = Raise (Exn IndexError "list index out of range").
Proof. repeat split; reflexivity. Qed.

(** C9, as the code has it: when the third [tbody] exists and the test
    of the loop is false on each of its rows (none at all included),
    [extract] returns the frame it started from: no row, and the columns
    of [table_attribs] in their order. *)
Theorem extract_nothing_kept (w : env) (url : string) (table_attribs : list string)
    (soup t : node) :
  web w url = Ok soup ->
  find_all "tbody" soup !! 2 = Some t ->
  Forall (fun row => row_test row = Ok false) (find_all "tr" t) ->
  extract w url table_attribs = Ok (DataFrame_columns table_attribs)
  /\ columns (DataFrame_columns table_attribs) = table_attribs
  /\ Forall (fun c => values (snd c) = []) (DataFrame_columns table_attribs).
Proof.
  intros Hw Ht Hrows. split; [|split].
  - unfold extract. rewrite Hw. simpl. unfold table_rows.
    rewrite (getitem_lookup _ _ _ Ht). simpl.
    unfold extract_rows. apply skipped_rows_leave_frame. exact Hrows.
  - unfold columns, DataFrame_columns. rewrite map_map. simpl. apply map_id.
  - unfold DataFrame_columns.
    induction table_attribs as [|a l IH]; simpl; constructor; auto.
Qed.

Lemma extract_nothing_kept_witness :
  extract (online (page [row_B; row_C])) URL ["Country"; "GDP"]
  = Ok (DataFrame_columns ["Country"; "GDP"])
  /\ columns (DataFrame_columns ["Country"; "GDP"]) = ["Country"; "GDP"]
  /\ Forall (fun c => values (snd c) = []) (DataFrame_columns ["Country"; "GDP"]).
Proof.
  apply (extract_nothing_kept (online (page [row_B; row_C])) URL
           ["Country"; "GDP"] (page [row_B; row_C])
           (Tag "tbody" [] [header; row_B; row_C])).
  - reflexivity.
  - reflexivity.
  - repeat constructor.
Defined.

End ExtractProofs.

(** ** The UnitConverter: [float], the division and the rounding *)

Module ConvertProofs.
Import Etl Spec Examples Float64 PyProofs.

Lemma is_digit_cases (c : ascii) :
  is_digit c = true ->
  In c ["0"; "1"; "2"; "3"; "4"; "5"; "6"; "7"; "8"; "9"]%char.
Proof.
  destruct c as [b0 b1 b2 b3 b4 b5 b6 b7].
  destruct b0, b1, b2, b3, b4, b5, b6, b7; intros H; vm_compute in H;
    try discriminate H; simpl; tauto.
Qed.

Ltac digit_cases H :=
  apply is_digit_cases in H; simpl in H;
  repeat (destruct H as [H|H]; [subst; try reflexivity|]); try contradiction.

Lemma digit_is_ascii (c : ascii) : is_digit c = true -> (code c <? 127)%nat = true.
Proof. intros H. digit_cases H. Qed.

Lemma digit_not_underscore (c : ascii) : is_digit c = true -> Ascii.eqb c "_" = false.
Proof. intros H. digit_cases H. Qed.

Lemma digit_not_space (c : ascii) : is_digit c = true -> Py_ISSPACE c = false.
Proof. intros H. digit_cases H. Qed.

Lemma digit_no_sign (c : ascii) (s : string) :
  is_digit c = true -> take_sign (String c s) = (false, String c s).
Proof. intros H. digit_cases H. Qed.

Lemma digit_val_nonneg (c : ascii) : is_digit c = true -> (0 <= digit_val c)%Z.
Proof. intros H. digit_cases H; vm_compute; discriminate. Qed.

(** Removing the separators is what [split] then [join] do. *)
Lemma split_cons (c : ascii) (s : string) : exists w ws, split c s = w :: ws.
Proof.
  induction s as [|a s (w & ws & IH)]; simpl.
  - eauto.
  - destruct (Ascii.eqb a c); [eauto|]. rewrite IH. eauto.
Qed.

Lemma join_split_remove (c : ascii) (s : string) :
  join "" (split c s) = remove c s.
Proof.
  induction s as [|a s IH]; simpl; [reflexivity|].
  destruct (split_cons c s) as (w & ws & Hs). rewrite Hs in *.
  destruct (Ascii.eqb a c).
  - rewrite <- IH. reflexivity.
  - rewrite <- IH. destruct ws; reflexivity.
Qed.

Lemma all_chars_forallb (p : ascii -> bool) (s : string) :
  all_chars p s = forallb p (list_ascii_of_string s).
Proof. induction s as [|c s IH]; simpl; [reflexivity | by rewrite IH]. Qed.

Lemma to_ascii_below_127 (s : string) :
  all_chars (fun c => (code c <? 127)%nat) s = true -> to_ascii s = s.
Proof.
  unfold to_ascii. induction s as [|c s IH]; [reflexivity|].
  cbn [all_chars]. intros [Hc Hs]%andb_prop.
  assert (Unicode.byte c < 127)%N as Hb.
  { apply Nat.ltb_lt in Hc. unfold code in Hc. unfold Unicode.byte.
    rewrite <- (N2Nat.id (N_of_ascii c)). change (N.to_nat (N_of_ascii c)) with (nat_of_ascii c).
    lia. }
  cbn [Unicode.chars].
  replace (Unicode.byte c <? 128)%N with true by (symmetry; apply N.ltb_lt; lia).
  cbn [ascii_of_chars].
  replace (Unicode.byte c <? 127)%N with true by (symmetry; apply N.ltb_lt; lia).
  unfold Unicode.byte. rewrite ascii_N_embedding, (IH Hs). reflexivity.
Qed.

Lemma all_chars_weaken (p q : ascii -> bool) (s : string) :
  (forall c, p c = true -> q c = true) -> all_chars p s = true -> all_chars q s = true.
Proof.
  intros Hpq. induction s as [|c s IH]; simpl; [reflexivity|].
  intros [Hc Hs]%andb_prop. rewrite (Hpq _ Hc), (IH Hs). reflexivity.
Qed.

Lemma to_ascii_digits (d : string) : all_chars is_digit d = true -> to_ascii d = d.
Proof.
  intros H. apply to_ascii_below_127.
  revert H. apply all_chars_weaken, digit_is_ascii.
Qed.

Lemma underscores_ok_digits (d : string) (prev : ascii) :
  Ascii.eqb prev "_" = false -> all_chars is_digit d = true ->
  underscores_ok prev d = true.
Proof.
  revert prev. induction d as [|c d IH]; simpl; intros prev Hp.
  - intros _. rewrite Hp. reflexivity.
  - intros [Hc Hd]%andb_prop.
    rewrite (digit_not_underscore _ Hc), Hp, Hc. simpl.
    apply IH; [apply digit_not_underscore|]; assumption.
Qed.

Lemma remove_underscore_digits (d : string) :
  all_chars is_digit d = true -> remove "_" d = d.
Proof.
  induction d as [|c d IH]; simpl; [reflexivity|].
  intros [Hc Hd]%andb_prop. rewrite (digit_not_underscore _ Hc), (IH Hd). reflexivity.
Qed.

Lemma lstrip_digits (d : string) : all_chars is_digit d = true -> lstrip d = d.
Proof.
  destruct d as [|c d]; simpl; [reflexivity|].
  intros [Hc _]%andb_prop. rewrite (digit_not_space _ Hc). reflexivity.
Qed.

Lemma reverse_digits (d : string) :
  all_chars is_digit d = true -> all_chars is_digit (reverse d) = true.
Proof.
  unfold reverse. rewrite !all_chars_forallb, list_ascii_of_string_of_list_ascii.
  rewrite !forallb_forall. intros H x Hx. apply H. by apply in_rev.
Qed.

Lemma reverse_involutive (s : string) : reverse (reverse s) = s.
Proof.
  unfold reverse. rewrite list_ascii_of_string_of_list_ascii, rev_involutive.
  apply string_of_list_ascii_of_string.
Qed.

Lemma strip_digits (d : string) : all_chars is_digit d = true -> strip d = d.
Proof.
  intros H. unfold strip. rewrite (lstrip_digits d H).
  rewrite (lstrip_digits _ (reverse_digits d H)). apply reverse_involutive.
Qed.

Lemma take_digits_all (d : string) :
  all_chars is_digit d = true -> take_digits d = (d, EmptyString).
Proof.
  induction d as [|c d IH]; simpl; [reflexivity|].
  intros [Hc Hd]%andb_prop. rewrite Hc, (IH Hd). reflexivity.
Qed.

Lemma digits_value_from_nonneg (d : string) (acc : Z) :
  (0 <= acc)%Z -> all_chars is_digit d = true -> (0 <= digits_value_from acc d)%Z.
Proof.
  revert acc. induction d as [|c d IH]; simpl; intros acc Ha; [auto|].
  intros [Hc Hd]%andb_prop. apply IH; [|assumption].
  pose proof (digit_val_nonneg c Hc). lia.
Qed.

Lemma of_decimal_integer (m : Z) : (0 <= m)%Z -> of_decimal false m 0 = of_Z m.
Proof.
  intros Hm. destruct m as [|p|p]; [reflexivity| |lia].
  unfold of_decimal, of_Z, binary_normalize. simpl.
  rewrite Pos.mul_1_r. reflexivity.
Qed.

(** [float] of a string of digits is the number nearest to the integer
    the digits write. *)
Lemma float_of_digits (d : string) :
  all_chars is_digit d = true -> d <> EmptyString ->
  float_of_str d = Some (of_Z (digits_value d)).
Proof.
  intros Hd Hne. unfold float_of_str.
  rewrite (to_ascii_digits d Hd).
  rewrite (underscores_ok_digits d zero eq_refl Hd).
  rewrite (remove_underscore_digits d Hd).
  unfold float_from_string_inner. rewrite (strip_digits d Hd).
  destruct d as [|c d]; [congruence|].
  pose proof Hd as Hd'. simpl in Hd'. apply andb_prop in Hd' as [Hc _].
  rewrite (digit_no_sign c d Hc).
  unfold parse_decimal. rewrite (take_digits_all _ Hd).
  rewrite append_empty_r.
  simpl. rewrite of_decimal_integer; [reflexivity|].
  apply digits_value_from_nonneg; [lia | assumption].
Qed.

Lemma digit_not_comma (c : ascii) : is_digit c = true -> Ascii.eqb c "," = false.
Proof. intros H. digit_cases H. Qed.

Lemma grouped_remove_digits (s : string) :
  all_chars (fun c => is_digit c || Ascii.eqb c ",") s = true ->
  all_chars is_digit (remove "," s) = true.
Proof.
  induction s as [|c s IH]; simpl; [reflexivity|].
  intros [Hc Hs]%andb_prop. destruct (Ascii.eqb c ",") eqn:Hcomma.
  - apply IH, Hs.
  - simpl. rewrite orb_false_r in Hc. rewrite Hc. apply IH, Hs.
Qed.

Lemma grouped_remove_nonempty (s : string) :
  some_char is_digit s = true -> remove "," s <> EmptyString.
Proof.
  induction s as [|c s IH]; simpl; [discriminate|].
  destruct (is_digit c) eqn:Hc; simpl.
  - intros _. rewrite (digit_not_comma c Hc). discriminate.
  - intros Hs. destruct (Ascii.eqb c ","); [apply IH, Hs | discriminate].
Qed.

Lemma to_float_grouped (s : string) :
  grouped_decimal s = true ->
  to_float (PStr s) = Ok (of_Z (digits_value (remove "," s))).
Proof.
  unfold grouped_decimal. intros [Hall Hsome]%andb_prop.
  unfold to_float. rewrite join_split_remove.
  rewrite (float_of_digits _ (grouped_remove_digits s Hall)
             (grouped_remove_nonempty s Hsome)).
  reflexivity.
Qed.

Lemma to_float_valid (x : pyobj) :
  valid_decimal x = true -> exists f, to_float x = Ok f.
Proof.
  destruct x as [s|f|n]; simpl; try discriminate.
  intros [f Hf]%bool_decide_eq_true. rewrite join_split_remove, Hf. eauto.
Qed.

Lemma to_float_invalid (x : pyobj) :
  is_str x = true -> valid_decimal x = false ->
  exists e, to_float x = Raise e /\ exn_cls e = ValueError.
Proof.
  destruct x as [s|f|n]; simpl; try discriminate.
  intros _ H%bool_decide_eq_false. rewrite join_split_remove.
  destruct (float_of_str (remove "," s)) as [f|]; [exfalso; apply H; eauto|].
  eauto.
Qed.


Lemma to_float_all_valid (l : list pyobj) :
  forallb valid_decimal l = true -> exists fs, comprehension to_float l = Ok fs.
Proof.
  induction l as [|x l IH]; simpl; [eauto|].
  intros [Hx Hl]%andb_prop.
  destruct (to_float_valid x Hx) as [f ->]. destruct (IH Hl) as [fs ->].
  simpl. eauto.
Qed.

Lemma to_float_some_invalid (l : list pyobj) :
  Forall (fun x => is_str x = true) l -> forallb valid_decimal l = false ->
  exists e, comprehension to_float l = Raise e /\ exn_cls e = ValueError.
Proof.
  induction 1 as [|x l Hx _ IH]; simpl; [discriminate|].
  destruct (valid_decimal x) eqn:Hv; simpl.
  - intros Hl. destruct (to_float_valid x Hv) as [f ->].
    destruct (IH Hl) as (e & -> & He). simpl. eauto.
  - intros _. destruct (to_float_invalid x Hx Hv) as (e & -> & He). simpl. eauto.
Qed.

(** The conversion of a column: all of it, or the [ValueError] of the
    first value that [float] refuses. *)
Lemma convert_valid (l : list pyobj) :
  forallb valid_decimal l = true ->
  exists c, convert l = Ok c /\ length c = length l /\ forallb is_float c = true.
Proof.
  intros H. destruct (to_float_all_valid l H) as [fs Hfs].
  unfold convert. rewrite Hfs. simpl. eexists. split; [reflexivity|]. split.
  - rewrite length_map. apply (comprehension_length _ _ _ Hfs).
  - clear. induction fs; simpl; auto.
Qed.

Lemma convert_invalid (l : list pyobj) :
  Forall (fun x => is_str x = true) l -> forallb valid_decimal l = false ->
  exists e, convert l = Raise e /\ exn_cls e = ValueError.
Proof.
  intros Hs H. destruct (to_float_some_invalid l Hs H) as (e & He & Hc).
  unfold convert. rewrite He. simpl. eauto.
Qed.

(** *** [float] and the literals of the language *)

Lemma all_chars_app (p : ascii -> bool) (a b : string) :
  all_chars p (a +:+ b) = all_chars p a && all_chars p b.
Proof.
  induction a as [|c a IH]; [reflexivity|].
  change (String c a +:+ b) with (String c (a +:+ b)). simpl. rewrite IH.
  apply andb_assoc.
Qed.

Lemma isspace_cases (c : ascii) :
  Py_ISSPACE c = true ->
  In c ["009"; "010"; "011"; "012"; "013"; " "]%char.
Proof.
  destruct c as [b0 b1 b2 b3 b4 b5 b6 b7].
  destruct b0, b1, b2, b3, b4, b5, b6, b7; intros H; vm_compute in H;
    try discriminate H; simpl; tauto.
Qed.

Ltac plain_cases H :=
  first [apply is_digit_cases in H | apply isspace_cases in H]; simpl in H;
  repeat (destruct H as [H|H]; [subst; try reflexivity|]); try contradiction.

Lemma remove_app (c : ascii) (a b : string) :
  remove c (a +:+ b) = remove c a +:+ remove c b.
Proof.
  induction a as [|x a IH]; [reflexivity|].
  change (String x a +:+ b) with (String x (a +:+ b)). simpl.
  destruct (Ascii.eqb x c); [exact IH|].
  change (String x (remove c a) +:+ remove c b)
    with (String x (remove c a +:+ remove c b)). by rewrite IH.
Qed.

Lemma lstrip_space_app (ws s : string) :
  all_chars Py_ISSPACE ws = true -> lstrip (ws +:+ s) = lstrip s.
Proof.
  induction ws as [|c ws IH]; [reflexivity|]. simpl.
  intros [Hc Hs]%andb_prop.
  change (String c ws +:+ s) with (String c (ws +:+ s)). simpl.
  rewrite Hc. apply IH, Hs.
Qed.

Lemma list_ascii_app (a b : string) :
  list_ascii_of_string (a +:+ b) = list_ascii_of_string a ++ list_ascii_of_string b.
Proof.
  induction a as [|c a IH]; [reflexivity|].
  change (String c a +:+ b) with (String c (a +:+ b)). simpl. by rewrite IH.
Qed.

Lemma string_of_list_app (l1 l2 : list ascii) :
  string_of_list_ascii (l1 ++ l2) = string_of_list_ascii l1 +:+ string_of_list_ascii l2.
Proof.
  induction l1 as [|c l1 IH]; [reflexivity|]. simpl. rewrite IH. reflexivity.
Qed.

Lemma reverse_app (a b : string) : reverse (a +:+ b) = reverse b +:+ reverse a.
Proof.
  unfold reverse. rewrite list_ascii_app, rev_app_distr. apply string_of_list_app.
Qed.

Lemma reverse_space (ws : string) :
  all_chars Py_ISSPACE ws = true -> all_chars Py_ISSPACE (reverse ws) = true.
Proof.
  unfold reverse. rewrite !all_chars_forallb, list_ascii_of_string_of_list_ascii.
  rewrite !forallb_forall. intros H x Hx. apply H. by apply in_rev.
Qed.

Lemma append_cons (c : ascii) (a b : string) : String c a +:+ b = String c (a +:+ b).
Proof. reflexivity. Qed.

Lemma append_assoc (a b c : string) : (a +:+ b) +:+ c = a +:+ b +:+ c.
Proof.
  induction a as [|x a IH]; [reflexivity|]. rewrite !append_cons, IH. reflexivity.
Qed.

Lemma append_empty_inv (a b : string) : a +:+ b = "" -> a = "" /\ b = "".
Proof. destruct a; [auto | discriminate]. Qed.

(** *** Underscores *)

Lemma underscores_ok_between (s : string) :
  forall prev,
    underscores_ok prev s = true
    <-> (forall x y, s = x +:+ String "_" y ->
                     digit_at (last_char (String prev x)) = true
                     /\ digit_at (first_char y) = true)
        /\ (prev = "_"%char -> digit_at (first_char s) = true).
Proof.
  induction s as [|c s IH]; intros prev.
  - cbn [underscores_ok]. split.
    + intros H. split.
      * intros [|a x] y E; discriminate E.
      * intros ->. discriminate H.
    + intros [_ H]. destruct (Ascii.eqb_spec prev "_") as [->|Hne]; [|reflexivity].
      discriminate (H eq_refl).
  - cbn [underscores_ok]. rewrite andb_true_iff, IH. split.
    + intros [Hc [Hdec Hfirst]]. split.
      * intros [|a x] y E.
        -- injection E as -> ->. rewrite Ascii.eqb_refl in Hc.
           split; [exact Hc | apply Hfirst; reflexivity].
        -- rewrite append_cons in E. injection E as -> E.
           destruct (Hdec x y E) as [H1 H2]. split; [exact H1 | exact H2].
      * intros ->. destruct (Ascii.eqb c "_") eqn:E; [discriminate Hc | exact Hc].
    + intros [Hdec Hfirst]. split; [|split].
      * destruct (Ascii.eqb_spec c "_") as [->|Hne].
        -- destruct (Hdec "" s eq_refl) as [H1 _]. exact H1.
        -- destruct (Ascii.eqb_spec prev "_") as [->|Hp]; [|reflexivity].
           exact (Hfirst eq_refl).
      * intros x y E. destruct (Hdec (String c x) y) as [H1 H2]; [by rewrite E|].
        split; [exact H1 | exact H2].
      * intros ->. destruct (Hdec "" s eq_refl) as [_ H2]. exact H2.
Qed.

Lemma between_digits_ok (a : string) :
  underscores_ok zero a = true <-> between_digits a.
Proof.
  rewrite underscores_ok_between. unfold between_digits. split.
  - intros [H _] x y E. destruct (H x y E) as [H1 H2]. split; [|exact H2].
    destruct x; [discriminate H1 | exact H1].
  - intros H. split; [|intros E; discriminate E].
    intros x y E. destruct (H x y E) as [H1 H2]. split; [|exact H2].
    destruct x; [discriminate H1 | exact H1].
Qed.

(** *** The characters *)

Lemma image_to_ascii (l : list (N * string)) :
  match image l with
  | Some a => ascii_of_chars l = a
  | None => exists pre, ascii_of_chars l = pre +:+ "?"
  end.
Proof.
  induction l as [|[cp b] l IH]; [reflexivity|].
  cbn [image ascii_of_chars]. unfold stands_for.
  destruct (cp <? 127)%N.
  - destruct (image l) as [a|]; [by rewrite IH|].
    destruct IH as [pre ->]. by exists (String (ascii_of_N cp) pre).
  - destruct (Unicode.is_space cp).
    + destruct (image l) as [a|]; [by rewrite IH|].
      destruct IH as [pre ->]. by exists (String " " pre).
    + destruct (Unicode.decimal cp) as [d|]; [|by exists ""].
      destruct (image l) as [a|]; [by rewrite IH|].
      destruct IH as [pre ->]. by exists (String (ascii_of_N (48 + d)) pre).
Qed.

Local Abbreviation solid := (fun c : ascii => negb (Py_ISSPACE c) && negb (Ascii.eqb c "?")).
Local Abbreviation no_mark := (fun c : ascii => negb (Ascii.eqb c "?")).

Lemma digit_solid (c : ascii) : is_digit c = true -> solid c = true.
Proof. intros H. digit_cases H. Qed.

Lemma space_no_mark (c : ascii) : Py_ISSPACE c = true -> no_mark c = true.
Proof. intros H. plain_cases H. Qed.

Lemma lower_solid (c : ascii) : solid (lower c) = true -> solid c = true.
Proof.
  destruct c as [b0 b1 b2 b3 b4 b5 b6 b7].
  destruct b0, b1, b2, b3, b4, b5, b6, b7; vm_compute; exact (fun H => H).
Qed.

Lemma lowercase_solid (s : string) :
  all_chars solid (lowercase s) = true -> all_chars solid s = true.
Proof.
  induction s as [|c s IH]; [reflexivity|]. cbn [lowercase all_chars].
  intros [Hc Hs]%andb_prop. rewrite (lower_solid c Hc), (IH Hs). reflexivity.
Qed.

Lemma lower_e (c : ascii) : Ascii.eqb (lower c) "e" = true -> c = "e"%char \/ c = "E"%char.
Proof.
  destruct c as [b0 b1 b2 b3 b4 b5 b6 b7].
  destruct b0, b1, b2, b3, b4, b5, b6, b7; vm_compute; intros H;
    try discriminate H; auto.
Qed.

Lemma take_sign_other (c : ascii) (s : string) :
  Ascii.eqb c "+" = false -> Ascii.eqb c "-" = false ->
  take_sign (String c s) = (false, String c s).
Proof.
  destruct c as [b0 b1 b2 b3 b4 b5 b6 b7].
  destruct b0, b1, b2, b3, b4, b5, b6, b7; vm_compute; intros H1 H2;
    try discriminate; reflexivity.
Qed.

Lemma take_sign_spec (s : string) :
  exists sgn, s = sgn +:+ snd (take_sign s) /\ sign_text sgn.
Proof.
  destruct s as [|c s]; [exists ""; split; [reflexivity | by left]|].
  destruct (Ascii.eqb_spec c "+") as [->|H1].
  { exists "+". split; [reflexivity | right; by left]. }
  destruct (Ascii.eqb_spec c "-") as [->|H2].
  { exists "-". split; [reflexivity | right; by right]. }
  exists "". rewrite take_sign_other; [split; [reflexivity | by left] | |];
    by apply Ascii.eqb_neq.
Qed.

Lemma take_sign_signed (sgn r : string) :
  sign_text sgn -> take_sign r = (false, r) -> snd (take_sign (sgn +:+ r)) = r.
Proof.
  intros [->|[->| ->]] H; [|reflexivity..].
  change ("" +:+ r) with r. by rewrite H.
Qed.

Lemma take_digits_spec (s : string) :
  s = fst (take_digits s) +:+ snd (take_digits s)
  /\ digits_only (fst (take_digits s)).
Proof.
  unfold digits_only. induction s as [|c s [IH1 IH2]]; [by split|].
  cbn [take_digits]. destruct (is_digit c) eqn:Hc; [|by split].
  destruct (take_digits s) as [d r]. cbn [fst snd all_chars] in *.
  rewrite Hc, IH2. split; [|reflexivity]. rewrite append_cons. congruence.
Qed.

Lemma take_digits_app (d r : string) :
  digits_only d -> digit_at (first_char r) = false -> take_digits (d +:+ r) = (d, r).
Proof.
  unfold digits_only. intros Hd Hr. induction d as [|c d IH].
  - change ("" +:+ r) with r. destruct r as [|c r]; [reflexivity|].
    cbn [first_char digit_at] in Hr. cbn [take_digits]. by rewrite Hr.
  - cbn [all_chars] in Hd. apply andb_prop in Hd as [Hc Hd].
    rewrite append_cons. cbn [take_digits]. rewrite Hc, (IH Hd). reflexivity.
Qed.

(** *** The exponent *)

Lemma parse_exponent_spec (r : string) :
  is_Some (parse_exponent r) <-> exponent_text r.
Proof.
  split.
  - destruct r as [|c s]; [by left|]. cbn [parse_exponent].
    destruct (Ascii.eqb (lower c) "e") eqn:E; [|by intros [? [=]]].
    destruct (take_sign_spec s) as (sgn & Hs & Hsgn).
    destruct (take_sign s) as [neg s'']. cbn [snd] in Hs.
    destruct (take_digits_spec s'') as [Hd Hdig].
    destruct (take_digits s'') as [d rr]. cbn [fst snd] in Hd, Hdig.
    destruct d as [|d0 d]; [by intros [? [=]]|].
    destruct rr as [|? ?]; [|by intros [? [=]]].
    intros _. right. exists c, sgn, (String d0 d).
    rewrite append_empty_r in Hd. subst s''.
    split; [by rewrite Hs|]. split; [by apply lower_e|]. split; [exact Hsgn|].
    split; [exact Hdig | discriminate].
  - intros [->|(e & sgn & d & -> & He & Hs & Hd & Hne)]; [by eexists|].
    cbn [parse_exponent].
    assert (Ascii.eqb (lower e) "e" = true) as -> by (by destruct He as [->| ->]).
    destruct d as [|c d]; [congruence|].
    pose proof Hd as Hd'. unfold digits_only in Hd'. cbn [all_chars] in Hd'.
    apply andb_prop in Hd' as [Hc _].
    pose proof (take_sign_signed sgn (String c d) Hs (digit_no_sign c d Hc)) as Hts.
    destruct (take_sign (sgn +:+ String c d)) as [neg s'']. cbn [snd] in Hts. subst s''.
    rewrite (take_digits_all _ Hd). by eexists.
Qed.

(** *** The number *)

Lemma fraction_cases (r1 : string) :
  (exists r, r1 = String "." r)
  \/ (first_char r1 <> Some "."%char
      /\ match r1 with
         | String "." r => take_digits r
         | _ => (EmptyString, r1)
         end = (EmptyString, r1)).
Proof.
  destruct r1 as [|c r]; [right; by split|].
  destruct (Ascii.eqb_spec c ".") as [->|Hne]; [left; by eexists|].
  right. split; [intros [= ->]; congruence|].
  destruct c as [b0 b1 b2 b3 b4 b5 b6 b7].
  destruct b0, b1, b2, b3, b4, b5, b6, b7; try reflexivity. congruence.
Qed.

Lemma exponent_first (ex : string) :
  exponent_text ex ->
  digit_at (first_char ex) = false /\ first_char ex <> Some "."%char.
Proof.
  intros [->|(e & sgn & d & -> & [->| ->] & _)]; split; try reflexivity; discriminate.
Qed.

Lemma parse_decimal_spec (neg : bool) (body : string) :
  is_Some (parse_decimal neg body)
  <-> exists n ex, body = n +:+ ex /\ number_text n /\ exponent_text ex.
Proof.
  unfold parse_decimal. split.
  - destruct (take_digits_spec body) as [Hb Hip].
    destruct (take_digits body) as [ip r1]. cbn [fst snd] in Hb, Hip.
    destruct (fraction_cases r1) as [[r ->]|[_ ->]].
    + destruct (take_digits_spec r) as [Hr Hfp].
      destruct (take_digits r) as [fp r2]. cbn [fst snd] in Hr, Hfp.
      destruct (ip +:+ fp) as [|c0 s0] eqn:E; [by intros [? [=]]|].
      destruct (parse_exponent r2) as [e|] eqn:Hex; [|by intros [? [=]]].
      intros _. exists (ip +:+ String "." fp), r2.
      split; [by rewrite Hb, Hr at 1; rewrite append_assoc, append_cons|].
      split; [|apply parse_exponent_spec; by rewrite Hex].
      right. exists ip, fp. split; [reflexivity|]. split; [exact Hip|].
      split; [exact Hfp | by rewrite E].
    + rewrite append_empty_r. destruct ip as [|c0 s0]; [by intros [? [=]]|].
      destruct (parse_exponent r1) as [e|] eqn:Hex; [|by intros [? [=]]].
      intros _. exists (String c0 s0), r1. split; [exact Hb|].
      split; [left; by split | apply parse_exponent_spec; by rewrite Hex].
  - intros (n & ex & -> & Hn & Hex).
    destruct (exponent_first ex Hex) as [Hnd Hnp].
    apply parse_exponent_spec in Hex as [e He].
    destruct Hn as [[Hd Hne]|(ip & fp & -> & Hip & Hfp & Hne)].
    + rewrite (take_digits_app n ex Hd Hnd).
      destruct (fraction_cases ex) as [[r ->]|[_ ->]]; [by destruct Hnp|].
      rewrite append_empty_r. destruct n as [|c0 s0]; [congruence|].
      rewrite He. by eexists.
    + rewrite append_assoc, append_cons.
      rewrite (take_digits_app ip (String "." (fp +:+ ex)) Hip eq_refl).
      rewrite (take_digits_app fp ex Hfp Hnd).
      destruct (ip +:+ fp) as [|c0 s0]; [congruence|].
      rewrite He. by eexists.
Qed.

Lemma parse_inf_or_nan_spec (neg : bool) (body : string) :
  is_Some (parse_inf_or_nan neg body) <-> special_text body.
Proof.
  unfold parse_inf_or_nan, special_text.
  destruct (String.eqb_spec (lowercase body) "inf") as [->|H1].
  { split; [by left | by eexists]. }
  destruct (String.eqb_spec (lowercase body) "infinity") as [->|H2].
  { split; [right; by left | by eexists]. }
  destruct (String.eqb_spec (lowercase body) "nan") as [->|H3].
  { split; [right; by right | by eexists]. }
  cbn. split; [by intros [? [=]] | intros [?|[?|?]]; congruence].
Qed.

(** *** The characters of a number *)

Lemma digits_solid (d : string) : digits_only d -> all_chars solid d = true.
Proof. apply all_chars_weaken, digit_solid. Qed.

Lemma sign_solid (sgn : string) : sign_text sgn -> all_chars solid sgn = true.
Proof. by intros [->|[->| ->]]. Qed.

Lemma exponent_solid (ex : string) : exponent_text ex -> all_chars solid ex = true.
Proof.
  intros [->|(e & sgn & d & -> & He & Hs & Hd & _)]; [reflexivity|].
  cbn [all_chars]. rewrite all_chars_app, (sign_solid _ Hs), (digits_solid _ Hd).
  by destruct He as [->| ->].
Qed.

Lemma number_solid (n : string) : number_text n -> all_chars solid n = true.
Proof.
  intros [[Hd _]|(ip & fp & -> & Hip & Hfp & _)]; [by apply digits_solid|].
  rewrite all_chars_app. cbn [all_chars].
  rewrite (digits_solid _ Hip), (digits_solid _ Hfp). reflexivity.
Qed.

Lemma special_solid (s : string) : special_text s -> all_chars solid s = true.
Proof. intros [H|[H|H]]; apply lowercase_solid; by rewrite H. Qed.

Lemma unsigned_solid (body : string) : unsigned_text body -> all_chars solid body = true.
Proof.
  intros [H|(n & ex & -> & Hn & Hex)]; [by apply special_solid|].
  by rewrite all_chars_app, (number_solid _ Hn), (exponent_solid _ Hex).
Qed.

Lemma lower_not_sign (c : ascii) :
  lower c = "i"%char \/ lower c = "n"%char ->
  Ascii.eqb c "+" = false /\ Ascii.eqb c "-" = false.
Proof.
  destruct c as [b0 b1 b2 b3 b4 b5 b6 b7].
  destruct b0, b1, b2, b3, b4, b5, b6, b7; vm_compute; intros [H|H];
    try discriminate H; by split.
Qed.

Lemma unsigned_no_sign (body : string) :
  unsigned_text body -> body <> "" /\ take_sign body = (false, body).
Proof.
  intros [H|(n & ex & -> & Hn & Hex)].
  - destruct body as [|c r]; [by destruct H as [H|[H|H]]|]. split; [discriminate|].
    assert (lower c = "i"%char \/ lower c = "n"%char) as Hc.
    { destruct H as [H|[H|H]]; cbn [lowercase] in H; injection H as H _; auto. }
    destruct (lower_not_sign c Hc). by apply take_sign_other.
  - destruct Hn as [[Hd Hne]|(ip & fp & -> & Hip & Hfp & Hne)].
    + destruct n as [|c d]; [congruence|]. rewrite append_cons. split; [discriminate|].
      unfold digits_only in Hd. cbn [all_chars] in Hd. apply andb_prop in Hd as [Hc _].
      by apply digit_no_sign.
    + destruct ip as [|c d]; [split; [discriminate | reflexivity]|].
      rewrite !append_cons. split; [discriminate|].
      unfold digits_only in Hip. cbn [all_chars] in Hip. apply andb_prop in Hip as [Hc _].
      by apply digit_no_sign.
Qed.

(** *** The white space *)

Lemma lstrip_spec (s : string) :
  exists ws, s = ws +:+ lstrip s /\ spaces_only ws.
Proof.
  unfold spaces_only. induction s as [|c s (ws & IH & Hws)]; [by exists ""|].
  cbn [lstrip]. destruct (Py_ISSPACE c) eqn:Hc; [|by exists ""].
  exists (String c ws). rewrite append_cons, <- IH. cbn [all_chars]. by rewrite Hc, Hws.
Qed.

Lemma strip_spec (s : string) :
  exists ws1 ws2, s = ws1 +:+ strip s +:+ ws2 /\ spaces_only ws1 /\ spaces_only ws2.
Proof.
  unfold strip. destruct (lstrip_spec s) as (ws1 & Hs & H1).
  destruct (lstrip_spec (reverse (lstrip s))) as (w & Hr & Hw).
  exists ws1, (reverse w). split; [|split; [exact H1 | by apply reverse_space]].
  rewrite <- reverse_app, <- Hr, reverse_involutive. exact Hs.
Qed.

Lemma lstrip_solid (m : string) : all_chars solid m = true -> lstrip m = m.
Proof.
  destruct m as [|c m]; [reflexivity|]. cbn [all_chars lstrip].
  intros [[Hc _]%andb_prop _]%andb_prop. apply negb_true_iff in Hc. by rewrite Hc.
Qed.

Lemma all_chars_reverse (p : ascii -> bool) (s : string) :
  all_chars p s = true -> all_chars p (reverse s) = true.
Proof.
  unfold reverse. rewrite !all_chars_forallb, list_ascii_of_string_of_list_ascii.
  rewrite !forallb_forall. intros H x Hx. apply H. by apply in_rev.
Qed.

Lemma strip_solid (ws1 m ws2 : string) :
  spaces_only ws1 -> spaces_only ws2 -> all_chars solid m = true -> m <> "" ->
  strip (ws1 +:+ m +:+ ws2) = m.
Proof.
  intros H1 H2 Hm Hne. unfold strip. rewrite (lstrip_space_app _ _ H1).
  assert (lstrip (m +:+ ws2) = m +:+ ws2) as ->.
  { destruct m as [|c m]; [congruence|]. rewrite append_cons.
    cbn [all_chars] in Hm. apply andb_prop in Hm as [[Hc _]%andb_prop _].
    apply negb_true_iff in Hc. cbn [lstrip]. by rewrite Hc. }
  rewrite reverse_app, (lstrip_space_app _ _ (reverse_space _ H2)).
  rewrite (lstrip_solid _ (all_chars_reverse _ _ Hm)). apply reverse_involutive.
Qed.

(** *** The literal *)

Lemma float_from_string_inner_spec (b : string) :
  is_Some (float_from_string_inner b) <-> ascii_literal b.
Proof.
  unfold float_from_string_inner. split.
  - destruct (strip_spec b) as (ws1 & ws2 & Hb & H1 & H2).
    destruct (take_sign_spec (strip b)) as (sgn & Hs & Hsgn).
    destruct (take_sign (strip b)) as [neg body]. cbn [snd] in Hs.
    intros Hsome. exists ws1, sgn, body, ws2.
    split; [by rewrite Hb, Hs at 1; rewrite append_assoc|].
    split; [exact H1|]. split; [exact Hsgn|]. split; [|exact H2].
    destruct (parse_decimal neg body) as [x|] eqn:Hp.
    + right. apply (parse_decimal_spec neg). by rewrite Hp.
    + left. by apply (parse_inf_or_nan_spec neg).
  - intros (ws1 & sgn & body & ws2 & -> & H1 & Hsgn & Hu & H2).
    destruct (unsigned_no_sign body Hu) as [Hne Hts].
    replace (ws1 +:+ sgn +:+ body +:+ ws2) with (ws1 +:+ (sgn +:+ body) +:+ ws2)
      by (by rewrite append_assoc).
    rewrite strip_solid; [|exact H1 | exact H2 | |].
    + pose proof (take_sign_signed sgn body Hsgn Hts) as Hb.
      destruct (take_sign (sgn +:+ body)) as [neg r]. cbn [snd] in Hb. subst r.
      destruct Hu as [Hu|Hu].
      * destruct (parse_decimal neg body); [by eexists|].
        by apply parse_inf_or_nan_spec.
      * apply (parse_decimal_spec neg) in Hu as [x ->]. by eexists.
    + by rewrite all_chars_app, (sign_solid _ Hsgn), (unsigned_solid _ Hu).
    + intros [_ ?]%append_empty_inv. contradiction.
Qed.

Lemma literal_no_mark (b : string) : ascii_literal b -> all_chars no_mark b = true.
Proof.
  intros (ws1 & sgn & body & ws2 & -> & H1 & Hsgn & Hu & H2).
  rewrite !all_chars_app.
  rewrite (all_chars_weaken _ no_mark _ space_no_mark H1),
    (all_chars_weaken _ no_mark _ space_no_mark H2).
  rewrite (all_chars_weaken solid no_mark sgn), (all_chars_weaken solid no_mark body);
    [reflexivity | | by apply unsigned_solid | | by apply sign_solid];
    by intros c [_ ?]%andb_prop.
Qed.

(** [float] accepts a string exactly when it is a literal. *)
Lemma float_of_str_literal (s : string) :
  is_Some (float_of_str s) <-> float_literal s.
Proof.
  unfold float_of_str, float_literal, to_ascii, ascii_image.
  pose proof (image_to_ascii (Unicode.chars s)) as H.
  destruct (image (Unicode.chars s)) as [a|].
  - rewrite H. split.
    + destruct (underscores_ok zero a) eqn:U; [|by intros [? [=]]].
      intros Hi. exists a. split; [reflexivity|].
      split; [by apply between_digits_ok | by apply float_from_string_inner_spec].
    + intros (a' & [= <-] & Hb & Hl). apply between_digits_ok in Hb. rewrite Hb.
      by apply float_from_string_inner_spec.
  - destruct H as [pre ->]. split; [|by intros (a & [=] & _)].
    destruct (underscores_ok zero (pre +:+ "?")); [|by intros [? [=]]].
    intros Hi%float_from_string_inner_spec%literal_no_mark.
    rewrite remove_app, all_chars_app, andb_true_iff in Hi. by destruct Hi as [_ Hi].
Qed.

(** *** Decimal strings *)

Lemma underscores_ok_none (s : string) :
  forall prev,
    Ascii.eqb prev "_" = false ->
    all_chars (fun c => negb (Ascii.eqb c "_")) s = true ->
    underscores_ok prev s = true /\ remove "_" s = s.
Proof.
  induction s as [|c s IH]; intros prev Hp; cbn [all_chars underscores_ok remove].
  - intros _. by rewrite Hp.
  - intros [Hc Hs]%andb_prop. apply negb_true_iff in Hc. rewrite Hc, Hp.
    destruct (IH c Hc Hs) as [-> ->]. by split.
Qed.

Lemma digits_or_point (b : string) :
  all_chars (fun c => is_digit c || Ascii.eqb c ".") b = true ->
  (count_char "." b <= 1)%nat ->
  (count_char "." b = 0%nat -> digits_only b)
  /\ (digits_only b
      \/ exists ip fp, b = ip +:+ String "." fp /\ digits_only ip /\ digits_only fp).
Proof.
  unfold digits_only. induction b as [|c b IH]; [by split; [|left]|].
  cbn [all_chars count_char]. intros [Hc Hb]%andb_prop Hn.
  destruct (Ascii.eqb_spec c ".") as [->|Hne].
  - destruct (IH Hb) as [IH0 _]; [simpl in Hn; lia|]. split; [simpl; lia|].
    right. exists "", b. split; [reflexivity|]. split; [reflexivity|].
    apply IH0. simpl in Hn. lia.
  - rewrite orb_false_r in Hc. rewrite Hc. cbn [andb].
    destruct (IH Hb) as [IH0 IH1]; [simpl in Hn; lia|]. split; [simpl; exact IH0|].
    destruct IH1 as [Hd|(ip & fp & -> & Hip & Hfp)]; [by left|].
    right. exists (String c ip), fp. cbn [all_chars]. by rewrite Hc, Hip.
Qed.

Lemma some_digit_nonempty (a b : string) :
  some_char is_digit (a +:+ String "." b) = true -> a +:+ b <> "".
Proof.
  intros H [-> ->]%append_empty_inv. discriminate H.
Qed.

Lemma decimal_number (b : string) :
  all_chars (fun c => is_digit c || Ascii.eqb c ".") b = true ->
  some_char is_digit b = true -> (count_char "." b <= 1)%nat ->
  number_text b.
Proof.
  intros Hall Hsome Hn.
  destruct (digits_or_point b Hall Hn) as [_ [Hd|(ip & fp & -> & Hip & Hfp)]].
  - left. split; [exact Hd|]. by intros ->.
  - right. exists ip, fp. split; [reflexivity|]. split; [exact Hip|]. split; [exact Hfp|].
    by apply some_digit_nonempty.
Qed.

Lemma number_chars (n : string) :
  number_text n ->
  all_chars (fun c => (code c <? 127)%nat) n = true
  /\ all_chars (fun c => negb (Ascii.eqb c "_")) n = true.
Proof.
  assert (forall d, digits_only d ->
            all_chars (fun c => (code c <? 127)%nat) d = true
            /\ all_chars (fun c => negb (Ascii.eqb c "_")) d = true) as Hd.
  { intros d H. split; revert H; apply all_chars_weaken; intros c Hc.
    - by apply digit_is_ascii.
    - by rewrite digit_not_underscore. }
  intros [[H _]|(ip & fp & -> & Hip & Hfp & _)]; [by apply Hd|].
  rewrite !all_chars_app. cbn [all_chars].
  destruct (Hd ip Hip) as [-> ->]. destruct (Hd fp Hfp) as [-> ->]. by split.
Qed.

Lemma decimal_is_literal (s : string) : decimal_string s = true -> float_literal s.
Proof.
  unfold decimal_string. intros [[Hall Hsome]%andb_prop Hn%Nat.leb_le]%andb_prop.
  assert (exists sgn body, s = sgn +:+ body /\ sign_text sgn /\ number_text body)
    as (sgn & body & -> & Hsgn & Hnum).
  { destruct s as [|c r]; [discriminate Hsome|].
    destruct (Ascii.eqb_spec c "+") as [->|H1].
    { exists "+", r. split; [reflexivity|]. split; [right; by left|].
      by apply decimal_number. }
    destruct (Ascii.eqb_spec c "-") as [->|H2].
    { exists "-", r. split; [reflexivity|]. split; [right; by right|].
      by apply decimal_number. }
    exists "", (String c r). split; [reflexivity|]. split; [by left|].
    by apply decimal_number. }
  destruct (number_chars body Hnum) as [Hascii Hund].
  assert (all_chars (fun c => (code c <? 127)%nat) (sgn +:+ body) = true) as Ha.
  { rewrite all_chars_app, Hascii. by destruct Hsgn as [->|[->| ->]]. }
  assert (all_chars (fun c => negb (Ascii.eqb c "_")) (sgn +:+ body) = true) as Hu.
  { rewrite all_chars_app, Hund. by destruct Hsgn as [->|[->| ->]]. }
  destruct (underscores_ok_none (sgn +:+ body) zero eq_refl Hu) as [Hok Hrm].
  assert (ascii_literal (sgn +:+ body)) as Hlit.
  { exists "", sgn, body, "". split; [by rewrite append_empty_r|].
    split; [reflexivity|]. split; [exact Hsgn|]. split; [|reflexivity].
    right. exists body, "". split; [by rewrite append_empty_r|]. split; [exact Hnum | by left]. }
  apply float_of_str_literal. unfold float_of_str.
  rewrite (to_ascii_below_127 _ Ha), Hok, Hrm. by apply float_from_string_inner_spec.
Qed.

(** *** Values *)

Lemma valid_decimal_literal (x : pyobj) :
  valid_decimal x = true <-> literal_value x.
Proof.
  destruct x as [s|f|n]; cbn [valid_decimal literal_value]; [|by split..].
  rewrite bool_decide_eq_true. apply float_of_str_literal.
Qed.

Lemma forallb_valid_literal (l : list pyobj) :
  forallb valid_decimal l = true <-> Forall literal_value l.
Proof.
  rewrite forallb_forall, Forall_forall. split; intros H x Hx.
  - apply valid_decimal_literal, H. by apply list_elem_of_In.
  - apply valid_decimal_literal, H. by apply list_elem_of_In.
Qed.

Lemma decimal_value_literal (x : pyobj) : decimal_value x = true -> literal_value x.
Proof.
  destruct x as [s|f|n]; cbn [decimal_value literal_value]; [|discriminate..].
  apply decimal_is_literal.
Qed.

Lemma not_literal (x : pyobj) : valid_decimal x = false -> ~ literal_value x.
Proof. intros H Hl%valid_decimal_literal. congruence. Qed.

(** C2: for a decimal string with grouping separators the conversion
    removes the separators, reads the digits as the number they write,
    divides it by 1000 and rounds to two decimals, each step in
    binary64; "26,854,599" gives the binary64 number nearest to 26854.6,
    which is within 0.005 of it, and "0" gives 0.0. *)
Theorem convert_divides_and_rounds :
  (forall s, grouped_decimal s = true ->
     convert [PStr s]
     = Ok [PFloat (np_round (div (of_Z (digits_value (remove "," s))) (of_Z 1000)) 2)])
  /\ (exists x, convert [PStr "26,854,599"] = Ok [PFloat x]
                /\ float_of_str "26854.6" = Some x
                /\ within (5 # 1000) x (268546 # 10))
  /\ convert [PStr "0"] = Ok [PFloat (S754_zero false)].
Proof.
  split; [|split].
  - intros s Hs. unfold convert, comprehension.
    rewrite (to_float_grouped s Hs). reflexivity.
  - eexists. split; [vm_compute; reflexivity|]. split; [vm_compute; reflexivity|].
    vm_compute. discriminate.
  - vm_compute. reflexivity.
Qed.

End ConvertProofs.

(** ** [transform] and the DataFrame object it is given *)

Module TransformProofs.
Import Etl Spec Examples Float64 ConvertProofs.

Lemma rectangular_column (frame : DataFrame) (name : string) (col : Series) :
  rectangular frame -> lookup_column name frame = Some col ->
  length (values col) = nrows frame.
Proof.
  unfold rectangular, lookup_column. intros Hr Hl.
  destruct (List.find _ frame) as [[k s]|] eqn:Hf; [|discriminate].
  injection Hl as <-. apply find_some in Hf as [Hin _].
  rewrite Forall_forall in Hr. apply (Hr (k, s)). by apply list_elem_of_In.
Qed.

Lemma transform_converts (l : nat) (h : gmap nat DataFrame) (frame : DataFrame)
    (col : Series) (c : list pyobj) :
  h !! l = Some frame -> rectangular frame ->
  lookup_column "GDP_USD_millions" frame = Some col ->
  convert (values col) = Ok c -> length c = length (values col) ->
  forallb is_float c = true ->
  transform l h
  = (Ok (fresh (dom (<[l := updated frame c]> h))),
     <[fresh (dom (<[l := updated frame c]> h)) := renamed (updated frame c)]>
       (<[l := updated frame c]> h)).
Proof.
  intros Hl Hr Hcol Hc Hlen Hfl.
  unfold transform, mbind, stateful_bind, deref, lift, modify, alloc.
  rewrite Hl. unfold getitem_column. rewrite Hcol.
  destruct (convert (values col)) as [c'|e']; [|discriminate]. injection Hc as ->.
  unfold setitem_column, infer_dtype.
  rewrite Hlen, (rectangular_column _ _ _ Hr Hcol), Nat.eqb_refl, Hfl.
  rewrite lookup_insert_eq. reflexivity.
Qed.

Lemma transform_raises (l : nat) (h : gmap nat DataFrame) (frame : DataFrame)
    (col : Series) (e : exn) :
  h !! l = Some frame ->
  lookup_column "GDP_USD_millions" frame = Some col ->
  convert (values col) = Raise e ->
  transform l h = (Raise e, h).
Proof.
  intros Hl Hcol Hc.
  unfold transform, mbind, stateful_bind, deref, lift.
  rewrite Hl. unfold getitem_column. rewrite Hcol.
  destruct (convert (values col)) as [c'|e']; [discriminate|].
  injection Hc as ->. reflexivity.
Qed.

Lemma fresh_location (l : nat) (h : gmap nat DataFrame) (frame : DataFrame) :
  h !! fresh (dom (<[l := frame]> h)) = None
  /\ fresh (dom (<[l := frame]> h)) <> l.
Proof.
  pose proof (is_fresh (dom (<[l := frame]> h))) as Hf.
  set (x := fresh (dom (<[l := frame]> h))) in *.
  rewrite dom_insert_L in Hf. split.
  - apply not_elem_of_dom. intros Hin. apply Hf, elem_of_union. by right.
  - intros Heq. apply Hf, elem_of_union. left. by apply elem_of_singleton.
Qed.

(** C6 as worded fails: "nan", "-Infinity", "1_000", "1e3" and a number
    in Arabic-Indic digits are no decimal strings, and [float] reads
    each of them: [transform] does not fail on a column of them, it
    returns a frame with the numbers they stand for. *)
Lemma float_reads_more_than_decimals :
  lookup_column "GDP_USD_millions" loose_frame
  = Some (mkSeries object
            [PStr "nan"; PStr "-Infinity"; PStr "1_000"; PStr "1e3"; PStr "١٢٣"])
  /\ map decimal_value
       [PStr "nan"; PStr "-Infinity"; PStr "1_000"; PStr "1e3"; PStr "١٢٣"]
     = [false; false; false; false; false]
  /\ fst (transform 0 {[0 := loose_frame]}) = Ok 1
  /\ (snd (transform 0 {[0 := loose_frame]}) !! 1
      ≫= lookup_column "GDP_USD_billions")
     = Some (mkSeries float64
               [PFloat S754_nan; PFloat (S754_infinity true);
                PFloat (S754_finite false 4503599627370496 (-52));
                PFloat (S754_finite false 4503599627370496 (-52));
                PFloat (S754_finite false 8646911284551352 (-56))]).
Proof. repeat split; vm_compute; reflexivity. Qed.

(** C6: over a raw column of strings, [transform] raises [ValueError]
    (the NumericParseError of the specification) exactly when some
    value, its separators removed, is not a literal of [float]; it then
    returns no frame and leaves the store of objects as it was.  When
    every value is such a literal it returns a frame, and a decimal
    string is one. *)
Theorem transform_numeric_parse_error (l : nat) (h : gmap nat DataFrame)
    (frame : DataFrame) (col : Series) :
  h !! l = Some frame -> rectangular frame ->
  lookup_column "GDP_USD_millions" frame = Some col ->
  Forall (fun x => is_str x = true) (values col) ->
  (Forall (fun x => decimal_value x = true) (values col) ->
   exists l' h', transform l h = (Ok l', h'))
  /\ (Forall literal_value (values col) ->
      exists l' h', transform l h = (Ok l', h'))
  /\ (Exists (fun x => ~ literal_value x) (values col) ->
      exists e, transform l h = (Raise e, h) /\ exn_cls e = ValueError).
Proof.
  intros Hl Hr Hcol Hstr.
  assert (Forall literal_value (values col) ->
          exists l' h', transform l h = (Ok l', h')) as Hok.
  { intros Hv%forallb_valid_literal.
    destruct (convert_valid _ Hv) as (c & Hc & Hlen & Hfl).
    rewrite (transform_converts l h frame col c Hl Hr Hcol Hc Hlen Hfl). eauto. }
  split; [|split; [exact Hok|]].
  - intros Hd. apply Hok. eapply Forall_impl; [exact Hd|]. apply decimal_value_literal.
  - intros Hex. destruct (forallb valid_decimal (values col)) eqn:Hv.
    + apply forallb_valid_literal in Hv. apply Exists_exists in Hex as (x & Hx & Hn).
      rewrite Forall_forall in Hv. destruct (Hn (Hv x Hx)).
    + destruct (convert_invalid _ Hstr Hv) as (e & Hc & He).
      rewrite (transform_raises l h frame col e Hl Hcol Hc). eauto.
Qed.

Lemma rectangular_bad_frame : rectangular bad_frame.
Proof. repeat constructor. Qed.

Lemma transform_numeric_parse_error_witness :
  exists e, transform 0 {[0 := bad_frame]} = (Raise e, {[0 := bad_frame]})
            /\ exn_cls e = ValueError.
Proof.
  refine (proj2 (proj2 (transform_numeric_parse_error 0 {[0 := bad_frame]} bad_frame
           (mkSeries object [PStr "26,854,599"; PStr "—"])
           eq_refl rectangular_bad_frame eq_refl _)) _).
  - repeat constructor.
  - apply Exists_cons_tl, Exists_cons_hd, not_literal. vm_compute. reflexivity.
Defined.

(** C5 as worded fails: after [transform] the object that was passed in
    holds the converted numbers in its "GDP_USD_millions" column, no
    longer the strings. *)
Lemma transform_changes_its_argument :
  ({[0 := raw_frame]} : gmap nat DataFrame) !! 0 = Some raw_frame
  /\ fst (transform 0 {[0 := raw_frame]}) = Ok 1
  /\ snd (transform 0 {[0 := raw_frame]}) !! 0
     = Some [("Country", mkSeries object [PStr "United States"; PStr "Tuvalu"]);
             ("GDP_USD_millions",
              mkSeries float64
                [PFloat (S754_finite false 7381736239818342 (-38));
                 PFloat (S754_finite false 8646911284551352 (-57))])].
Proof. repeat split; vm_compute; reflexivity. Qed.

(** C5, as the code has it: [transform] returns a new DataFrame object,
    the renamed frame, and before that it replaces, in the object it was
    given, the "GDP_USD_millions" column by the converted numbers, under
    the same name; no other object changes.  When [transform] raises,
    no object changes.  The loads change no DataFrame object, and
    [extract] puts its frame in a new object. *)
Theorem transform_updates_in_place :
  (forall (l : nat) (h : gmap nat DataFrame) (frame : DataFrame) (col : Series),
     h !! l = Some frame -> rectangular frame ->
     lookup_column "GDP_USD_millions" frame = Some col ->
     forallb valid_decimal (values col) = true ->
     exists c l' h',
       convert (values col) = Ok c
       /\ transform l h = (Ok l', h')
       /\ h !! l' = None /\ l' <> l
       /\ h' !! l = Some (updated frame c)
       /\ h' !! l' = Some (renamed (updated frame c))
       /\ (forall k, k <> l -> k <> l' -> h' !! k = h !! k))
  /\ (forall (l : nat) (h h' : gmap nat DataFrame) (e : exn),
        transform l h = (Raise e, h') -> h' = h)
  /\ (forall (w : env) (st : state),
        heap (snd (try_load_to_csv w st)) = heap st
        /\ heap (snd (try_load_to_db w st)) = heap st)
  /\ (forall (w : env) (st : state) (k : nat),
        is_Some (heap st !! k) ->
        heap (snd (try_extract w st)) !! k = heap st !! k).
Proof.
  split; [|split; [|split]].
  - intros l h frame col Hl Hr Hcol Hv.
    destruct (convert_valid _ Hv) as (c & Hc & Hlen & Hfl).
    destruct (fresh_location l h (updated frame c)) as [Hnone Hne].
    exists c. eexists. eexists. split; [exact Hc|]. split.
    { apply (transform_converts l h frame col c Hl Hr Hcol Hc Hlen Hfl). }
    split; [exact Hnone|]. split; [exact Hne|]. split; [|split].
    + rewrite lookup_insert_ne by exact Hne. apply lookup_insert_eq.
    + apply lookup_insert_eq.
    + intros k Hk Hk'. rewrite !lookup_insert_ne by congruence. reflexivity.
  - intros l h h' e.
    unfold transform, mbind, stateful_bind, deref, lift, modify, alloc.
    destruct (h !! l) as [frame|]; [|by intros [= _ <-]].
    destruct (getitem_column _ frame) as [col|e1]; [|by intros [= _ <-]].
    destruct (convert (values col)) as [c|e1]; [|by intros [= _ <-]].
    destruct (setitem_column _ c frame) as [frame'|e1]; [|by intros [= _ <-]].
    rewrite lookup_insert_eq. discriminate.
  - intros w st. split.
    + unfold try_load_to_csv, try_load_to_csv_io, mbind, stateful_bind, name_df, on_heap, deref,
        load_to_csv, lift, log_progress, modify.
      destruct (df st) as [l|]; [|reflexivity]. simpl.
      destruct (heap st !! l) as [frame|]; [|reflexivity]. simpl.
      destruct (csv_error w); reflexivity.
    + unfold try_load_to_db, try_load_to_db_io, mbind, stateful_bind, name_df, on_heap, on_mysql,
        deref, log_progress, modify.
      destruct (df st) as [l|]; [|reflexivity]. simpl.
      destruct (heap st !! l) as [frame|]; [|reflexivity]. simpl.
      destruct (load_to_db w frame (mysql st)) as [[[]|e] srv]; reflexivity.
  - intros w st k Hk.
    unfold try_extract, try_extract_io, mbind, stateful_bind, lift, on_heap, alloc, assign_df,
      log_progress, modify.
    destruct (extract w URL TABLE_ATTRIBS) as [frame|e]; [|reflexivity]. simpl.
    apply lookup_insert_ne. intros <-.
    pose proof (is_fresh (dom (heap st))) as Hf.
    apply Hf. by apply elem_of_dom.
Qed.

End TransformProofs.

(** ** The stages and their [try] blocks *)

Module PipelineProofs.
Import Etl Spec Examples.

Lemma log_progress_logged (message : string) (st : state) :
  log_progress None message st = (Ok tt, logged message st).
Proof. reflexivity. Qed.

Lemma try_except_caught (body : stateful state unit) (prefix : string) (st : state) :
  try_except body (fun e => log_progress None (prefix +:+ exn_msg e)) st
  = caught_and_logged body prefix st.
Proof.
  unfold try_except, caught_and_logged.
  destruct (body st) as [[[]|e] st']; reflexivity.
Qed.

Lemma try_extract_logs (w : env) :
  logs_on_success (try_extract w) "Data extracted successfuly".
Proof.
  intros st.
  unfold try_extract, try_extract_io, mbind, stateful_bind, lift, on_heap, alloc, assign_df,
    log_progress, modify.
  destruct (extract w URL TABLE_ATTRIBS) as [frame|e]; reflexivity.
Qed.

Lemma try_transform_logs : logs_on_success try_transform "Data transformed successfuly".
Proof.
  intros st.
  unfold try_transform, try_transform_io, mbind, stateful_bind, name_df, on_heap, assign_df,
    log_progress, modify.
  destruct (df st) as [l|]; simpl; [|reflexivity].
  destruct (transform l (heap st)) as [[l'|e] h']; reflexivity.
Qed.

Lemma try_load_to_csv_logs (w : env) :
  logs_on_success (try_load_to_csv w) "Data loaded to CSV successfuly".
Proof.
  intros st.
  unfold try_load_to_csv, try_load_to_csv_io, mbind, stateful_bind, name_df, on_heap, deref,
    load_to_csv, lift, log_progress, modify.
  destruct (df st) as [l|]; simpl; [|reflexivity].
  destruct (heap st !! l) as [frame|]; simpl; [|reflexivity].
  destruct (csv_error w); reflexivity.
Qed.

Lemma try_connect_logs (w : env) :
  logs_on_success (try_connect w) "Database successfuly connected".
Proof.
  intros st.
  unfold try_connect, try_connect_io, mbind, stateful_bind, get, lift, log_progress, modify.
  simpl. destruct (connect_database w (mysql st)); reflexivity.
Qed.

Lemma try_load_to_db_logs (w : env) :
  logs_on_success (try_load_to_db w) "Data loaded to DB successfuly".
Proof.
  intros st.
  unfold try_load_to_db, try_load_to_db_io, mbind, stateful_bind, name_df, on_heap, on_mysql,
    deref, log_progress, modify.
  destruct (df st) as [l|]; simpl; [|reflexivity].
  destruct (heap st !! l) as [frame|]; simpl; [|reflexivity].
  destruct (load_to_db w frame (mysql st)) as [[[]|e] srv]; reflexivity.
Qed.

Lemma caught_logs_one_line (body : stateful state unit) (success prefix : string)
    (st : state) :
  logs_on_success body success ->
  exists st' line,
    caught_and_logged body prefix st = (Ok tt, st')
    /\ log_file st' = log_file st ++ [line]
    /\ stage_line success prefix line.
Proof.
  intros H. specialize (H st). unfold caught_and_logged.
  destruct (body st) as [[[]|e] st'].
  - exists st', success. split; [reflexivity|]. split; [exact H|]. by left.
  - eexists _, _. split; [reflexivity|]. split.
    + simpl. rewrite H. reflexivity.
    + right. by exists e.
Qed.

Lemma stages_with_a_log (w : env) (st : state) :
  (forall s, cell_extract w s
             = caught_and_logged (try_extract w) "Error while extracting data: " s)
  /\ (forall s, cell_transform s
                = caught_and_logged try_transform "Error while transforming data: " s)
  /\ (forall s, cell_load_to_csv w s
                = caught_and_logged (try_load_to_csv w)
                    "Error while loading data to CSV: " s)
  /\ (forall s, cell_load_to_db w s
                = caught_and_logged (try_load_to_db w)
                    "Error while loading data to DB: " s)
  /\ exists s1 s2 s3 s4 s5 m1 m2 m3 m4 m5,
       cell_extract w st = (Ok tt, s1)
       /\ cell_transform s1 = (Ok tt, s2)
       /\ cell_load_to_csv w s2 = (Ok tt, s3)
       /\ cell_connect w s3 = (Ok tt, s4)
       /\ cell_load_to_db w s4 = (Ok tt, s5)
       /\ pipeline w st = (Ok tt, s5)
       /\ log_file s5 = log_file st ++ [m1; m2; m3; m4; m5]
       /\ stage_line "Data extracted successfuly" "Error while extracting data: " m1
       /\ stage_line "Data transformed successfuly" "Error while transforming data: " m2
       /\ stage_line "Data loaded to CSV successfuly"
            "Error while loading data to CSV: " m3
       /\ stage_line "Database successfuly connected" "Error while connecting to DB: " m4
       /\ stage_line "Data loaded to DB successfuly" "Error while loading data to DB: " m5.
Proof.
  repeat split; try (intros s; apply try_except_caught).
  destruct (caught_logs_one_line _ _ "Error while extracting data: " st
              (try_extract_logs w)) as (s1 & m1 & H1 & L1 & M1).
  destruct (caught_logs_one_line _ _ "Error while transforming data: " s1
              try_transform_logs) as (s2 & m2 & H2 & L2 & M2).
  destruct (caught_logs_one_line _ _ "Error while loading data to CSV: " s2
              (try_load_to_csv_logs w)) as (s3 & m3 & H3 & L3 & M3).
  destruct (caught_logs_one_line _ _ "Error while connecting to DB: " s3
              (try_connect_logs w)) as (s4 & m4 & H4 & L4 & M4).
  destruct (caught_logs_one_line _ _ "Error while loading data to DB: " s4
              (try_load_to_db_logs w)) as (s5 & m5 & H5 & L5 & M5).
  rewrite <- try_except_caught in H1, H2, H3, H4, H5.
  exists s1, s2, s3, s4, s5, m1, m2, m3, m4, m5.
  repeat split; try assumption.
  - unfold pipeline, pipeline_io, mbind, stateful_bind.
    change (cell_extract_io None w st) with
      (try_except (try_extract w)
         (fun e => log_progress None ("Error while extracting data: " +:+ exn_msg e)) st).
    rewrite H1.
    change (cell_transform_io None s1) with
      (try_except try_transform
         (fun e => log_progress None ("Error while transforming data: " +:+ exn_msg e)) s1).
    rewrite H2.
    change (cell_load_to_csv_io None w s2) with
      (try_except (try_load_to_csv w)
         (fun e => log_progress None ("Error while loading data to CSV: " +:+ exn_msg e))
         s2).
    rewrite H3.
    change (cell_connect_io None w s3) with
      (try_except (try_connect w)
         (fun e => log_progress None ("Error while connecting to DB: " +:+ exn_msg e)) s3).
    rewrite H4. exact H5.
  - rewrite L5, L4, L3, L2, L1. rewrite <- !app_assoc. reflexivity.
Qed.




(** C10: when [run_query] raises and the name [quey_statement] was never
    assigned, the handler writes its line, the [finally] block raises
    [NameError] on reading the name, the "Query made" line is not
    written, and that [NameError] leaves the cell. *)
Theorem query_failure_escapes (w : env) (st : state) (e : exn) (srv : server) :
  quey_statement st = None ->
  run_query w "SELECT * FROM Countries_by_GDP" (mysql st) = (Raise e, srv) ->
  cell_query w st
  = (Raise (Exn NameError "name 'quey_statement' is not defined"),
     mkState (heap st) (df st) None
             (log_file st ++ ["Error while querying data: " +:+ exn_msg e])
             (csv_file st) srv).
Proof.
  intros Hq Hr.
  unfold cell_query, cell_query_io, try_except_finally, try_except, try_query, mbind,
    stateful_bind, on_mysql, name_quey_statement.
  rewrite Hr. simpl. rewrite Hq. reflexivity.
Qed.

Lemma query_failure_escapes_witness :
  cell_query (online (page [row_A])) fresh_kernel
  = (Raise (Exn NameError "name 'quey_statement' is not defined"),
     mkState ∅ None None
             ["Error while querying data: Unknown database 'World_Economies'"]
             None ∅).
Proof.
  exact (query_failure_escapes (online (page [row_A])) fresh_kernel
           (Exn DatabaseError "Unknown database 'World_Economies'") ∅
           eq_refl eq_refl).
Defined.

(** A run in which nothing outside answers: every stage fails, each in
    its own words, and the run goes on to the end. *)
Example offline_run :
  pipeline offline fresh_kernel
  = (Ok tt,
     mkState ∅ None None
       ["Error while extracting data: Max retries exceeded";
        "Error while transforming data: name 'df' is not defined";
        "Error while loading data to CSV: name 'df' is not defined";
        "Error while connecting to DB: Can't connect to MySQL server";
        "Error while loading data to DB: name 'df' is not defined"]
       None ∅).
Proof. vm_compute. reflexivity. Qed.

(** The scenario of the specification: three rows, one of them with the
    dash; the frame the pipeline ends with has the two others, divided by
    1000 and rounded, in the order of the document. *)
Example end_to_end :
  let st := snd (pipeline (online (page
                   [row_A; row_C;
                    tr [td [link "F"]; td [text "x"]; td [text "26,854,599"]]]))
                   fresh_kernel) in
  (df st ≫= fun l => heap st !! l)
  = Some [("Country", mkSeries object [PStr "A"; PStr "F"]);
          ("GDP_USD_billions",
           mkSeries float64 [PFloat (S754_finite false 4503599627370496 (-52));
                             PFloat (S754_finite false 7381736239818342 (-38))])]
  /\ log_file st
     = ["Data extracted successfuly"; "Data transformed successfuly";
        "Data loaded to CSV successfuly"; "Database successfuly connected";
        "Data loaded to DB successfuly"]
  /\ length (table_rows_of (mysql st)) = 2.
Proof. vm_compute. repeat split; reflexivity. Qed.

(** With the query failing, the run of the whole notebook ends on the
    [NameError] of the last cell. *)
Example run_with_failing_query :
  fst ((pipeline (query_fails (page [row_A]));; cell_query (query_fails (page [row_A])))
         fresh_kernel)
  = Raise (Exn NameError "name 'quey_statement' is not defined").
Proof. vm_compute. reflexivity. Qed.

End PipelineProofs.

(** ** The SchemaDeriver and the table sink: [load_to_db] *)

Module LoadProofs.
Import Etl Spec Examples PyProofs.

Lemma lookup_column_nodup (frame : DataFrame) (k : string) (s : Series) :
  NoDup (columns frame) -> In (k, s) frame -> lookup_column k frame = Some s.
Proof.
  unfold lookup_column, columns.
  induction frame as [|[k0 s0] frame IH]; simpl; [tauto|].
  intros Hnd [Heq|Hin].
  - injection Heq as -> ->. rewrite String.eqb_refl. reflexivity.
  - apply NoDup_cons in Hnd as [Hk0 Hnd].
    destruct (String.eqb k0 k) eqn:E.
    + apply String.eqb_eq in E as ->. exfalso. apply Hk0.
      apply list_elem_of_In. apply (in_map fst _ (k, s)), Hin.
    + apply IH; assumption.
Qed.

Lemma column_type_lookup (frame : DataFrame) (k : string) (s : Series) :
  lookup_column k frame = Some s -> column_type frame k = Ok (schema_type s).
Proof.
  intros H. unfold column_type, getitem_column, schema_type. rewrite H. simpl.
  destruct (dtype_of s); reflexivity.
Qed.

Lemma column_defs_from (frame l : DataFrame) :
  (forall k s, In (k, s) l -> lookup_column k frame = Some s) ->
  comprehension (fun col => ty ← column_type frame col; Ok (col, ty)) (columns l)
  = Ok (schema l).
Proof.
  induction l as [|[k s] l IH]; intros H; [reflexivity|].
  change (columns ((k, s) :: l)) with (k :: columns l).
  cbn [comprehension].
  rewrite (column_type_lookup frame k s (H k s (or_introl eq_refl))).
  rewrite IH by (intros; apply H; by right).
  reflexivity.
Qed.

(** The schema is read off the labels and the dtypes of the columns. *)
Lemma column_defs_schema (frame : DataFrame) :
  NoDup (columns frame) -> column_defs frame = Ok (schema frame).
Proof.
  intros H. unfold column_defs. apply column_defs_from.
  intros k s. apply lookup_column_nodup, H.
Qed.

Lemma schema_of_dtypes (f1 f2 : DataFrame) :
  map (fun c => (fst c, dtype_of (snd c))) f1
  = map (fun c => (fst c, dtype_of (snd c))) f2 ->
  schema f1 = schema f2.
Proof.
  revert f2. induction f1 as [|[k1 s1] f1 IH]; intros [|[k2 s2] f2]; simpl;
    try discriminate; [reflexivity|].
  intros [= -> Hd Hrest]. unfold schema_type. rewrite Hd, (IH f2 Hrest). reflexivity.
Qed.

Lemma insert_row_inv (t t' : table) (cols : list string) (vals : list sqlval) :
  insert_row t cols vals = Ok t' ->
  exists row, t_columns t' = t_columns t /\ t_rows t' = t_rows t ++ [row].
Proof.
  unfold insert_row. destruct (new_row t cols vals) as [row|e]; simpl; [|discriminate].
  intros [= <-]. eauto.
Qed.

Lemma execute_insert_inv (c c' : connection) (t : table) (cols : list string)
    (k : nat) (params : list pyobj) :
  current c = Some DB_NAME -> table_of (working c) = Some t ->
  execute (InsertInto TABLE_NAME cols k) params c = (Ok tt, c') ->
  exists vals t',
    comprehension to_mysql params = Ok vals
    /\ insert_row t cols vals = Ok t'
    /\ table_of (working c') = Some t'
    /\ current c' = Some DB_NAME
    /\ committed c' = committed c
    /\ sent c' = sent c ++ [(sql_text (InsertInto TABLE_NAME cols k), params)].
Proof.
  intros Hcur Ht.
  unfold execute, mbind, stateful_bind, record_sent, modify, Stateful.get, db_error, lift.
  cbn [current working committed sent].
  destruct (comprehension to_mysql params) as [vals|e]; [|discriminate].
  destruct (negb (length params =? k)%nat); [discriminate|].
  rewrite Hcur.
  unfold table_of, mbind in Ht. rewrite Ht.
  destruct (head _); [discriminate|].
  destruct (repeated [] cols); [discriminate|].
  destruct (insert_row t cols vals) as [t'|e] eqn:Hrow; [|discriminate].
  intros [= <-]. exists vals, t'. cbn [current working committed sent].
  repeat split; try reflexivity; [exact Hrow|].
  unfold table_of, mbind. rewrite lookup_alter_eq.
  destruct (working c !! DB_NAME) as [tables|]; [|discriminate].
  simpl. apply lookup_insert_eq.
Qed.

Lemma insert_loop (cols : list string) (records : list (list (string * pyobj))) :
  forall (c c' : connection) (t : table),
    current c = Some DB_NAME -> table_of (working c) = Some t ->
    for_ records (insert_record cols) c = (Ok tt, c') ->
    exists t' news params_list,
      table_of (working c') = Some t'
      /\ t_columns t' = t_columns t
      /\ t_rows t' = t_rows t ++ news
      /\ length news = length records
      /\ current c' = Some DB_NAME
      /\ committed c' = committed c
      /\ Forall2 (fun record params =>
                    comprehension (fun col => record_get col record) cols = Ok params)
                 records params_list
      /\ sent c' = sent c ++ map (fun params => (sql_text (DML cols), params)) params_list.
Proof.
  induction records as [|r records IH]; intros c c' t Hcur Ht.
  - intros [= <-]. exists t, [], []. rewrite !app_nil_r. repeat split; auto.
  - cbn [for_]. intros H.
    apply bind_ok_inv in H as ([] & c1 & Hr & Hrest).
    unfold insert_record in Hr.
    apply bind_ok_inv in Hr as (params & c0 & Hp & Hex).
    apply lift_ok_inv in Hp as [Hp ->].
    destruct (execute_insert_inv _ _ _ _ _ _ Hcur Ht Hex)
      as (vals & t1 & Hvals & Hrow & Ht1 & Hcur1 & Hcom1 & Hsent1).
    destruct (insert_row_inv _ _ _ _ Hrow) as (row & Hcols1 & Hrows1).
    destruct (IH c1 c' _ Hcur1 Ht1 Hrest)
      as (t' & news & pl & Ht' & Hcols & Hrows & Hlen & Hcur' & Hcom' & Hf2 & Hsent').
    exists t', (row :: news), (params :: pl).
    split; [exact Ht'|]. split; [rewrite Hcols; exact Hcols1|].
    split; [rewrite Hrows, Hrows1, <- app_assoc; reflexivity|].
    split; [simpl; lia|]. split; [exact Hcur'|]. split; [congruence|].
    split; [constructor; assumption|].
    rewrite Hsent', Hsent1. simpl. rewrite <- app_assoc. reflexivity.
Qed.

Lemma execute_create_schema (n : string) (c : connection) :
  execute (CreateSchemaIfNotExists n) [] c
  = (Ok tt,
     let s := match working c !! n with
              | Some _ => working c
              | None => <[n := ∅]> (working c)
              end in
     mkConnection s s (current c)
       (sent c ++ [(sql_text (CreateSchemaIfNotExists n), [])])).
Proof. reflexivity. Qed.

Lemma execute_use (b : bool) (n : string) (c : connection) (tables : gmap string table) :
  working c !! n = Some tables ->
  execute (Use b n) [] c
  = (Ok tt, mkConnection (committed c) (working c) (Some n)
              (sent c ++ [(sql_text (Use b n), [])])).
Proof.
  intros H. unfold execute, mbind, stateful_bind, record_sent, modify, Stateful.get.
  cbn [working]. rewrite H. reflexivity.
Qed.

Lemma execute_create_table_inv (defs : list (string * sqltype)) (c c' : connection)
    (tables : gmap string table) :
  current c = Some DB_NAME -> working c !! DB_NAME = Some tables ->
  execute (CreateTableIfNotExists TABLE_NAME defs) [] c = (Ok tt, c') ->
  current c' = Some DB_NAME
  /\ committed c' = working c'
  /\ sent c' = sent c ++ [(sql_text (CreateTableIfNotExists TABLE_NAME defs), [])]
  /\ table_of (working c')
     = Some (default (mkTable (id_column :: defs) [] 1) (tables !! TABLE_NAME)).
Proof.
  intros Hcur Hw.
  unfold execute, mbind, stateful_bind, record_sent, modify, Stateful.get, db_error,
    lift, ddl.
  cbn [current working committed sent].
  destruct defs as [|d defs]; [discriminate|].
  rewrite Hcur, Hw.
  destruct (tables !! TABLE_NAME) as [t|] eqn:Ht.
  - intros [= <-]. cbn. repeat split; try reflexivity.
    unfold table_of, mbind. rewrite Hw. exact Ht.
  - destruct (repeated _ _); [discriminate|].
    intros [= <-]. cbn [current working committed sent default]. repeat split.
    unfold table_of, mbind. rewrite lookup_insert_eq. cbn. apply lookup_insert_eq.
Qed.

Lemma to_records_length (frame : DataFrame) : length (to_records frame) = nrows frame.
Proof. unfold to_records. rewrite length_map, length_seq. reflexivity. Qed.

Lemma load_on_connection_inv (frame : DataFrame) (srv : server) (c' : connection) :
  load_on_connection frame (mkConnection srv srv None []) = (Ok tt, c') ->
  exists defs t' news params_list,
    column_defs frame = Ok defs
    /\ table_of (committed c') = Some t'
    /\ t_columns t'
       = t_columns (default (mkTable (id_column :: defs) [] 1) (table_of srv))
    /\ t_rows t'
       = t_rows (default (mkTable (id_column :: defs) [] 1) (table_of srv)) ++ news
    /\ length news = nrows frame
    /\ Forall2 (fun record params =>
                  comprehension (fun col => record_get col record) (columns frame)
                  = Ok params)
               (to_records frame) params_list
    /\ sent c' = load_statements defs
                 ++ map (fun params => (sql_text (DML (columns frame)), params))
                      params_list.
Proof.
  unfold load_on_connection. intros H.
  apply bind_ok_inv in H as (records & c0 & H0 & H).
  apply lift_ok_inv in H0 as [Hrec ->].
  assert (records = to_records frame) as ->.
  { unfold DataFrame_to_records in Hrec. destruct frame; [discriminate|].
    by injection Hrec as <-. }
  apply bind_ok_inv in H as ([] & c1 & H1 & H).
  rewrite execute_create_schema in H1. injection H1 as <-.
  apply bind_ok_inv in H as ([] & c2 & H2 & H).
  set (s1 := match srv !! DB_NAME with
             | Some _ => srv
             | None => <[DB_NAME := ∅]> srv
             end) in *.
  assert (exists tables, s1 !! DB_NAME = Some tables
                         /\ tables !! TABLE_NAME = table_of srv) as (tables & Hs1 & Htab).
  { unfold s1, table_of, mbind. destruct (srv !! DB_NAME) as [tb|] eqn:E.
    - exists tb. rewrite E. auto.
    - exists ∅. rewrite lookup_insert_eq. split; [reflexivity|]. apply lookup_empty. }
  cbn zeta in H2.
  erewrite execute_use in H2 by exact Hs1.
  injection H2 as <-.
  apply bind_ok_inv in H as (defs & c3 & H3 & H).
  apply lift_ok_inv in H3 as [Hdefs ->].
  apply bind_ok_inv in H as ([] & c4 & H4 & H).
  eapply execute_create_table_inv in H4; [|reflexivity|exact Hs1].
  destruct H4 as (Hcur4 & Hcom4 & Hsent4 & Ht4).
  apply bind_ok_inv in H as ([] & c5 & H5 & H).
  destruct (insert_loop (columns frame) (to_records frame) c4 c5 _ Hcur4 Ht4 H5)
    as (t' & news & pl & Ht' & Hcols & Hrows & Hlen & Hcur' & Hcom' & Hf2 & Hsent').
  unfold commit, modify in H. injection H as <-. cbn [committed sent].
  exists defs, t', news, pl. rewrite Htab in *.
  split; [exact Hdefs|]. split; [exact Ht'|]. split; [exact Hcols|].
  split; [exact Hrows|]. split; [rewrite Hlen; apply to_records_length|].
  split; [exact Hf2|].
  rewrite Hsent', Hsent4. reflexivity.
Qed.

Lemma load_to_db_inv (w : env) (frame : DataFrame) (srv srv' : server) :
  load_to_db w frame srv = (Ok tt, srv') ->
  exists c', load_on_connection frame (mkConnection srv srv None []) = (Ok tt, c')
             /\ committed c' = srv'.
Proof.
  unfold load_to_db, connect_database.
  destruct (connect_error w); [discriminate|].
  destruct (load_on_connection frame _) as [r c'] eqn:E.
  intros [= -> <-]. eauto.
Qed.

Lemma table_rows_of_default (srv : server) (t0 : table) :
  t_rows t0 = [] -> t_rows (default t0 (table_of srv)) = table_rows_of srv.
Proof.
  intros H. unfold table_rows_of, rows_of. fold (table_of srv).
  destruct (table_of srv); [reflexivity | exact H].
Qed.

Lemma load_to_db_appends (w : env) (frame : DataFrame) (srv srv' : server) :
  load_to_db w frame srv = (Ok tt, srv') ->
  exists news, table_rows_of srv' = table_rows_of srv ++ news
               /\ length news = nrows frame.
Proof.
  intros H. apply load_to_db_inv in H as (c' & H & <-).
  apply load_on_connection_inv in H
    as (defs & t' & news & pl & _ & Ht' & _ & Hrows & Hlen & _).
  exists news. split; [|exact Hlen].
  rewrite table_rows_of_default in Hrows by reflexivity.
  unfold table_rows_of at 1, rows_of. fold (table_of (committed c')).
  rewrite Ht'. exact Hrows.
Qed.

Lemma columns_of_dtypes (frame : DataFrame) :
  columns frame = map fst (map (fun c => (fst c, dtype_of (snd c))) frame).
Proof. unfold columns. rewrite map_map. reflexivity. Qed.

Lemma schema_labels (frame : DataFrame) : map fst (schema frame) = columns frame.
Proof. unfold schema, columns. rewrite map_map. reflexivity. Qed.

(** C7: the schema [load_to_db] derives gives VARCHAR(255), the TEXT of
    the specification, to a column of dtype object and FLOAT, its NUMBER,
    to a column of dtype float64, in the order of the columns of the
    frame; it depends on the labels and the dtypes only, so that deriving
    it again gives the same; and the table a successful load creates has
    the identity column and then the columns of the schema. *)
Theorem schema_and_created_table (w : env) (frame : DataFrame) (srv srv' : server) :
  NoDup (columns frame) ->
  table_of srv = None ->
  load_to_db w frame srv = (Ok tt, srv') ->
  column_defs frame = Ok (schema frame)
  /\ map fst (schema frame) = columns frame
  /\ Forall2 (fun c d => snd d = match dtype_of (snd c) with
                                  | object => VARCHAR_255
                                  | float64 => FLOAT
                                  end) frame (schema frame)
  /\ (forall frame', map (fun c => (fst c, dtype_of (snd c))) frame'
                     = map (fun c => (fst c, dtype_of (snd c))) frame ->
                     column_defs frame' = column_defs frame)
  /\ exists t, table_of srv' = Some t
               /\ t_columns t = id_column :: schema frame
               /\ id_column = ("id", INT_AUTO_INCREMENT_PRIMARY_KEY).
Proof.
  intros Hnd Hnone Hload.
  split; [exact (column_defs_schema frame Hnd)|].
  split; [apply schema_labels|]. split.
  { clear. induction frame as [|c frame IH]; constructor; auto. }
  split.
  { intros frame' Hsame.
    assert (NoDup (columns frame')) as Hnd'.
    { rewrite columns_of_dtypes, Hsame, <- columns_of_dtypes. exact Hnd. }
    rewrite (column_defs_schema frame Hnd), (column_defs_schema frame' Hnd').
    f_equal. apply schema_of_dtypes, Hsame. }
  apply load_to_db_inv in Hload as (c' & H & <-).
  apply load_on_connection_inv in H
    as (defs & t' & news & pl & Hdefs & Ht' & Hcols & _).
  rewrite (column_defs_schema frame Hnd) in Hdefs. injection Hdefs as <-.
  rewrite Hnone in Hcols. exists t'. auto.
Qed.

Lemma schema_and_created_table_witness :
  column_defs billions_frame
  = Ok [("Country", VARCHAR_255); ("GDP_USD_billions", FLOAT)]
  /\ exists t,
       table_of (snd (load_to_db (online (page [row_A])) billions_frame ∅)) = Some t
       /\ t_columns t = [("id", INT_AUTO_INCREMENT_PRIMARY_KEY);
                         ("Country", VARCHAR_255); ("GDP_USD_billions", FLOAT)].
Proof.
  destruct (schema_and_created_table (online (page [row_A])) billions_frame ∅
              (snd (load_to_db (online (page [row_A])) billions_frame ∅))
              ltac:(apply (bool_decide_unpack _); vm_compute; exact I)
              eq_refl
              ltac:(vm_compute; reflexivity))
    as (Hdefs & _ & _ & _ & t & Ht & Hcols & _).
  split; [exact Hdefs|]. exists t. split; [exact Ht | exact Hcols].
Defined.



End LoadProofs.

(** ** More of [extract]: nested rows, rows out of range, the shape of the frame *)

Module ExtractBehaviour.
Import Etl Spec Examples Behaviour Float64 PyProofs ExtractProofs ConvertProofs
  TransformProofs PipelineProofs LoadProofs.

Lemma descendants_trans (t : node) :
  forall x y, In x (descendants t) -> In y (descendants x) -> In y (descendants t).
Proof.
  induction t as [s|name attrs cs IH] using node_induction; intros x y Hx Hy.
  - destruct Hx.
  - simpl in *. apply in_flat_map in Hx as (c & Hc & Hxc).
    apply in_flat_map. exists c. split; [exact Hc|]. right.
    destruct Hxc as [<-|Hxc]; [exact Hy|].
    rewrite Forall_forall in IH. apply (IH c (proj2 (list_elem_of_In _ _) Hc) x y Hxc Hy).
Qed.

Lemma find_all_nested (name name' : string) (t x y : node) :
  In x (find_all name t) -> In y (find_all name' x) -> In y (find_all name' t).
Proof.
  intros Hx Hy. apply find_all_spec in Hx as [Hx _]. apply find_all_spec in Hy as [Hy Htag].
  apply find_all_spec. split; [|exact Htag]. exact (descendants_trans t x y Hx Hy).
Qed.

(** X1: [find_all] searches below every level, so a row that lies inside
    another row of the table (a table in a cell) is a row of the loop as
    well, and its cells are among the cells of the row around it. *)
Theorem nested_rows_are_visited (soup row row' : node) (rows : list node) :
  table_rows soup = Ok rows ->
  In row rows -> In row' (find_all "tr" row) ->
  In row' rows
  /\ forall c, In c (find_all "td" row') -> In c (find_all "td" row).
Proof.
  unfold table_rows. intros H Hrow Hrow'.
  destruct (getitem (find_all "tbody" soup) 2) as [t|e]; [|discriminate].
  simpl in H. injection H as <-. split.
  - exact (find_all_nested _ _ _ _ _ Hrow Hrow').
  - intros c. exact (find_all_nested _ _ _ _ _ Hrow').
Qed.

Lemma nested_rows_are_visited_witness :
  In row_A [header; row_N; row_A]
  /\ forall c, In c (find_all "td" row_A) -> In c (find_all "td" row_N).
Proof.
  apply (nested_rows_are_visited (page [row_N]) row_N row_A [header; row_N; row_A]).
  - vm_compute. reflexivity.
  - simpl. auto.
  - vm_compute. auto.
Defined.

Lemma for_each_app {A S} (body : A -> S -> result S) (l1 l2 : list A) (acc : S) :
  for_each body (l1 ++ l2) acc = (for_each body l1 acc ≫= for_each body l2).
Proof.
  revert acc. induction l1 as [|x l1 IH]; intros acc; simpl; [reflexivity|].
  destruct (body x acc) as [acc'|e]; simpl; [apply IH | reflexivity].
Qed.

Lemma unindexable_row_raises (row : node) (df : DataFrame) :
  indexable row = false ->
  extract_row row df = Raise (Exn IndexError "list index out of range").
Proof.
  unfold indexable, extract_row. intros H.
  destruct (find_all "td" row) as [|c0 rest]; [discriminate|]. simpl.
  destruct (Html.find "a" c0) as [a|] eqn:Ha; [|discriminate]. simpl.
  destruct rest as [|c1 [|c2 rest]]; try reflexivity. simpl.
  apply orb_false_iff in H as [Hc H]. rewrite Hc. simpl.
  destruct (contents a) as [|x xs]; [reflexivity|]. simpl in *.
  destruct (contents c2) as [|y ys]; [reflexivity|]. discriminate.
Qed.

(** X2: after rows that the loop passes, it stops at the first row that
    has a hyperlink in its first cell and no third cell (or, the test
    passed, nothing in the hyperlink or in the third cell): [extract]
    raises [IndexError] there, whatever follows. *)
Theorem extract_rows_index_error (pre post : list node) (row : node) :
  Forall (fun r => extractable r = true) pre ->
  indexable row = false ->
  extract_rows (pre ++ row :: post) TABLE_ATTRIBS
  = Raise (Exn IndexError "list index out of range").
Proof.
  intros Hpre Hrow. unfold extract_rows. rewrite for_each_app.
  change (DataFrame_columns TABLE_ATTRIBS) with (frame_of_records []).
  rewrite (extract_rows_from pre [] Hpre). simpl.
  rewrite (unindexable_row_raises _ _ Hrow). reflexivity.
Qed.

Lemma extract_rows_index_error_witness :
  extract_rows [row_A; row_F; row_E; row_B] TABLE_ATTRIBS
  = Raise (Exn IndexError "list index out of range").
Proof.
  apply (extract_rows_index_error [row_A; row_F] [row_B] row_E).
  - repeat constructor.
  - reflexivity.
Defined.

Lemma many_valued_row_raises (row : node) (df : DataFrame) :
  indexable row = true -> kept row = true -> many_valued row = true ->
  exists e, extract_row row df = Raise e /\ exn_cls e = ValueError.
Proof.
  unfold indexable, kept, many_valued, extract_row. intros Hi Hk Hm.
  destruct (find_all "td" row) as [|c0 [|c1 [|c2 rest]]]; try discriminate.
  simpl in *.
  apply andb_prop in Hk as [Ha Hc].
  destruct (Html.find "a" c0) as [a|] eqn:Hfa; simpl in *; [|discriminate].
  rewrite Hc. simpl.
  destruct (contents a) as [|x xs]; [discriminate|].
  destruct (contents c2) as [|y ys]; [discriminate|].
  simpl in *. unfold DataFrame_row. cbn [comprehension fst snd].
  destruct x as [sx|nx ax [|cx1 [|cx2 cxs]]];
    destruct y as [sy|ny ay [|cy1 [|cy2 cys]]];
    simpl in *; try discriminate; eauto.
Qed.

(** X19: pandas reads a tag as the sequence of its children.  After rows
    that the loop passes, a kept row in which the first child of the
    hyperlink, or of the third cell, is a tag that has no child or
    more than one makes [extract] raise [ValueError], whatever
    follows. *)
Theorem extract_rows_value_error (pre post : list node) (row : node) :
  Forall (fun r => extractable r = true) pre ->
  indexable row = true -> kept row = true -> many_valued row = true ->
  exists e, extract_rows (pre ++ row :: post) TABLE_ATTRIBS = Raise e
            /\ exn_cls e = ValueError.
Proof.
  intros Hpre Hi Hk Hm. unfold extract_rows. rewrite for_each_app.
  change (DataFrame_columns TABLE_ATTRIBS) with (frame_of_records []).
  rewrite (extract_rows_from pre [] Hpre). simpl.
  destruct (many_valued_row_raises row (frame_of_records (map record (List.filter kept pre)))
              Hi Hk Hm) as (e & He & Hcls).
  rewrite He. simpl. eauto.
Qed.

Lemma extract_rows_value_error_witness :
  (exists e, extract_rows [row_A; row_G; row_B] TABLE_ATTRIBS = Raise e
             /\ exn_cls e = ValueError)
  /\ exists e, extract_rows [row_A; row_H; row_B] TABLE_ATTRIBS = Raise e
               /\ exn_cls e = ValueError.
Proof.
  split.
  - apply (extract_rows_value_error [row_A] [row_B] row_G); [repeat constructor|..];
      reflexivity.
  - apply (extract_rows_value_error [row_A] [row_B] row_H); [repeat constructor|..];
      reflexivity.
Defined.

Lemma nrows_of_lengths (frame : DataFrame) (n : nat) :
  frame <> [] -> Forall (fun c => length (values (snd c)) = n) frame ->
  nrows frame = n /\ rectangular frame.
Proof.
  intros Hne H. assert (nrows frame = n) as Hn.
  { destruct frame as [|[k s] frame]; [congruence|]. simpl.
    apply Forall_cons in H as [H _]. exact H. }
  split; [exact Hn|]. unfold rectangular. rewrite Hn. exact H.
Qed.

Lemma lookup_column_In (name : string) (frame : DataFrame) (s : Series) :
  lookup_column name frame = Some s -> exists k, In (k, s) frame.
Proof.
  unfold lookup_column. destruct (List.find _ frame) as [[k s0]|] eqn:Hf; [|discriminate].
  intros [= <-]. apply find_some in Hf as [Hin _]. eauto.
Qed.

Lemma DataFrame_row_shape (data_dict : list (string * pyobj)) (df1 : DataFrame) :
  DataFrame_row data_dict = Ok df1 ->
  Forall (fun c => length (values (snd c)) = 1) df1 /\ length df1 = length data_dict.
Proof.
  unfold DataFrame_row. revert df1.
  induction data_dict as [|[k v] l IH]; intros df1; simpl.
  - intros [= <-]. split; [constructor | reflexivity].
  - destruct (row_value v) as [v'|e]; simpl; [|discriminate].
    destruct (comprehension _ l) as [l'|e]; simpl; [|discriminate].
    intros [= <-]. destruct (IH l' eq_refl) as [Hf Hl].
    split; [constructor; [reflexivity | exact Hf] | simpl; by rewrite Hl].
Qed.

Lemma concat_row_rectangular (df df1 df' : DataFrame) :
  rectangular df ->
  Forall (fun c => length (values (snd c)) = 1) df1 -> length df1 = 2 ->
  concat df df1 = Ok df' ->
  rectangular df' /\ nrows df' = nrows df + 1.
Proof.
  intros Hr H1 Hlen1.
  assert (nrows df1 = 1) as Hn1.
  { destruct df1 as [|[k s] df1]; [discriminate|]. apply Forall_cons in H1 as [H1 _].
    exact H1. }
  unfold concat.
  assert (forall df', df' <> [] ->
            Forall (fun c => length (values (snd c)) = nrows df + 1) df' ->
            rectangular df' /\ nrows df' = nrows df + 1) as Hfin.
  { intros d Hne Hd.
    destruct (nrows_of_lengths d (nrows df + 1) Hne Hd) as [Hn Hrect]. auto. }
  unfold rectangular in Hr.
  destruct (bool_decide (columns df = columns df1)) eqn:Hcols.
  - apply bool_decide_eq_true in Hcols.
    destruct df1 as [|[j1 t1] [|[j2 t2] [|? ?]]]; try discriminate Hlen1.
    destruct df as [|[k1 s1] [|[k2 s2] [|? ?]]]; try discriminate Hcols.
    intros [= <-]. apply Hfin; [discriminate|].
    apply Forall_cons in Hr as [Hr1 Hr]. apply Forall_cons in Hr as [Hr2 _].
    apply Forall_cons in H1 as [L1 H1]. apply Forall_cons in H1 as [L2 _].
    simpl in *. repeat constructor; simpl; rewrite ?length_app; simpl; lia.
  - destruct (nodupb (columns df) && nodupb (columns df1)); [|discriminate].
    intros [= <-]. apply Hfin.
    + destruct df as [|[k s] df]; [|discriminate].
      destruct df1 as [|[j1 t1] df1]; [discriminate|]. discriminate.
    + rewrite Forall_forall in H1. apply Forall_app. split.
      * rewrite Forall_forall in Hr.
        apply Forall_forall. intros x Hx. apply list_elem_of_In, in_map_iff in Hx
          as ([k s] & <- & Hin). apply list_elem_of_In in Hin.
        specialize (Hr _ Hin). simpl in Hr.
        destruct (lookup_column k df1) as [s1|] eqn:Hl.
        -- apply lookup_column_In in Hl as [k1 Hl]. apply list_elem_of_In in Hl.
           pose proof (H1 _ Hl) as Hlen. simpl in Hlen. simpl.
           rewrite length_app, Hlen, Hr. reflexivity.
        -- simpl. rewrite length_app, length_replicate, Hn1, Hr. reflexivity.
      * apply Forall_forall. intros x Hx. apply list_elem_of_In, in_map_iff in Hx
          as ([k s1] & <- & Hin). apply filter_In in Hin as [Hin _].
        apply list_elem_of_In in Hin.
        pose proof (H1 _ Hin) as Hlen. simpl in *.
        rewrite length_app, length_replicate, Hlen. lia.
Qed.

Lemma extract_row_cases (row : node) (df df' : DataFrame) :
  extract_row row df = Ok df' ->
  df' = df \/ exists df1,
    Forall (fun c => length (values (snd c)) = 1) df1 /\ length df1 = 2
    /\ concat df df1 = Ok df'.
Proof.
  unfold extract_row.
  destruct (negb _); [|intros [= <-]; by left].
  destruct (getitem _ 0) as [c0|e]; simpl; [|discriminate].
  destruct (bool_decide _) eqn:Hb; simpl.
  - destruct (getitem _ 2) as [c2|e]; simpl; [|discriminate].
    destruct (negb (contains _ c2)); [|intros [= <-]; by left].
    destruct (Html.find "a" c0) as [a|]; simpl; [|discriminate].
    destruct (getitem (contents a) 0) as [x|e]; simpl; [|discriminate].
    destruct (getitem (contents c2) 0) as [y|e]; simpl; [|discriminate].
    destruct (DataFrame_row _) as [df1|e] eqn:Hrow; simpl; [|discriminate].
    intros H. right. exists df1.
    destruct (DataFrame_row_shape _ _ Hrow) as [Hf Hl]. auto.
  - intros [= <-]. by left.
Qed.

Lemma for_each_extract_rectangular (rows : list node) :
  forall df df', rectangular df -> for_each extract_row rows df = Ok df' ->
                 rectangular df' /\ nrows df' <= nrows df + length rows.
Proof.
  induction rows as [|row rows IH]; simpl; intros df df' Hwf.
  - intros [= <-]. split; [exact Hwf | lia].
  - destruct (extract_row row df) as [d|e] eqn:Hrow; simpl; [|discriminate].
    intros Hrest. apply extract_row_cases in Hrow as [->|(df1 & Hf & Hl & Hc)].
    + destruct (IH _ _ Hwf Hrest). split; [assumption | lia].
    + destruct (concat_row_rectangular _ _ _ Hwf Hf Hl Hc) as [Hwf' Hn].
      destruct (IH _ _ Hwf' Hrest). split; [assumption | lia].
Qed.

Lemma DataFrame_columns_rectangular (table_attribs : list string) :
  rectangular (DataFrame_columns table_attribs)
  /\ nrows (DataFrame_columns table_attribs) = 0.
Proof.
  assert (nrows (DataFrame_columns table_attribs) = 0) as Hn
    by (destruct table_attribs; reflexivity).
  split; [|exact Hn].
  unfold rectangular. rewrite Hn. clear Hn.
  induction table_attribs; simpl; constructor; auto.
Qed.

(** X3: whatever labels [table_attribs] holds, the frame [extract]
    returns has one value in every column for each of its rows, and no
    more rows than the third table body has [tr] tags below it. *)
Theorem extract_well_formed (w : env) (url : string) (table_attribs : list string)
    (soup t : node) (frame : DataFrame) :
  web w url = Ok soup -> find_all "tbody" soup !! 2 = Some t ->
  extract w url table_attribs = Ok frame ->
  rectangular frame /\ nrows frame <= length (find_all "tr" t).
Proof.
  intros Hw Ht. unfold extract. rewrite Hw. simpl. unfold table_rows.
  rewrite (getitem_lookup _ _ _ Ht). simpl. unfold extract_rows. intros H.
  destruct (DataFrame_columns_rectangular table_attribs) as [Hwf Hn].
  destruct (for_each_extract_rectangular _ _ _ Hwf H) as [Hr Hle].
  split; [exact Hr | lia].
Qed.

Lemma extract_well_formed_witness :
  rectangular (frame_of_records [(PStr "A", PStr "1,000")])
  /\ nrows (frame_of_records [(PStr "A", PStr "1,000")]) <= 4.
Proof.
  apply (extract_well_formed (online (page [row_A; row_B; row_C])) URL TABLE_ATTRIBS
           (page [row_A; row_B; row_C])
           (Tag "tbody" [] [header; row_A; row_B; row_C])).
  - reflexivity.
  - vm_compute. reflexivity.
  - vm_compute. reflexivity.
Defined.

End ExtractBehaviour.

(** ** More of the conversion: white space and commas *)

Module ConvertBehaviour.
Import Etl Spec Examples Behaviour Float64 PyProofs ExtractProofs ConvertProofs
  TransformProofs PipelineProofs LoadProofs
  ExtractBehaviour.

Lemma plain_ascii (c : ascii) : plain c = true -> (code c <? 127)%nat = true.
Proof. intros [H|H]%orb_prop; plain_cases H. Qed.
Lemma plain_not_underscore (c : ascii) : plain c = true -> Ascii.eqb c "_" = false.
Proof. intros [H|H]%orb_prop; plain_cases H. Qed.
Lemma space_not_comma (c : ascii) : Py_ISSPACE c = true -> Ascii.eqb c "," = false.
Proof. intros H; plain_cases H. Qed.
Lemma to_ascii_plain (s : string) : all_chars plain s = true -> to_ascii s = s.
Proof.
  intros H. apply to_ascii_below_127.
  revert H. apply all_chars_weaken, plain_ascii.
Qed.

Lemma underscores_ok_plain (s : string) (prev : ascii) :
  Ascii.eqb prev "_" = false -> all_chars plain s = true ->
  underscores_ok prev s = true.
Proof.
  revert prev. induction s as [|c s IH]; simpl; intros prev Hp.
  - intros _. rewrite Hp. reflexivity.
  - intros [Hc Hs]%andb_prop.
    rewrite (plain_not_underscore _ Hc), Hp. simpl.
    apply IH; [apply plain_not_underscore|]; assumption.
Qed.

Lemma remove_underscore_plain (s : string) :
  all_chars plain s = true -> remove "_" s = s.
Proof.
  induction s as [|c s IH]; simpl; [reflexivity|].
  intros [Hc Hs]%andb_prop. rewrite (plain_not_underscore _ Hc), (IH Hs). reflexivity.
Qed.

Lemma remove_comma_space (ws : string) :
  all_chars Py_ISSPACE ws = true -> remove "," ws = ws.
Proof.
  induction ws as [|c s IH]; simpl; [reflexivity|].
  intros [Hc Hs]%andb_prop. rewrite (space_not_comma _ Hc), (IH Hs). reflexivity.
Qed.

Lemma lstrip_digit_first (c : ascii) (s : string) :
  is_digit c = true -> lstrip (String c s) = String c s.
Proof. intros H. simpl. rewrite (digit_not_space _ H). reflexivity. Qed.

Lemma strip_around_digits (ws1 ws2 d : string) :
  all_chars Py_ISSPACE ws1 = true -> all_chars Py_ISSPACE ws2 = true ->
  all_chars is_digit d = true -> d <> EmptyString ->
  strip (ws1 +:+ d +:+ ws2) = d.
Proof.
  intros H1 H2 Hd Hne. unfold strip.
  rewrite (lstrip_space_app _ _ H1).
  destruct d as [|c d]; [congruence|].
  pose proof Hd as Hd'. simpl in Hd'. apply andb_prop in Hd' as [Hc _].
  change (String c d +:+ ws2) with (String c (d +:+ ws2)).
  rewrite (lstrip_digit_first _ _ Hc).
  change (String c (d +:+ ws2)) with (String c d +:+ ws2).
  rewrite reverse_app, (lstrip_space_app _ _ (reverse_space _ H2)).
  rewrite (lstrip_digits _ (reverse_digits _ Hd)). apply reverse_involutive.
Qed.

Lemma float_of_padded_digits (ws1 ws2 d : string) :
  all_chars Py_ISSPACE ws1 = true -> all_chars Py_ISSPACE ws2 = true ->
  all_chars is_digit d = true -> d <> EmptyString ->
  float_of_str (ws1 +:+ d +:+ ws2) = Some (of_Z (digits_value d)).
Proof.
  intros H1 H2 Hd Hne.
  assert (all_chars plain (ws1 +:+ d +:+ ws2) = true) as Hp.
  { rewrite !all_chars_app.
    rewrite (all_chars_weaken Py_ISSPACE plain ws1), (all_chars_weaken Py_ISSPACE plain ws2),
      (all_chars_weaken is_digit plain d); auto; intros c Hc; unfold plain;
      rewrite Hc; auto using orb_true_r. }
  rewrite <- (float_of_digits d Hd Hne). unfold float_of_str.
  rewrite (to_ascii_plain _ Hp), (underscores_ok_plain _ zero eq_refl Hp),
    (remove_underscore_plain _ Hp).
  rewrite (to_ascii_digits d Hd), (underscores_ok_digits d zero eq_refl Hd),
    (remove_underscore_digits d Hd).
  unfold float_from_string_inner.
  rewrite (strip_around_digits _ _ _ H1 H2 Hd Hne), (strip_digits d Hd). reflexivity.
Qed.

(** X4: [float] strips white space, so a figure of digits and commas
    with spaces, tabs or line ends around it converts to the same number
    as the figure alone. *)
Theorem to_float_ignores_surrounding_space (ws1 ws2 s : string) :
  all_chars Py_ISSPACE ws1 = true -> all_chars Py_ISSPACE ws2 = true ->
  grouped_decimal s = true ->
  to_float (PStr (ws1 +:+ s +:+ ws2)) = to_float (PStr s)
  /\ to_float (PStr s) = Ok (of_Z (digits_value (remove "," s))).
Proof.
  intros H1 H2 Hs. rewrite (to_float_grouped s Hs). split; [|reflexivity].
  unfold grouped_decimal in Hs. apply andb_prop in Hs as [Hall Hsome].
  unfold to_float. rewrite join_split_remove, !remove_app.
  rewrite (remove_comma_space _ H1), (remove_comma_space _ H2).
  rewrite (float_of_padded_digits _ _ _ H1 H2 (grouped_remove_digits s Hall)
             (grouped_remove_nonempty s Hsome)).
  reflexivity.
Qed.

Lemma to_float_ignores_surrounding_space_witness :
  to_float (PStr " 1,000  ") = to_float (PStr "1,000")
  /\ to_float (PStr "1,000") = Ok (of_Z 1000).
Proof.
  apply (to_float_ignores_surrounding_space " " "  " "1,000"); reflexivity.
Defined.

(** X5: the conversion looks at what is left once the commas are gone:
    two strings that differ in their commas only convert alike, wherever
    the commas stand, and a string of commas alone, or the empty string,
    is refused with the [ValueError] of [float] for the empty text. *)
Theorem to_float_ignores_commas :
  (forall s t, remove "," s = remove "," t -> to_float (PStr s) = to_float (PStr t))
  /\ (forall s, all_chars (fun c => Ascii.eqb c ",") s = true ->
                to_float (PStr s)
                = Raise (Exn ValueError "could not convert string to float: ''")).
Proof.
  split.
  - intros s t H. unfold to_float. rewrite !join_split_remove, H. reflexivity.
  - intros s H. unfold to_float. rewrite join_split_remove.
    assert (remove "," s = EmptyString) as ->.
    { induction s as [|a s IH]; simpl in *; [reflexivity|].
      apply andb_prop in H as [Ha Hs]. rewrite Ha. apply IH, Hs. }
    reflexivity.
Qed.

End ConvertBehaviour.

(** ** More of [transform]: the frame it returns, a second call, a value that is a tag *)

Module TransformBehaviour.
Import Etl Spec Examples Behaviour Float64 PyProofs ExtractProofs ConvertProofs
  TransformProofs PipelineProofs LoadProofs
  ExtractBehaviour ConvertBehaviour.

Lemma lookup_rename_old (old new : string) (frame : DataFrame) :
  old <> new -> lookup_column old (rename old new frame) = None.
Proof.
  intros Hne. unfold lookup_column, rename.
  induction frame as [|[k s] frame IH]; simpl; [reflexivity|].
  destruct (String.eqb k old) eqn:E.
  - destruct (String.eqb new old) eqn:E'; [apply String.eqb_eq in E'; congruence|].
    exact IH.
  - rewrite E. exact IH.
Qed.

Lemma lookup_replace_eq (name : string) (s : Series) (frame : DataFrame) :
  lookup_column name (replace_column name s frame) = Some s.
Proof.
  unfold lookup_column. induction frame as [|[k s0] frame IH]; simpl.
  - rewrite String.eqb_refl. reflexivity.
  - destruct (String.eqb k name) eqn:E; simpl; rewrite E; [reflexivity | exact IH].
Qed.

Lemma lookup_replace_ne (name k : string) (s : Series) (frame : DataFrame) :
  k <> name -> lookup_column k (replace_column name s frame) = lookup_column k frame.
Proof.
  intros Hne. unfold lookup_column.
  induction frame as [|[k0 s0] frame IH]; simpl.
  - destruct (String.eqb name k) eqn:E; [apply String.eqb_eq in E; congruence|reflexivity].
  - destruct (String.eqb k0 name) eqn:E; simpl.
    + apply String.eqb_eq in E as ->.
      destruct (String.eqb name k) eqn:E'; [apply String.eqb_eq in E'; congruence|].
      reflexivity.
    + destruct (String.eqb k0 k); [reflexivity | exact IH].
Qed.

Lemma nrows_replace (name : string) (s : Series) (frame : DataFrame) :
  length (values s) = nrows frame -> nrows (replace_column name s frame) = nrows frame.
Proof.
  destruct frame as [|[k s0] frame]; simpl; [auto|].
  destruct (String.eqb k name); simpl; auto.
Qed.

Lemma lengths_replace (name : string) (s : Series) (frame : DataFrame) (n : nat) :
  Forall (fun c => length (values (snd c)) = n) frame -> length (values s) = n ->
  Forall (fun c => length (values (snd c)) = n) (replace_column name s frame).
Proof.
  intros Hr Hs. induction frame as [|[k s0] frame IH]; simpl.
  - repeat constructor. exact Hs.
  - apply Forall_cons in Hr as [H0 Hr].
    destruct (String.eqb k name); constructor; auto.
Qed.

Lemma rectangular_replace (name : string) (s : Series) (frame : DataFrame) :
  rectangular frame -> length (values s) = nrows frame ->
  rectangular (replace_column name s frame).
Proof.
  unfold rectangular. intros Hr Hs. rewrite (nrows_replace _ _ _ Hs).
  apply lengths_replace; assumption.
Qed.

Lemma nrows_rename (old new : string) (frame : DataFrame) :
  nrows (rename old new frame) = nrows frame.
Proof. destruct frame as [|[k s] frame]; reflexivity. Qed.

Lemma rectangular_rename (old new : string) (frame : DataFrame) :
  rectangular frame -> rectangular (rename old new frame).
Proof.
  unfold rectangular. rewrite nrows_rename. generalize (nrows frame). intros n H.
  induction H as [|[k s] frame H0 _ IH]; simpl; constructor; auto.
Qed.

Lemma columns_rename (old new : string) (frame : DataFrame) :
  columns (rename old new frame)
  = map (fun k => if String.eqb k old then new else k) (columns frame).
Proof.
  unfold columns, rename. rewrite !map_map. apply map_ext. intros [k s]. reflexivity.
Qed.

Lemma columns_replace_present (name : string) (s s0 : Series) (frame : DataFrame) :
  lookup_column name frame = Some s0 ->
  columns (replace_column name s frame) = columns frame.
Proof.
  unfold lookup_column, columns. induction frame as [|[k s1] frame IH]; simpl; [discriminate|].
  destruct (String.eqb k name) eqn:E; simpl; [reflexivity|].
  intros H. f_equal. apply IH, H.
Qed.

Lemma lookup_rename_other (old new k : string) (frame : DataFrame) :
  k <> old -> k <> new ->
  lookup_column k (rename old new frame) = lookup_column k frame.
Proof.
  intros Ho Hn. unfold lookup_column, rename.
  induction frame as [|[k0 s] frame IH]; simpl; [reflexivity|].
  destruct (String.eqb k0 old) eqn:E.
  - apply String.eqb_eq in E as ->.
    destruct (String.eqb new k) eqn:E1; [apply String.eqb_eq in E1; congruence|].
    destruct (String.eqb old k) eqn:E2; [apply String.eqb_eq in E2; congruence|].
    exact IH.
  - destruct (String.eqb k0 k); [reflexivity | exact IH].
Qed.

Lemma lookup_rename_new (old new : string) (frame : DataFrame) :
  lookup_column new frame = None ->
  lookup_column new (rename old new frame) = lookup_column old frame.
Proof.
  unfold lookup_column, rename.
  induction frame as [|[k0 s] frame IH]; simpl; [reflexivity|].
  destruct (String.eqb k0 new) eqn:En; [discriminate|]. intros H.
  destruct (String.eqb k0 old) eqn:E.
  - rewrite String.eqb_refl. reflexivity.
  - rewrite En. apply IH, H.
Qed.

Lemma convert_floats (l c : list pyobj) :
  convert l = Ok c -> forallb is_float c = true /\ length c = length l.
Proof.
  unfold convert. destruct (comprehension to_float l) as [fs|e] eqn:E; [|discriminate].
  simpl. intros [= <-]. split.
  - clear. induction fs; simpl; auto.
  - rewrite length_map. apply (comprehension_length _ _ _ E).
Qed.

(** What a call of [transform] that returns has done. *)
Lemma transform_inv (l l' : nat) (h h' : gmap nat DataFrame) :
  transform l h = (Ok l', h') ->
  exists frame col c,
    h !! l = Some frame
    /\ lookup_column "GDP_USD_millions" frame = Some col
    /\ convert (values col) = Ok c
    /\ length c = nrows frame
    /\ l' = fresh (dom (<[l := updated frame c]> h))
    /\ h' = <[l' := renamed (updated frame c)]> (<[l := updated frame c]> h).
Proof.
  unfold transform, mbind, stateful_bind, deref, lift, modify, alloc.
  destruct (h !! l) as [frame|] eqn:Hl; [|discriminate].
  unfold getitem_column.
  destruct (lookup_column _ frame) as [col|] eqn:Hcol; [|discriminate].
  destruct (convert (values col)) as [c|e] eqn:Hc; [|discriminate].
  destruct (convert_floats _ _ Hc) as [Hfl Hlen].
  unfold setitem_column, infer_dtype. rewrite Hfl.
  destruct (Nat.eqb (length c) (nrows frame)) eqn:Hn; [|discriminate].
  apply Nat.eqb_eq in Hn. rewrite lookup_insert_eq.
  intros [= <- <-]. exists frame, col, c. auto 10.
Qed.

(** X6: the frame [transform] returns has the labels of the frame it was
    given, in their order, with "GDP_USD_billions" in the place of
    "GDP_USD_millions", as many rows, the other columns as they were, no
    column "GDP_USD_millions", and the converted numbers, as float64,
    under the new label. *)
Theorem transform_result_shape (l l' : nat) (h h' : gmap nat DataFrame)
    (frame : DataFrame) :
  h !! l = Some frame ->
  transform l h = (Ok l', h') ->
  exists result col c,
    h' !! l' = Some result
    /\ lookup_column "GDP_USD_millions" frame = Some col
    /\ convert (values col) = Ok c
    /\ columns result
       = map (fun k => if String.eqb k "GDP_USD_millions" then "GDP_USD_billions" else k)
           (columns frame)
    /\ nrows result = nrows frame
    /\ (rectangular frame -> rectangular result)
    /\ (forall k, k <> "GDP_USD_millions" -> k <> "GDP_USD_billions" ->
                   lookup_column k result = lookup_column k frame)
    /\ lookup_column "GDP_USD_millions" result = None
    /\ (lookup_column "GDP_USD_billions" frame = None ->
        lookup_column "GDP_USD_billions" result = Some (mkSeries float64 c)).
Proof.
  intros Hl H. apply transform_inv in H
    as (frame0 & col & c & Hl0 & Hcol & Hc & Hlen & -> & ->).
  rewrite Hl in Hl0. injection Hl0 as <-.
  exists (renamed (updated frame c)), col, c.
  split; [apply lookup_insert_eq|]. split; [exact Hcol|]. split; [exact Hc|].
  unfold renamed, updated. split.
  { rewrite columns_rename, (columns_replace_present _ _ _ _ Hcol). reflexivity. }
  split; [rewrite nrows_rename; apply nrows_replace; exact Hlen|].
  split; [intros Hr; apply rectangular_rename, rectangular_replace; assumption|].
  split.
  { intros k H1 H2. rewrite lookup_rename_other by assumption.
    apply lookup_replace_ne, H1. }
  split; [apply lookup_rename_old; discriminate|].
  intros Hb. rewrite lookup_rename_new.
  - apply lookup_replace_eq.
  - rewrite lookup_replace_ne by discriminate. exact Hb.
Qed.

Lemma transform_result_shape_witness :
  exists result col c,
    snd (transform 0 {[0 := raw_frame]}) !! 1 = Some result
    /\ lookup_column "GDP_USD_millions" raw_frame = Some col
    /\ convert (values col) = Ok c
    /\ columns result = ["Country"; "GDP_USD_billions"]
    /\ nrows result = 2
    /\ (rectangular raw_frame -> rectangular result)
    /\ (forall k, k <> "GDP_USD_millions" -> k <> "GDP_USD_billions" ->
                   lookup_column k result = lookup_column k raw_frame)
    /\ lookup_column "GDP_USD_millions" result = None
    /\ (lookup_column "GDP_USD_billions" raw_frame = None ->
        lookup_column "GDP_USD_billions" result = Some (mkSeries float64 c)).
Proof.
  set (h := ({[0 := raw_frame]} : gmap nat DataFrame)).
  set (h' := snd (transform 0 h)).
  assert (transform 0 h = (Ok 1, h')) as H by (vm_compute; reflexivity).
  exact (transform_result_shape 0 1 h h' raw_frame eq_refl H).
Defined.

Lemma transform_of_result_raises (l l' : nat) (h h' : gmap nat DataFrame) :
  transform l h = (Ok l', h') ->
  transform l' h' = (Raise (Exn KeyError "'GDP_USD_millions'"), h').
Proof.
  intros H. apply transform_inv in H
    as (frame & col & c & Hl & Hcol & Hc & Hlen & El' & ->).
  unfold transform, mbind, stateful_bind, deref, lift.
  rewrite lookup_insert_eq. unfold getitem_column, renamed.
  rewrite lookup_rename_old by discriminate. reflexivity.
Qed.

(** X7: [transform] cannot be applied twice: on the frame it returned it
    raises [KeyError], the column it reads being renamed, and on the
    frame it was given, which now holds numbers, it raises
    [AttributeError] at the first value; either way the objects stay as
    they are. *)
Theorem transform_not_rerunnable (l l' : nat) (h h' : gmap nat DataFrame)
    (frame : DataFrame) :
  h !! l = Some frame ->
  transform l h = (Ok l', h') ->
  transform l' h' = (Raise (Exn KeyError "'GDP_USD_millions'"), h')
  /\ (0 < nrows frame ->
      transform l h'
      = (Raise (Exn AttributeError "'float' object has no attribute 'split'"), h')).
Proof.
  intros Hl H. split; [exact (transform_of_result_raises _ _ _ _ H)|].
  apply transform_inv in H
    as (frame0 & col & c & Hl0 & Hcol & Hc & Hlen & El' & ->).
  rewrite Hl in Hl0. injection Hl0 as <-.
  destruct (fresh_location l h (updated frame c)) as [_ Hne]. rewrite <- El' in Hne.
  intros Hpos.
  apply (transform_raises l _ (updated frame c) (mkSeries float64 c)).
  - rewrite lookup_insert_ne by exact Hne. apply lookup_insert_eq.
  - apply lookup_replace_eq.
  - simpl. unfold convert in Hc.
    destruct (comprehension to_float (values col)) as [fs|e]; [|discriminate].
    simpl in Hc. injection Hc as <-. rewrite length_map in Hlen.
    destruct fs as [|f fs]; [simpl in Hlen; lia|]. reflexivity.
Qed.

Lemma transform_not_rerunnable_witness :
  transform 1 (snd (transform 0 {[0 := raw_frame]}))
  = (Raise (Exn KeyError "'GDP_USD_millions'"), snd (transform 0 {[0 := raw_frame]}))
  /\ (0 < nrows raw_frame ->
      transform 0 (snd (transform 0 {[0 := raw_frame]}))
      = (Raise (Exn AttributeError "'float' object has no attribute 'split'"),
         snd (transform 0 {[0 := raw_frame]}))).
Proof.
  set (h := ({[0 := raw_frame]} : gmap nat DataFrame)).
  set (h' := snd (transform 0 h)).
  assert (transform 0 h = (Ok 1, h')) as H by (vm_compute; reflexivity).
  exact (transform_not_rerunnable 0 1 h h' raw_frame eq_refl H).
Defined.

(** X8: running the transform cell again after it has succeeded only
    adds the line of the [KeyError] to the log: the name [df] and every
    DataFrame object stay as they are. *)
Theorem rerun_of_transform_cell (st st1 : state) :
  try_transform st = (Ok tt, st1) ->
  cell_transform st1
  = (Ok tt, logged "Error while transforming data: 'GDP_USD_millions'" st1).
Proof.
  unfold try_transform, try_transform_io, mbind, stateful_bind, name_df, on_heap, assign_df,
    log_progress, modify.
  destruct (df st) as [l|]; [|discriminate]. simpl.
  destruct (transform l (heap st)) as [[l'|e] h'] eqn:Ht; [|discriminate].
  intros [= <-].
  pose proof (transform_of_result_raises _ _ _ _ Ht) as Hk.
  unfold cell_transform, cell_transform_io. rewrite try_except_caught.
  unfold caught_and_logged, try_transform, try_transform_io, mbind, stateful_bind, name_df, on_heap.
  simpl. rewrite Hk. reflexivity.
Qed.

Lemma rerun_of_transform_cell_witness :
  cell_transform (snd (try_transform extracted_kernel))
  = (Ok tt, logged "Error while transforming data: 'GDP_USD_millions'"
              (snd (try_transform extracted_kernel))).
Proof.
  set (st1 := snd (try_transform extracted_kernel)).
  assert (try_transform extracted_kernel = (Ok tt, st1)) as H by (vm_compute; reflexivity).
  exact (rerun_of_transform_cell extracted_kernel st1 H).
Defined.

Lemma convert_first_error (pre post : list pyobj) (x : pyobj) (e : exn) :
  forallb valid_decimal pre = true -> to_float x = Raise e ->
  convert (pre ++ x :: post) = Raise e.
Proof.
  intros Hpre Hx. unfold convert.
  assert (comprehension to_float (pre ++ x :: post) = Raise e) as ->; [|reflexivity].
  induction pre as [|y pre IH]; [simpl; rewrite Hx; reflexivity|].
  simpl in Hpre. apply andb_prop in Hpre as [Hy Hpre].
  destruct (to_float_valid y Hy) as [f Hf].
  change ((y :: pre) ++ x :: post) with (y :: (pre ++ x :: post)).
  cbn [comprehension]. rewrite Hf, (IH Hpre). reflexivity.
Qed.



End TransformBehaviour.

(** ** More of [load_to_db]: the statements sent, a table with other columns, the table kept *)

Module LoadBehaviour.
Import Etl Spec Examples Behaviour Float64 PyProofs ExtractProofs ConvertProofs
  TransformProofs PipelineProofs LoadProofs
  ExtractBehaviour ConvertBehaviour TransformBehaviour.

Lemma bind_ok {S A B} (m : stateful S A) (f : A -> stateful S B) (s s1 : S) (a : A) :
  m s = (Ok a, s1) -> (m ≫= f) s = f a s1.
Proof. unfold mbind, stateful_bind. intros ->. reflexivity. Qed.

Lemma bind_raise {S A B} (m : stateful S A) (f : A -> stateful S B) (s s1 : S) (e : exn) :
  m s = (Raise e, s1) -> (m ≫= f) s = (Raise e, s1).
Proof. unfold mbind, stateful_bind. intros ->. reflexivity. Qed.

Lemma column_defs_total (frame : DataFrame) :
  exists defs, column_defs frame = Ok defs /\ map fst defs = columns frame.
Proof.
  unfold column_defs.
  assert (forall l, (forall k, In k l -> exists s, lookup_column k frame = Some s) ->
            exists defs,
              comprehension (fun col => ty ← column_type frame col; Ok (col, ty)) l = Ok defs
              /\ map fst defs = l) as H.
  { induction l as [|k l IH]; intros Hl; [exists []; auto|].
    destruct (Hl k (or_introl eq_refl)) as [s Hs].
    destruct IH as (defs & Hd & Hm); [intros; apply Hl; by right|].
    exists ((k, schema_type s) :: defs). cbn [comprehension].
    rewrite (column_type_lookup _ _ _ Hs), Hd. simpl. by rewrite Hm. }
  apply H. intros k Hk. unfold columns in Hk. apply in_map_iff in Hk as ([k0 s] & <- & Hin).
  unfold lookup_column. clear H.
  induction frame as [|[k1 s1] frame IH]; [destruct Hin|]. simpl.
  destruct (String.eqb k1 k0) eqn:E; [eauto|].
  destruct Hin as [Heq|Hin]; [injection Heq as -> ->; rewrite String.eqb_refl in E; discriminate|].
  apply IH, Hin.
Qed.

Lemma comprehension_pointwise {A B} (f : A -> result B) (l : list A) (l' : list B) :
  Forall2 (fun x y => f x = Ok y) l l' -> comprehension f l = Ok l'.
Proof.
  induction 1 as [|x y l l' Hxy _ IH]; simpl; [reflexivity|].
  rewrite Hxy, IH. reflexivity.
Qed.

Lemma record_get_zip (cols : list string) (vs : list pyobj) (j : nat) (k : string) (v : pyobj) :
  NoDup cols -> cols !! j = Some k -> vs !! j = Some v ->
  record_get k (zip cols vs) = Ok v.
Proof.
  unfold record_get. revert vs j.
  induction cols as [|k0 cols IH]; intros vs j Hnd Hk Hv; [discriminate|].
  destruct vs as [|v0 vs]; [rewrite lookup_nil in Hv; discriminate|].
  apply NoDup_cons in Hnd as [Hnotin Hnd]. simpl.
  destruct j as [|j]; simpl in *.
  - injection Hk as ->. injection Hv as ->. rewrite String.eqb_refl. reflexivity.
  - destruct (String.eqb k0 k) eqn:E.
    + apply String.eqb_eq in E as ->. exfalso. apply Hnotin.
      apply list_elem_of_lookup. eauto.
    + apply (IH vs j); assumption.
Qed.

Lemma record_of_row (frame : DataFrame) (i : nat) :
  rectangular frame -> NoDup (columns frame) -> i < nrows frame ->
  length (row_values frame i) = length (columns frame)
  /\ comprehension
       (fun col => record_get col
                     (omap (fun '(k, s) => v ← values s !! i; Some (k, v)) frame))
       (columns frame)
     = Ok (row_values frame i).
Proof.
  intros Hr Hnd Hi.
  assert (Forall (fun c => i < length (values (snd c))) frame) as Hall.
  { unfold rectangular in Hr. eapply Forall_impl; [exact Hr|]. simpl. intros c Hc. lia. }
  set (rec := omap _ frame).
  assert (rec = zip (columns frame) (row_values frame i)
          /\ length (row_values frame i) = length (columns frame)) as [-> Hlen].
  { subst rec. clear Hr Hnd Hi. unfold row_values, columns.
    induction Hall as [|[k s] frame Hc _ [IH1 IH2]]; [auto|].
    apply lookup_lt_is_Some_2 in Hc as [v Hv]. simpl in *. rewrite Hv. simpl.
    split; [f_equal; exact IH1 | f_equal; exact IH2]. }
  split; [exact Hlen|].
  apply comprehension_pointwise. apply Forall2_same_length_lookup_2.
  - by rewrite Hlen.
  - intros j k v Hk Hv. apply (record_get_zip _ _ j); assumption.
Qed.

Lemma to_records_rows (frame : DataFrame) :
  rectangular frame -> NoDup (columns frame) ->
  Forall2 (fun record params =>
             comprehension (fun col => record_get col record) (columns frame) = Ok params)
          (to_records frame) (map (row_values frame) (seq 0 (nrows frame)))
  /\ Forall (fun params => length params = length (columns frame))
            (map (row_values frame) (seq 0 (nrows frame))).
Proof.
  intros Hr Hnd. unfold to_records.
  assert (Forall (fun i => i < nrows frame) (seq 0 (nrows frame))) as Hseq.
  { apply Forall_forall. intros i Hi%list_elem_of_In%in_seq. lia. }
  induction Hseq as [|i l Hi _ [IH1 IH2]]; simpl; [split; constructor|].
  destruct (record_of_row frame i Hr Hnd Hi) as [Hlen Hc].
  split; constructor; assumption.
Qed.

Lemma Forall2_functional {A B} (R : A -> B -> Prop) (l : list A) (l1 l2 : list B) :
  (forall x y1 y2, R x y1 -> R x y2 -> y1 = y2) ->
  Forall2 R l l1 -> Forall2 R l l2 -> l1 = l2.
Proof.
  intros Hf H1. revert l2. induction H1 as [|x y l l1 Hxy _ IH]; intros l2 H2.
  - by inversion H2.
  - inversion H2 as [|x' y' l' l2' Hxy' H2']; subst. f_equal; [eauto | apply IH, H2'].
Qed.

Lemma rectangular_billions_frame : rectangular billions_frame.
Proof. repeat constructor. Qed.

(** X9: a load that succeeds has sent, after the statements that make
    the schema, select it and make the table, one INSERT for each row of
    the frame, in the order of the rows, all with one and the same text
    and each with the values of its row, in the order of the columns,
    as its parameters. *)
Theorem load_to_db_sends_the_frame (w : env) (frame : DataFrame) (srv srv' : server) :
  rectangular frame -> NoDup (columns frame) ->
  load_to_db w frame srv = (Ok tt, srv') ->
  exists c,
    load_on_connection frame (mkConnection srv srv None []) = (Ok tt, c)
    /\ committed c = srv'
    /\ sent c = load_statements (schema frame)
                ++ map (fun i => (insert_text (columns frame), row_values frame i))
                     (seq 0 (nrows frame)).
Proof.
  intros Hr Hnd H. apply load_to_db_inv in H as (c & H & Hc).
  exists c. split; [exact H|]. split; [exact Hc|].
  apply load_on_connection_inv in H
    as (defs & t' & news & pl & Hdefs & _ & _ & _ & _ & Hf2 & Hsent).
  rewrite (column_defs_schema frame Hnd) in Hdefs. injection Hdefs as <-.
  destruct (to_records_rows frame Hr Hnd) as [Hrows _].
  assert (pl = map (row_values frame) (seq 0 (nrows frame))) as ->.
  { eapply Forall2_functional; [|exact Hf2|exact Hrows].
    simpl. intros x y1 y2 H1 H2. congruence. }
  rewrite Hsent, map_map. reflexivity.
Qed.

Lemma load_to_db_sends_the_frame_witness :
  exists c,
    load_on_connection billions_frame (mkConnection ∅ ∅ None []) = (Ok tt, c)
    /\ committed c = snd (load_to_db (online (page [])) billions_frame ∅)
    /\ sent c
       = [("CREATE SCHEMA IF NOT EXISTS `World_Economies`", []);
          ("USE `World_Economies`", []);
          ("CREATE TABLE IF NOT EXISTS `Countries_by_GDP` (id INT AUTO_INCREMENT "
           +:+ "PRIMARY KEY, `Country` VARCHAR(255), `GDP_USD_billions` FLOAT)", []);
          ("INSERT INTO `Countries_by_GDP` (`Country`, `GDP_USD_billions`) "
           +:+ "VALUES (%s, %s)",
           [PStr "United States"; PFloat (S754_finite false 7381736239818342 (-38))]);
          ("INSERT INTO `Countries_by_GDP` (`Country`, `GDP_USD_billions`) "
           +:+ "VALUES (%s, %s)",
           [PStr "Tuvalu"; PFloat (S754_finite false 8646911284551352 (-57))])].
Proof.
  set (w := online (page [])).
  set (srv' := snd (load_to_db w billions_frame ∅)).
  assert (load_to_db w billions_frame ∅ = (Ok tt, srv')) as H by (vm_compute; reflexivity).
  assert (NoDup (columns billions_frame)) as Hnd
    by (apply (bool_decide_unpack _); vm_compute; exact I).
  exact (load_to_db_sends_the_frame w billions_frame ∅ srv'
           rectangular_billions_frame Hnd H).
Defined.

Lemma execute_create_table_exists (defs : list (string * sqltype)) (c : connection)
    (tables : gmap string table) (t : table) :
  current c = Some DB_NAME -> working c !! DB_NAME = Some tables ->
  defs <> [] -> tables !! TABLE_NAME = Some t ->
  execute (CreateTableIfNotExists TABLE_NAME defs) [] c
  = (Ok tt, mkConnection (working c) (working c) (current c)
              (sent c ++ [(sql_text (CreateTableIfNotExists TABLE_NAME defs), [])])).
Proof.
  intros Hcur Hw Hne Ht.
  unfold execute, mbind, stateful_bind, record_sent, modify, Stateful.get, db_error,
    lift, ddl.
  cbn [current working committed sent].
  destruct defs as [|d defs]; [congruence|].
  rewrite Hcur, Hw, Ht. reflexivity.
Qed.

Lemma to_mysql_total (ps : list pyobj) :
  forallb storable ps = true -> exists vals, comprehension to_mysql ps = Ok vals.
Proof.
  induction ps as [|p ps IH]; simpl; [eauto|].
  intros [Hp Hps]%andb_prop. destruct (IH Hps) as [vals ->].
  destruct p; simpl; eauto; discriminate.
Qed.

Lemma execute_insert_unknown (c : connection) (t : table) (cols : list string)
    (params : list pyobj) :
  current c = Some DB_NAME -> table_of (working c) = Some t ->
  length params = length cols ->
  forallb storable params = true ->
  forallb (known_column t) cols = false ->
  exists e c',
    execute (DML cols) params c = (Raise e, c')
    /\ exn_cls e = DatabaseError
    /\ committed c' = committed c.
Proof.
  intros Hcur Ht Hlen Hst Hknown.
  destruct (to_mysql_total params Hst) as [vals Hvals].
  unfold DML, execute, mbind, stateful_bind, record_sent, modify, Stateful.get, db_error, lift.
  cbn [current working committed sent]. rewrite Hvals, Hlen, Nat.eqb_refl, Hcur.
  cbn [negb].
  unfold table_of, mbind in Ht. rewrite Ht.
  assert (exists name rest,
            List.filter (fun col => negb (known_column t col)) cols = name :: rest)
    as (name & rest & ->).
  { clear -Hknown. induction cols as [|col cols IH]; [discriminate|].
    simpl in *. destruct (known_column t col); simpl in *; eauto. }
  simpl. eexists _, _. repeat split.
Qed.

Lemma row_values_storable (frame : DataFrame) (i : nat) :
  Forall (fun c => forallb storable (values (snd c)) = true) frame ->
  forallb storable (row_values frame i) = true.
Proof.
  unfold row_values. induction 1 as [|[k s] frame Hc _ IH]; [reflexivity|].
  simpl. destruct (values s !! i) as [v|] eqn:Hv; [|exact IH].
  simpl. apply andb_true_intro. split; [|exact IH].
  simpl in Hc. rewrite forallb_forall in Hc. apply Hc. apply list_elem_of_In.
  eapply list_elem_of_lookup_2, Hv.
Qed.

Lemma first_insert_refused (frame : DataFrame) (srv : server) (t : table) :
  rectangular frame -> 0 < nrows frame -> NoDup (columns frame) ->
  Forall (fun c => forallb storable (values (snd c)) = true) frame ->
  table_of srv = Some t ->
  forallb (known_column t) (columns frame) = false ->
  exists e c,
    load_on_connection frame (mkConnection srv srv None []) = (Raise e, c)
    /\ exn_cls e = DatabaseError
    /\ committed c = srv.
Proof.
  intros Hr Hpos Hnd Hst Ht Hunknown.
  assert (exists tables, srv !! DB_NAME = Some tables /\ tables !! TABLE_NAME = Some t)
    as (tables & Hs & Htab).
  { unfold table_of, mbind in Ht. destruct (srv !! DB_NAME) as [tb|]; [eauto|discriminate]. }
  destruct (column_defs_total frame) as (defs & Hdefs & Hfst).
  assert (defs <> []) as Hne.
  { intros ->. destruct frame as [|[k s] frame]; [simpl in Hpos; lia | discriminate]. }
  assert (DataFrame_to_records frame = Ok (to_records frame)) as Hrecs.
  { destruct frame; [simpl in Hpos; lia | reflexivity]. }
  assert (exists r rest, to_records frame = r :: rest
            /\ comprehension (fun col => record_get col r) (columns frame)
               = Ok (row_values frame 0))
    as (r & rest & Hrec & Hps).
  { destruct (record_of_row frame 0 Hr Hnd Hpos) as [_ H0].
    unfold to_records. destruct (nrows frame) as [|n] eqn:Hn; [lia|].
    simpl. eexists _, _. split; [reflexivity | exact H0]. }
  set (c4 := mkConnection srv srv (Some DB_NAME)
               ((([] ++ [(sql_text (CreateSchemaIfNotExists DB_NAME), [])])
                 ++ [(sql_text (Use true DB_NAME), [])])
                ++ [(sql_text (CreateTableIfNotExists TABLE_NAME defs), [])])).
  destruct (execute_insert_unknown c4 t (columns frame) (row_values frame 0) eq_refl)
    as (e & c5 & Hex & Hcls & Hcom).
  { unfold table_of, mbind. cbn. rewrite Hs. exact Htab. }
  { apply (comprehension_length _ _ _ Hps). }
  { apply row_values_storable, Hst. }
  { exact Hunknown. }
  exists e, c5. split; [|split; [exact Hcls | exact Hcom]].
  unfold load_on_connection.
  erewrite bind_ok by (unfold lift; rewrite Hrecs; reflexivity).
  erewrite bind_ok by apply execute_create_schema.
  cbn [working]. rewrite Hs. cbv zeta.
  erewrite bind_ok by (apply (execute_use true DB_NAME _ tables); exact Hs).
  erewrite bind_ok by (unfold lift; rewrite Hdefs; reflexivity).
  erewrite bind_ok
    by (apply (execute_create_table_exists defs _ tables t); auto).
  rewrite Hrec. cbn [for_].
  erewrite bind_raise; [reflexivity|].
  erewrite bind_raise; [reflexivity|].
  unfold insert_record, mbind, stateful_bind, lift. rewrite Hps. exact Hex.
Qed.

(** X10: when the table exists already and has no column of the name of
    some column of the frame, whatever the case of the letters (a table
    made from the raw frame, say, and a load of the transformed one),
    the first INSERT is refused: [load_to_db], given a frame with a row,
    distinct labels and strings and numbers for values, raises
    [DatabaseError] and the server is as it was.  The names are taken
    to be made of ASCII letters, digits and underscores, for which the
    statements read as they were meant and the comparison of the server
    is the one described. *)
Theorem load_into_stale_table (w : env) (frame : DataFrame) (srv : server) (t : table) :
  connect_error w = None ->
  rectangular frame -> 0 < nrows frame -> NoDup (columns frame) ->
  Forall (fun c => forallb storable (values (snd c)) = true) frame ->
  table_of srv = Some t ->
  forallb plain_name (columns frame ++ map fst (t_columns t)) = true ->
  forallb (known_column t) (columns frame) = false ->
  exists e, load_to_db w frame srv = (Raise e, srv) /\ exn_cls e = DatabaseError.
Proof.
  intros Hconn Hr Hpos Hnd Hst Ht _ Hunknown.
  destruct (first_insert_refused frame srv t Hr Hpos Hnd Hst Ht Hunknown)
    as (e & c & Hload & Hcls & Hcom).
  unfold load_to_db, connect_database. rewrite Hconn, Hload, Hcom. eauto.
Qed.

Lemma load_into_stale_table_witness :
  exists e, load_to_db (online (page [])) billions_frame stale_server = (Raise e, stale_server)
            /\ exn_cls e = DatabaseError.
Proof.
  set (t := mkTable [id_column; ("Country", VARCHAR_255); ("GDP_USD_millions", VARCHAR_255)]
              [[SqlInt 1; SqlText "United States"; SqlText "26,854,599"];
               [SqlInt 2; SqlText "Tuvalu"; SqlText "65"]] 3).
  assert (table_of stale_server = Some t) as Ht by (vm_compute; reflexivity).
  assert (NoDup (columns billions_frame)) as Hnd
    by (apply (bool_decide_unpack _); vm_compute; exact I).
  apply (load_into_stale_table (online (page [])) billions_frame stale_server t eq_refl
           rectangular_billions_frame).
  - simpl. lia.
  - exact Hnd.
  - repeat constructor.
  - exact Ht.
  - reflexivity.
  - reflexivity.
Defined.

Lemma preserves_bind {A B} (t : table) (m : stateful connection A)
    (f : A -> stateful connection B) :
  preserves t m -> (forall a, preserves t (f a)) -> preserves t (m ≫= f).
Proof.
  intros Hm Hf c r c'. unfold mbind, stateful_bind.
  destruct (m c) as [[a|e] c1] eqn:E.
  - intros H Hc. eapply Hf; [exact H|]. eapply Hm; eauto.
  - intros [= <- <-] Hc. eapply Hm; eauto.
Qed.

Lemma preserves_lift {A} (t : table) (r : result A) : preserves t (lift r).
Proof. intros c r' c'. unfold lift. intros [= _ <-]. auto. Qed.

Lemma preserves_for {A} (t : table) (l : list A) (body : A -> stateful connection unit) :
  (forall x, preserves t (body x)) -> preserves t (for_ l body).
Proof.
  intros Hb. induction l as [|x l IH]; simpl.
  - intros c r c' [= _ <-]. auto.
  - apply preserves_bind; [apply Hb | intros _; exact IH].
Qed.

Lemma keeps_table_other (t : table) (srv : server) (d : string) (tables : gmap string table) :
  d <> DB_NAME -> keeps_table t srv -> keeps_table t (<[d := tables]> srv).
Proof.
  intros Hd (t' & Ht & H). exists t'. split; [|exact H].
  unfold table_of, mbind in *. rewrite lookup_insert_ne by exact Hd. exact Ht.
Qed.

Lemma preserves_execute (t : table) (st : statement) (params : list pyobj) :
  preserves t (execute st params).
Proof.
  intros c r c'.
  unfold execute, mbind, stateful_bind, record_sent, modify, Stateful.get, db_error,
    lift, ddl.
  cbn [current working committed sent]. intros H [Hcom Hwork].
  destruct st as [n|b n|n defs|n cols k].
  - injection H as _ <-. cbn [committed working current sent].
    assert (keeps_table t match working c !! n with
                          | Some _ => working c
                          | None => <[n := ∅]> (working c)
                          end) as Hk.
    { destruct (working c !! n) eqn:E; [exact Hwork|].
      apply keeps_table_other; [|exact Hwork]. intros ->.
      destruct Hwork as (t' & Ht & _). unfold table_of, mbind in Ht.
      rewrite E in Ht. discriminate. }
    split; exact Hk.
  - destruct (working c !! n); injection H as _ <-; split; assumption.
  - destruct defs as [|d0 defs]; [injection H as _ <-; split; assumption|].
    destruct (current c) as [d|]; [|injection H as _ <-; split; assumption].
    destruct (working c !! d) as [tables|] eqn:Ed; [|injection H as _ <-; split; assumption].
    destruct (tables !! n) as [t1|] eqn:En.
    + injection H as _ <-. split; exact Hwork.
    + destruct (repeated _ _); [injection H as _ <-; split; assumption|].
      injection H as _ <-. cbn [committed working current sent].
      assert (keeps_table t (<[d := <[n := mkTable (id_column :: d0 :: defs) [] 1]> tables]>
                               (working c))) as Hk.
      { destruct (decide (d = DB_NAME)) as [->|Hd]; [|by apply keeps_table_other].
        destruct Hwork as (t' & Ht & Hrest). exists t'. split; [|exact Hrest].
        unfold table_of, mbind in *. rewrite lookup_insert_eq. rewrite Ed in Ht.
        cbn [option_bind] in *.
        rewrite lookup_insert_ne; [exact Ht|]. intros E. subst n. congruence. }
      split; exact Hk.
  - destruct (comprehension to_mysql params) as [vals|e];
      [|injection H as _ <-; split; assumption].
    destruct (negb (Nat.eqb (length params) k)); [injection H as _ <-; split; assumption|].
    destruct (current c) as [d|]; [|injection H as _ <-; split; assumption].
    destruct (option_bind _ _ _ (working c !! d)) as [t1|] eqn:Et;
      [|injection H as _ <-; split; assumption].
    destruct (head _); [injection H as _ <-; split; assumption|].
    destruct (repeated [] cols); [injection H as _ <-; split; assumption|].
    destruct (insert_row t1 cols vals) as [t2|e] eqn:Hrow;
      [|injection H as _ <-; split; assumption].
    destruct (insert_row_inv _ _ _ _ Hrow) as (row & Hcols2 & Hrows2).
    injection H as _ <-. cbn [committed working current sent]. split; [exact Hcom|].
    destruct (working c !! d) as [tables|] eqn:Ed; [|discriminate]. cbn [option_bind] in Et.
    destruct (decide (d = DB_NAME)) as [->|Hd].
    + destruct Hwork as (t' & Ht & Hcols & news & Hrows).
      unfold table_of, mbind in Ht. rewrite Ed in Ht. cbn [option_bind] in Ht.
      destruct (decide (n = TABLE_NAME)) as [->|Hn].
      * rewrite Et in Ht. injection Ht as ->.
        exists t2. split.
        { unfold table_of, mbind. cbn [working]. rewrite lookup_alter_eq, Ed.
          apply lookup_insert_eq. }
        split; [congruence|]. exists (news ++ [row]).
        rewrite Hrows2, Hrows, <- app_assoc. reflexivity.
      * exists t'. split; [|eauto].
        unfold table_of, mbind. cbn [working]. rewrite lookup_alter_eq, Ed.
        cbn [fmap option_fmap option_map option_bind].
        rewrite lookup_insert_ne by exact Hn. exact Ht.
    + destruct Hwork as (t' & Ht & Hrest). exists t'. split; [|exact Hrest].
      unfold table_of, mbind in *. cbn [working]. rewrite lookup_alter_ne by exact Hd.
      exact Ht.
Qed.

Lemma preserves_commit (t : table) : preserves t commit.
Proof.
  intros c r c'. unfold commit, modify. intros [= _ <-] [_ H]. split; exact H.
Qed.



End LoadBehaviour.

(** ** More of the cells: a failed extract, a failed transform, the query cell, a page that can be read *)

Module PipelineBehaviour.
Import Etl Spec Examples Behaviour Float64 PyProofs ExtractProofs ConvertProofs
  TransformProofs PipelineProofs LoadProofs
  ExtractBehaviour ConvertBehaviour TransformBehaviour LoadBehaviour.







Lemma extract_kept_records (w : env) (soup t : node) :
  web w URL = Ok soup ->
  find_all "tbody" soup !! 2 = Some t ->
  Forall (fun row => extractable row = true) (find_all "tr" t) ->
  extract w URL TABLE_ATTRIBS
  = Ok (frame_of_records (map record (List.filter kept (find_all "tr" t)))).
Proof.
  intros Hw Ht Hi. unfold extract, table_rows. rewrite Hw. simpl.
  rewrite (getitem_lookup _ _ _ Ht). simpl.
  apply (extract_rows_from _ [] Hi).
Qed.

Lemma convert_grouped (rows : list node) :
  Forall (fun row => grouped_gdp row = true) rows ->
  convert (map (fun row => snd (record row)) rows)
  = Ok (map (fun row => PFloat (to_billions (of_Z (gdp_millions row)))) rows).
Proof.
  intros H. unfold convert.
  assert (comprehension to_float (map (fun row => snd (record row)) rows)
          = Ok (map (fun row => of_Z (gdp_millions row)) rows)) as ->.
  { induction H as [|row rows Hrow _ IH]; [reflexivity|].
    cbn [map comprehension]. rewrite IH.
    unfold grouped_gdp in Hrow. unfold gdp_millions.
    destruct (snd (record row)) as [s| |]; try discriminate.
    rewrite (to_float_grouped s Hrow). reflexivity. }
  simpl. rewrite map_map. reflexivity.
Qed.

Lemma transform_kept_records (rows : list node) (l : nat) (h : gmap nat DataFrame) :
  h !! l = Some (frame_of_records (map record rows)) ->
  Forall (fun row => grouped_gdp row = true) rows ->
  exists l' h',
    transform l h = (Ok l', h') /\ h' !! l' = Some (final_frame rows).
Proof.
  intros Hl Hg.
  set (c := map (fun row => PFloat (to_billions (of_Z (gdp_millions row)))) rows).
  pose proof (convert_grouped rows Hg) as Hc. fold c in Hc.
  eexists _, _. split.
  - apply (transform_converts l h _ (mkSeries object (map snd (map record rows))) c Hl).
    + unfold rectangular, frame_of_records, nrows. simpl.
      repeat constructor; simpl; by rewrite !length_map.
    + reflexivity.
    + simpl. rewrite map_map. exact Hc.
    + simpl. unfold c. by rewrite !length_map.
    + unfold c. clear. induction rows; simpl; auto.
  - rewrite lookup_insert_eq. unfold final_frame. fold c.
    unfold renamed, updated, frame_of_records. cbn. rewrite map_map. reflexivity.
Qed.







End PipelineBehaviour.
